(** * Aggregation engine of scripts/Aggregate_Meta_Stats.py

    A shallow embedding of the five reducers and of the summary composer,
    and the properties of the specification checked against it.

    Modelling conventions.
    - The input is what [json.loads] delivers: [None], booleans, numbers,
      strings, lists and dicts with string keys ([json]).  A string is a
      sequence of bytes, ordered byte by byte.
    - Python numbers are exact rationals ([Q]); an [int] is a rational with
      denominator 1.  Binary floating-point rounding and the non-finite
      floats are outside the model.  Counters that the code only ever
      increments by one are integers ([Z]).
    - A Python [dict] is an association list in insertion order; a key is
      stored once, in normal form ([pykey]), so that [1], [1.0] and [True]
      are one key as they are for Python.
    - A statement that can raise returns an [outcome]: the mutated state is
      kept in both cases, as the mutation of a Python object survives the
      exception.  An expression that can raise returns a [result]. *)

From Stdlib Require Import List String Ascii Bool ZArith QArith Qround Qabs.
From Stdlib Require Import DecimalString Lia Lqa Permutation Sorted OrderedTypeEx.
Import ListNotations.

Local Open Scope Z_scope.

(** ** Python values *)

Local Unset Elimination Schemes.

Inductive json : Type :=
| JNull
| JBool (b : bool)
| JNum (q : Q)
| JStr (s : string)
| JList (l : list json)
| JDict (kv : list (string * json)).

Local Set Elimination Schemes.

Inductive pyerr : Type :=
| TypeError
| KeyError
| AttributeError
| ZeroDivisionError.

Inductive result (A : Type) : Type :=
| Ok (a : A)
| Err (e : pyerr).
Arguments Ok {A} a.
Arguments Err {A} e.

Definition rbind {A B : Type} (r : result A) (k : A -> result B) : result B :=
  match r with
  | Ok a => k a
  | Err e => Err e
  end.

Notation "x <- r ;; k" := (rbind r (fun x => k))
  (at level 61, r at next level, right associativity).

(** A statement run on a mutable state [S]. *)
Inductive outcome (S : Type) : Type :=
| Normal (s : S)
| Raise (e : pyerr) (s : S).
Arguments Normal {S} s.
Arguments Raise {S} e s.

Definition state_of {S : Type} (o : outcome S) : S :=
  match o with
  | Normal s => s
  | Raise _ s => s
  end.

Definition raised {S : Type} (o : outcome S) : bool :=
  match o with
  | Normal _ => false
  | Raise _ _ => true
  end.

Definition seq {S : Type} (f g : S -> outcome S) (s : S) : outcome S :=
  match f s with
  | Normal s' => g s'
  | Raise e s' => Raise e s'
  end.

Infix ">>>" := seq (at level 62, left associativity).

Definition omap {S T : Type} (f : S -> T) (o : outcome S) : outcome T :=
  match o with
  | Normal s => Normal (f s)
  | Raise e s => Raise e (f s)
  end.

(** [for x in l: body], stopping at the first statement that raises. *)
Fixpoint for_each {S X : Type} (body : S -> X -> outcome S) (l : list X) (s : S)
  : outcome S :=
  match l with
  | [] => Normal s
  | x :: l' =>
      match body s x with
      | Normal s' => for_each body l' s'
      | Raise e s' => Raise e s'
      end
  end.

(** [for x in l: try: body except Exception: continue] *)
Definition for_each_try {S X : Type} (body : S -> X -> outcome S) (l : list X) (s : S)
  : S :=
  fold_left (fun s x => state_of (body s x)) l s.

(** Truth value of an object, as [if v:] and [not v] test it. *)
Definition truthy (v : json) : bool :=
  match v with
  | JNull => false
  | JBool b => b
  | JNum q => negb (Qeq_bool q 0%Q)
  | JStr s => negb (String.eqb s "")
  | JList l => match l with [] => false | _ :: _ => true end
  | JDict kv => match kv with [] => false | _ :: _ => true end
  end.

(** [a or b] *)
Definition py_or (a b : json) : json := if truthy a then a else b.

Fixpoint assoc (k : string) (kv : list (string * json)) : option json :=
  match kv with
  | [] => None
  | (k', v) :: kv' => if String.eqb k k' then Some v else assoc k kv'
  end.

(** [d.get(k, dflt)] on the items [kv] of a dict. *)
Definition get (kv : list (string * json)) (k : string) (dflt : json) : json :=
  match assoc k kv with
  | Some v => v
  | None => dflt
  end.

(** [v == s] for a string literal [s]. *)
Definition is_str (s : string) (v : json) : bool :=
  match v with
  | JStr s' => String.eqb s s'
  | _ => false
  end.

Fixpoint contains (needle hay : string) : bool :=
  if prefix needle hay then true
  else match hay with
       | EmptyString => false
       | String _ hay' => contains needle hay'
       end.

(** The guarded subscript [if name not in m: continue] followed by
    [m[name]].  Only a dict gets through; on a list or a string the
    membership test is an element or substring test and the subscript then
    raises; [None], booleans and numbers are no containers. *)
Inductive lookup : Type :=
| Absent
| Fails (e : pyerr)
| Present (v : json).

Definition subscript_if_in (name : string) (m : json) : lookup :=
  match m with
  | JDict kv =>
      match assoc name kv with
      | Some v => Present v
      | None => Absent
      end
  | JList l => if existsb (is_str name) l then Fails TypeError else Absent
  | JStr s => if contains name s then Fails TypeError else Absent
  | _ => Fails TypeError
  end.

Fixpoint chars (s : string) : list json :=
  match s with
  | EmptyString => []
  | String c s' => JStr (String c EmptyString) :: chars s'
  end.

(** The elements [for x in v] visits. *)
Definition py_iter (v : json) : result (list json) :=
  match v with
  | JList l => Ok l
  | JDict kv => Ok (map (fun p => JStr (fst p)) kv)
  | JStr s => Ok (chars s)
  | _ => Err TypeError
  end.

(** The number an object is in arithmetic, if it is one. *)
Definition as_number (v : json) : option Q :=
  match v with
  | JNum q => Some q
  | JBool b => Some (if b then 1%Q else 0%Q)
  | _ => None
  end.

(** [a > b] *)
Definition Q_gtb (a b : Q) : bool := negb (Qle_bool a b).

(** [a / b] *)
Definition py_div (a b : Q) : result Q :=
  if Qeq_bool b 0%Q then Err ZeroDivisionError else Ok (a / b)%Q.

(** [sum(l)] *)
Fixpoint sum_from (acc : Q) (l : list json) : result Q :=
  match l with
  | [] => Ok acc
  | v :: l' =>
      match as_number v with
      | Some q => sum_from (acc + q)%Q l'
      | None => Err TypeError
      end
  end.

Definition py_sum (l : list json) : result Q := sum_from 0%Q l.

Definition len {A : Type} (l : list A) : Z := Z.of_nat (List.length l).

(** Nearest integer, a tie going to the even neighbour. *)
Definition round_half_even (q : Q) : Z :=
  let f := Qfloor q in
  match Qcompare (q - inject_Z f)%Q (1 # 2)%Q with
  | Lt => f
  | Gt => f + 1
  | Eq => if Z.even f then f else f + 1
  end.

Definition pow10 (nd : nat) : Q := inject_Z (10 ^ Z.of_nat nd).

(** [round(q, nd)] *)
Definition py_round (q : Q) (nd : nat) : Q :=
  (inject_Z (round_half_even (q * pow10 nd)%Q) / pow10 nd)%Q.

(** ** Dictionary keys *)

Inductive pykey : Type :=
| KNone
| KNum (q : Q)
| KStr (s : string).

(** [hash(v)] succeeds on everything but lists and dicts. *)
Definition to_key (v : json) : result pykey :=
  match v with
  | JNull => Ok KNone
  | JBool b => Ok (KNum (if b then 1%Q else 0%Q))
  | JNum q => Ok (KNum (Qred q))
  | JStr s => Ok (KStr s)
  | JList _ | JDict _ => Err TypeError
  end.

Definition Q_eqb (a b : Q) : bool :=
  Z.eqb (Qnum a) (Qnum b) && Pos.eqb (Qden a) (Qden b).

Definition key_eqb (a b : pykey) : bool :=
  match a, b with
  | KNone, KNone => true
  | KNum p, KNum q => Q_eqb p q
  | KStr s, KStr t => String.eqb s t
  | _, _ => false
  end.

(** ** Insertion-ordered dictionaries *)

Section OrderedDict.
Context {K V : Type} (eqb : K -> K -> bool).

Definition dict : Type := list (K * V).

Fixpoint od_find (k : K) (d : dict) : option V :=
  match d with
  | [] => None
  | (k', v) :: d' => if eqb k k' then Some v else od_find k d'
  end.

(** [d[k] = v]: a known key keeps its place, a new one goes last. *)
Fixpoint od_set (k : K) (v : V) (d : dict) : dict :=
  match d with
  | [] => [(k, v)]
  | (k', v') :: d' =>
      if eqb k k' then (k', v) :: d' else (k', v') :: od_set k v d'
  end.

(** The value [d[k]] of a [defaultdict] whose factory yields [dflt]. *)
Definition od_get (dflt : V) (k : K) (d : dict) : V :=
  match od_find k d with
  | Some v => v
  | None => dflt
  end.

Definition od_mem (k : K) (d : dict) : bool :=
  match od_find k d with
  | Some _ => true
  | None => false
  end.
End OrderedDict.

(** [d[k] += 1] on a [defaultdict(int)] *)
Definition incr {K : Type} (eqb : K -> K -> bool) (k : K) (d : list (K * Z))
  : list (K * Z) :=
  od_set eqb k (od_get eqb 0 k d + 1) d.

Definition key_dict (V : Type) : Type := list (pykey * V).

(** [max(d, key=d.get)]: the first key with the greatest count. *)
Fixpoint first_max {K : Type} (best : K * Z) (l : list (K * Z)) : K :=
  match l with
  | [] => fst best
  | (k, c) :: l' =>
      if snd best <? c then first_max (k, c) l' else first_max best l'
  end.

(** [round(sum(l) / len(l), 2) if l else 0] *)
Definition average (l : list json) : result Q :=
  match l with
  | [] => Ok 0%Q
  | _ :: _ =>
      s <- py_sum l ;;
      a <- py_div s (inject_Z (len l)) ;;
      Ok (py_round a 2)
  end.

(** ** Entity Stats reducer: [aggregate_champion_stats] *)

Module Champion.

Inductive total : Type :=
| kills | deaths | assists | total_damage | total_cs | total_gold
| total_vision_score.

Inductive series : Type :=
| cs_per_min_samples | gold_per_min_samples | vision_per_min_samples
| damage_per_min_samples | kda_samples.

Definition total_eqb (a b : total) : bool :=
  match a, b with
  | kills, kills | deaths, deaths | assists, assists
  | total_damage, total_damage | total_cs, total_cs
  | total_gold, total_gold | total_vision_score, total_vision_score => true
  | _, _ => false
  end.

Definition series_eqb (a b : series) : bool :=
  match a, b with
  | cs_per_min_samples, cs_per_min_samples
  | gold_per_min_samples, gold_per_min_samples
  | vision_per_min_samples, vision_per_min_samples
  | damage_per_min_samples, damage_per_min_samples
  | kda_samples, kda_samples => true
  | _, _ => false
  end.

(** The per-champion entry of [champion_data]. *)
Record data : Type := mk_data {
  games : Z;
  wins : Z;
  totals : total -> Q;
  positions : list (pykey * Z);
  samples : series -> list json
}.

(** The value the [defaultdict] factory builds. *)
Definition fresh : data :=
  {| games := 0; wins := 0; totals := fun _ => 0%Q; positions := [];
     samples := fun _ => [] |}.

Definition set_games (g : Z) (s : data) : data :=
  {| games := g; wins := wins s; totals := totals s;
     positions := positions s; samples := samples s |}.

Definition set_wins (w : Z) (s : data) : data :=
  {| games := games s; wins := w; totals := totals s;
     positions := positions s; samples := samples s |}.

Definition set_total (f : total) (q : Q) (s : data) : data :=
  {| games := games s; wins := wins s;
     totals := fun f' => if total_eqb f f' then q else totals s f';
     positions := positions s; samples := samples s |}.

Definition set_positions (p : list (pykey * Z)) (s : data) : data :=
  {| games := games s; wins := wins s; totals := totals s;
     positions := p; samples := samples s |}.

Definition set_samples (f : series) (l : list json) (s : data) : data :=
  {| games := games s; wins := wins s; totals := totals s;
     positions := positions s;
     samples := fun f' => if series_eqb f f' then l else samples s f' |}.

(** One entry of the reducer's output. *)
Record stats : Type := mk_stats {
  games_played : Z;
  wins_out : Z;
  win_rate : Q;
  pick_rate : Q;
  avg_kills : Q;
  avg_deaths : Q;
  avg_assists : Q;
  avg_kda : Q;
  avg_damage : Q;
  avg_damage_per_min : Q;
  avg_cs : Q;
  avg_cs_per_min : Q;
  avg_gold_earned : Q;
  avg_gold_per_min : Q;
  gold_efficiency : Q;
  avg_vision_score : Q;
  avg_vision_per_min : Q;
  primary_position : pykey;
  position_flexibility : Z
}.

Definition set_pick_rate (r : Q) (s : stats) : stats :=
  {| games_played := games_played s; wins_out := wins_out s;
     win_rate := win_rate s; pick_rate := r;
     avg_kills := avg_kills s; avg_deaths := avg_deaths s;
     avg_assists := avg_assists s; avg_kda := avg_kda s;
     avg_damage := avg_damage s;
     avg_damage_per_min := avg_damage_per_min s;
     avg_cs := avg_cs s; avg_cs_per_min := avg_cs_per_min s;
     avg_gold_earned := avg_gold_earned s;
     avg_gold_per_min := avg_gold_per_min s;
     gold_efficiency := gold_efficiency s;
     avg_vision_score := avg_vision_score s;
     avg_vision_per_min := avg_vision_per_min s;
     primary_position := primary_position s;
     position_flexibility := position_flexibility s |}.

End Champion.

(** [stats[f] += v] *)
Definition add_total (f : Champion.total) (v : json) (s : Champion.data)
  : outcome Champion.data :=
  match as_number v with
  | Some q => Normal (Champion.set_total f (Champion.totals s f + q)%Q s)
  | None => Raise TypeError s
  end.

(** [stats[f].append(v)] *)
Definition append_sample (f : Champion.series) (v : json) (s : Champion.data)
  : outcome Champion.data :=
  Normal (Champion.set_samples f (Champion.samples s f ++ [v]) s).

(** [participant.get('position', '') or
     participant.get('individual_position', '')] *)
Definition position_of (kv : list (string * json)) : json :=
  py_or (get kv "position" (JStr "")) (get kv "individual_position" (JStr "")).

(** Lines 100-103: position tracking. *)
Definition track_position (kv : list (string * json)) (s : Champion.data)
  : outcome Champion.data :=
  let position := position_of kv in
  if truthy position then
    match to_key position with
    | Ok k =>
        Normal (Champion.set_positions
                  (incr key_eqb k (Champion.positions s)) s)
    | Err e => Raise e s
    end
  else Normal s.

(** Lines 83-103, run on the entry [stats] of the participant's champion. *)
Definition update_stats (kv : list (string * json))
  : Champion.data -> outcome Champion.data :=
  (fun s => Normal (Champion.set_games (Champion.games s + 1) s))
  >>> (fun s =>
         Normal (Champion.set_wins
                   (Champion.wins s
                    + (if truthy (get kv "win" (JBool false)) then 1 else 0))
                   s))
  >>> add_total Champion.kills (get kv "kills" (JNum 0))
  >>> add_total Champion.deaths (get kv "deaths" (JNum 0))
  >>> add_total Champion.assists (get kv "assists" (JNum 0))
  >>> add_total Champion.total_damage (get kv "damage_dealt_champions" (JNum 0))
  >>> add_total Champion.total_cs (get kv "total_cs" (JNum 0))
  >>> add_total Champion.total_gold (get kv "gold_earned" (JNum 0))
  >>> add_total Champion.total_vision_score (get kv "vision_score" (JNum 0))
  >>> append_sample Champion.cs_per_min_samples (get kv "cs_per_min" (JNum 0))
  >>> append_sample Champion.gold_per_min_samples (get kv "gold_per_min" (JNum 0))
  >>> append_sample Champion.vision_per_min_samples
        (get kv "vision_per_min" (JNum 0))
  >>> append_sample Champion.damage_per_min_samples
        (get kv "damage_per_min" (JNum 0))
  >>> append_sample Champion.kda_samples (get kv "kda" (JNum 0))
  >>> track_position kv.

(** Lines 78-103: the body of the loop over the participants.  The entry of
    the champion is created by the subscript of the [defaultdict] and is
    mutated in place, so what was added before a statement raises stays. *)
Definition champion_participant (d : key_dict Champion.data) (p : json)
  : outcome (key_dict Champion.data) :=
  match p with
  | JDict kv =>
      let champion := get kv "champion" (JStr "Unknown") in
      if is_str "Unknown" champion then Normal d
      else
        match to_key champion with
        | Err e => Raise e d
        | Ok c =>
            omap (fun s => od_set key_eqb c s d)
                 (update_stats kv (od_get key_eqb Champion.fresh c d))
        end
  | _ => Raise AttributeError d
  end.

(** Lines 74-103: the body of the [try] of one match. *)
Definition champion_match (d : key_dict Champion.data) (m : json)
  : outcome (key_dict Champion.data) :=
  match subscript_if_in "participants" m with
  | Absent => Normal d
  | Fails e => Raise e d
  | Present ps =>
      match py_iter ps with
      | Err e => Raise e d
      | Ok l => for_each champion_participant l d
      end
  end.

(** Lines 54-106: [champion_data] once the loop over the matches is over. *)
Definition champion_data (matches : list json) : key_dict Champion.data :=
  for_each_try champion_match matches [].

(** [len([p for p, count in positions.items() if count / games > 0.1])] *)
Fixpoint flexibility (games : Z) (l : list (pykey * Z)) : result Z :=
  match l with
  | [] => Ok 0
  | (_, count) :: l' =>
      r <- py_div (inject_Z count) (inject_Z games) ;;
      n <- flexibility games l' ;;
      Ok (if Q_gtb r (1 # 10) then n + 1 else n)
  end.

(** Lines 115-145: the entry built for one champion. *)
Definition champion_entry (data : Champion.data) : result Champion.stats :=
  let games := inject_Z (Champion.games data) in
  let tot := Champion.totals data in
  let smp := Champion.samples data in
  wr <- py_div (inject_Z (Champion.wins data)) games ;;
  ak <- py_div (tot Champion.kills) games ;;
  ad <- py_div (tot Champion.deaths) games ;;
  aa <- py_div (tot Champion.assists) games ;;
  kda <- average (smp Champion.kda_samples) ;;
  dmg <- py_div (tot Champion.total_damage) games ;;
  dpm <- average (smp Champion.damage_per_min_samples) ;;
  cs <- py_div (tot Champion.total_cs) games ;;
  cpm <- average (smp Champion.cs_per_min_samples) ;;
  gold <- py_div (tot Champion.total_gold) games ;;
  gpm <- average (smp Champion.gold_per_min_samples) ;;
  eff <- (if Q_gtb (tot Champion.total_gold) 0
          then
            e <- py_div (tot Champion.total_damage) (tot Champion.total_gold) ;;
            Ok (py_round (e * 1000) 2)
          else Ok 0%Q) ;;
  vis <- py_div (tot Champion.total_vision_score) games ;;
  vpm <- average (smp Champion.vision_per_min_samples) ;;
  flex <- flexibility (Champion.games data) (Champion.positions data) ;;
  Ok {| Champion.games_played := Champion.games data;
        Champion.wins_out := Champion.wins data;
        Champion.win_rate := py_round (wr * 100) 2;
        Champion.pick_rate := 0;
        Champion.avg_kills := py_round ak 2;
        Champion.avg_deaths := py_round ad 2;
        Champion.avg_assists := py_round aa 2;
        Champion.avg_kda := kda;
        Champion.avg_damage := py_round dmg 0;
        Champion.avg_damage_per_min := dpm;
        Champion.avg_cs := py_round cs 1;
        Champion.avg_cs_per_min := cpm;
        Champion.avg_gold_earned := py_round gold 0;
        Champion.avg_gold_per_min := gpm;
        Champion.gold_efficiency := eff;
        Champion.avg_vision_score := py_round vis 1;
        Champion.avg_vision_per_min := vpm;
        Champion.primary_position :=
          match Champion.positions data with
          | [] => KStr "UNKNOWN"
          | p :: l => first_max p l
          end;
        Champion.position_flexibility := flex |}.

(** Lines 109-145: the loop that fills [aggregated_stats]. *)
Fixpoint champion_entries (items : key_dict Champion.data)
  (out : key_dict Champion.stats) : result (key_dict Champion.stats) :=
  match items with
  | [] => Ok out
  | (champion, data) :: items' =>
      if Champion.games data =? 0 then champion_entries items' out
      else
        e <- champion_entry data ;;
        champion_entries items' (od_set key_eqb champion e out)
  end.

(** [sum(stats['games_played'] for stats in aggregated_stats.values())] *)
Definition total_picks (out : key_dict Champion.stats) : Z :=
  fold_left (fun t e => t + Champion.games_played (snd e)) out 0.

(** Lines 150-151: the loop that writes the pick rates. *)
Fixpoint write_pick_rates (total : Z) (out : key_dict Champion.stats)
  : result (key_dict Champion.stats) :=
  match out with
  | [] => Ok []
  | (champion, s) :: out' =>
      r <- py_div (inject_Z (Champion.games_played s)) (inject_Z total) ;;
      rest <- write_pick_rates total out' ;;
      Ok ((champion, Champion.set_pick_rate (py_round (r * 100) 2) s) :: rest)
  end.

Definition aggregate_champion_stats (matches : list json)
  : result (key_dict Champion.stats) :=
  aggregated_stats <- champion_entries (champion_data matches) [] ;;
  let total := total_picks aggregated_stats in
  if 0 <? total then write_pick_rates total aggregated_stats
  else Ok aggregated_stats.

(** ** Stable descending sort: [sorted(l, key=..., reverse=True)] *)

Section SortedReverse.
Context {A : Type} (key : A -> Q).

(** [x] stood before every element of [l]: it goes in front of the first
    element whose key is not greater than its own. *)
Fixpoint insert_desc (x : A) (l : list A) : list A :=
  match l with
  | [] => [x]
  | y :: l' =>
      if Q_gtb (key y) (key x) then y :: insert_desc x l' else x :: y :: l'
  end.

Definition sorted_reverse (l : list A) : list A :=
  fold_right insert_desc [] l.
End SortedReverse.

(** ** Role Stats reducer: [aggregate_role_meta] *)

Module Role.

Inductive total : Type :=
| total_gold | total_vision | total_damage | total_cs.

Inductive series : Type :=
| gold_per_min_samples | vision_per_min_samples.

Definition total_eqb (a b : total) : bool :=
  match a, b with
  | total_gold, total_gold | total_vision, total_vision
  | total_damage, total_damage | total_cs, total_cs => true
  | _, _ => false
  end.

Definition series_eqb (a b : series) : bool :=
  match a, b with
  | gold_per_min_samples, gold_per_min_samples
  | vision_per_min_samples, vision_per_min_samples => true
  | _, _ => false
  end.

(** The per-role entry of [role_data]. *)
Record data : Type := mk_data {
  games : Z;
  wins : Z;
  totals : total -> Q;
  champions : list (pykey * Z);
  samples : series -> list json
}.

Definition fresh : data :=
  {| games := 0; wins := 0; totals := fun _ => 0%Q; champions := [];
     samples := fun _ => [] |}.

Definition set_games (g : Z) (s : data) : data :=
  {| games := g; wins := wins s; totals := totals s;
     champions := champions s; samples := samples s |}.

Definition set_wins (w : Z) (s : data) : data :=
  {| games := games s; wins := w; totals := totals s;
     champions := champions s; samples := samples s |}.

Definition set_total (f : total) (q : Q) (s : data) : data :=
  {| games := games s; wins := wins s;
     totals := fun f' => if total_eqb f f' then q else totals s f';
     champions := champions s; samples := samples s |}.

Definition set_champions (c : list (pykey * Z)) (s : data) : data :=
  {| games := games s; wins := wins s; totals := totals s;
     champions := c; samples := samples s |}.

Definition set_samples (f : series) (l : list json) (s : data) : data :=
  {| games := games s; wins := wins s; totals := totals s;
     champions := champions s;
     samples := fun f' => if series_eqb f f' then l else samples s f' |}.

Record top_champion : Type := mk_top {
  champion : pykey;
  top_games : Z;
  pick_rate_in_role : Q
}.

Record stats : Type := mk_stats {
  games_played : Z;
  win_rate : Q;
  avg_gold : Q;
  avg_gold_per_min : Q;
  avg_vision_score : Q;
  avg_vision_per_min : Q;
  avg_damage : Q;
  avg_cs : Q;
  top_champions : list top_champion
}.

End Role.

Definition role_add_total (f : Role.total) (v : json) (s : Role.data)
  : outcome Role.data :=
  match as_number v with
  | Some q => Normal (Role.set_total f (Role.totals s f + q)%Q s)
  | None => Raise TypeError s
  end.

Definition role_append_sample (f : Role.series) (v : json) (s : Role.data)
  : outcome Role.data :=
  Normal (Role.set_samples f (Role.samples s f ++ [v]) s).

(** Lines 190-192 *)
Definition count_champion (kv : list (string * json)) (s : Role.data)
  : outcome Role.data :=
  let champion := get kv "champion" (JStr "Unknown") in
  if is_str "Unknown" champion then Normal s
  else
    match to_key champion with
    | Ok c => Normal (Role.set_champions (incr key_eqb c (Role.champions s)) s)
    | Err e => Raise e s
    end.

(** Lines 180-192, run on the entry [role] of the participant's position. *)
Definition update_role (kv : list (string * json))
  : Role.data -> outcome Role.data :=
  (fun s => Normal (Role.set_games (Role.games s + 1) s))
  >>> (fun s =>
         Normal (Role.set_wins
                   (Role.wins s
                    + (if truthy (get kv "win" (JBool false)) then 1 else 0))
                   s))
  >>> role_add_total Role.total_gold (get kv "gold_earned" (JNum 0))
  >>> role_add_total Role.total_vision (get kv "vision_score" (JNum 0))
  >>> role_add_total Role.total_damage (get kv "damage_dealt_champions" (JNum 0))
  >>> role_add_total Role.total_cs (get kv "total_cs" (JNum 0))
  >>> role_append_sample Role.gold_per_min_samples (get kv "gold_per_min" (JNum 0))
  >>> role_append_sample Role.vision_per_min_samples
        (get kv "vision_per_min" (JNum 0))
  >>> count_champion kv.

(** Lines 175-192 *)
Definition role_participant (d : key_dict Role.data) (p : json)
  : outcome (key_dict Role.data) :=
  match p with
  | JDict kv =>
      let position := position_of kv in
      if negb (truthy position) || is_str "Invalid" position then Normal d
      else
        match to_key position with
        | Err e => Raise e d
        | Ok r =>
            omap (fun s => od_set key_eqb r s d)
                 (update_role kv (od_get key_eqb Role.fresh r d))
        end
  | _ => Raise AttributeError d
  end.

Definition role_match (d : key_dict Role.data) (m : json)
  : outcome (key_dict Role.data) :=
  match subscript_if_in "participants" m with
  | Absent => Normal d
  | Fails e => Raise e d
  | Present ps =>
      match py_iter ps with
      | Err e => Raise e d
      | Ok l => for_each role_participant l d
      end
  end.

Definition role_data (matches : list json) : key_dict Role.data :=
  for_each_try role_match matches [].

(** Lines 215-222 *)
Fixpoint top_champion_rows (games : Z) (top : list (pykey * Z))
  : result (list Role.top_champion) :=
  match top with
  | [] => Ok []
  | (champ, count) :: top' =>
      r <- py_div (inject_Z count) (inject_Z games) ;;
      rest <- top_champion_rows games top' ;;
      Ok ({| Role.champion := champ; Role.top_games := count;
             Role.pick_rate_in_role := py_round (r * 100) 2 |} :: rest)
  end.

(** Lines 204-223 *)
Definition role_entry (data : Role.data) : result Role.stats :=
  let games := inject_Z (Role.games data) in
  let tot := Role.totals data in
  let smp := Role.samples data in
  let top_champions :=
    firstn 10 (sorted_reverse (fun x => inject_Z (snd x)) (Role.champions data)) in
  wr <- py_div (inject_Z (Role.wins data)) games ;;
  gold <- py_div (tot Role.total_gold) games ;;
  gpm <- average (smp Role.gold_per_min_samples) ;;
  vis <- py_div (tot Role.total_vision) games ;;
  vpm <- average (smp Role.vision_per_min_samples) ;;
  dmg <- py_div (tot Role.total_damage) games ;;
  cs <- py_div (tot Role.total_cs) games ;;
  rows <- top_champion_rows (Role.games data) top_champions ;;
  Ok {| Role.games_played := Role.games data;
        Role.win_rate := py_round (wr * 100) 2;
        Role.avg_gold := py_round gold 0;
        Role.avg_gold_per_min := gpm;
        Role.avg_vision_score := py_round vis 1;
        Role.avg_vision_per_min := vpm;
        Role.avg_damage := py_round dmg 0;
        Role.avg_cs := py_round cs 1;
        Role.top_champions := rows |}.

Fixpoint role_entries (items : key_dict Role.data) (out : key_dict Role.stats)
  : result (key_dict Role.stats) :=
  match items with
  | [] => Ok out
  | (position, data) :: items' =>
      if Role.games data =? 0 then role_entries items' out
      else
        e <- role_entry data ;;
        role_entries items' (od_set key_eqb position e out)
  end.

Definition aggregate_role_meta (matches : list json)
  : result (key_dict Role.stats) :=
  role_entries (role_data matches) [].

(** ** Build Stats reducer: [aggregate_item_builds] *)

(** [a < b], defined between two numbers and between two strings. *)
Definition py_lt (a b : json) : result bool :=
  match as_number a, as_number b with
  | Some p, Some q => Ok (Q_gtb q p)
  | _, _ =>
      match a, b with
      | JStr s, JStr t => Ok (String.ltb s t)
      | _, _ => Err TypeError
      end
  end.

Fixpoint insert_sorted (x : json) (l : list json) : result (list json) :=
  match l with
  | [] => Ok [x]
  | y :: l' =>
      c <- py_lt y x ;;
      if c then rest <- insert_sorted x l' ;; Ok (y :: rest)
      else Ok (x :: y :: l')
  end.

Fixpoint sort_list (l : list json) : result (list json) :=
  match l with
  | [] => Ok []
  | x :: l' => s <- sort_list l' ;; insert_sorted x s
  end.

(** [sorted(v)]: a stable ascending sort of the elements of [v].  Items that
    are themselves lists are compared by Python and the tuple of them cannot
    be hashed afterwards; here their comparison raises already. *)
Definition py_sorted (v : json) : result (list json) :=
  l <- py_iter v ;; sort_list l.

(** The hashable value of [tuple(l)]. *)
Fixpoint tuple_key (l : list json) : result (list pykey) :=
  match l with
  | [] => Ok []
  | v :: l' => k <- to_key v ;; ks <- tuple_key l' ;; Ok (k :: ks)
  end.

Fixpoint tuple_eqb (a b : list pykey) : bool :=
  match a, b with
  | [], [] => true
  | x :: a', y :: b' => key_eqb x y && tuple_eqb a' b'
  | _, _ => false
  end.

Module Build.

Definition counts : Type := list (list pykey * Z).

Record top_build : Type := mk_top {
  items : list pykey;
  games : Z;
  pick_rate : Q
}.

Record stats : Type := mk_stats {
  total_games : Z;
  top_builds : list top_build
}.

End Build.

(** Lines 237-245.  The subscript [champion_items[champion]] creates the
    entry of the champion before the tuple is hashed. *)
Definition build_participant (d : key_dict Build.counts) (p : json)
  : outcome (key_dict Build.counts) :=
  match p with
  | JDict kv =>
      let champion := get kv "champion" JNull in
      let items := get kv "items" (JList []) in
      if negb (truthy champion) || negb (truthy items) then Normal d
      else
        match py_sorted items with
        | Err e => Raise e d
        | Ok sorted_items =>
            match to_key champion with
            | Err e => Raise e d
            | Ok c =>
                let builds := od_get key_eqb [] c d in
                match tuple_key sorted_items with
                | Err e => Raise e (od_set key_eqb c builds d)
                | Ok item_build =>
                    Normal (od_set key_eqb c (incr tuple_eqb item_build builds) d)
                end
            end
        end
  | _ => Raise AttributeError d
  end.

Definition build_match (d : key_dict Build.counts) (m : json)
  : outcome (key_dict Build.counts) :=
  match subscript_if_in "participants" m with
  | Absent => Normal d
  | Fails e => Raise e d
  | Present ps =>
      match py_iter ps with
      | Err e => Raise e d
      | Ok l => for_each build_participant l d
      end
  end.

Definition champion_items (matches : list json) : key_dict Build.counts :=
  for_each_try build_match matches [].

(** Lines 261-268 *)
Fixpoint top_build_rows (total_games : Z) (top : Build.counts)
  : result (list Build.top_build) :=
  match top with
  | [] => Ok []
  | (build, count) :: top' =>
      r <- py_div (inject_Z count) (inject_Z total_games) ;;
      rest <- top_build_rows total_games top' ;;
      Ok ({| Build.items := build; Build.games := count;
             Build.pick_rate := py_round (r * 100) 2 |} :: rest)
  end.

Definition sum_values {K : Type} (d : list (K * Z)) : Z :=
  fold_left (fun t e => t + snd e) d 0.

Fixpoint build_entries (items : key_dict Build.counts)
  (out : key_dict Build.stats) : result (key_dict Build.stats) :=
  match items with
  | [] => Ok out
  | (champion, builds) :: items' =>
      let total_games := sum_values builds in
      if total_games =? 0 then build_entries items' out
      else
        let top_builds :=
          firstn 5 (sorted_reverse (fun x => inject_Z (snd x)) builds) in
        rows <- top_build_rows total_games top_builds ;;
        build_entries items'
          (od_set key_eqb champion
             {| Build.total_games := total_games; Build.top_builds := rows |}
             out)
  end.

Definition aggregate_item_builds (matches : list json)
  : result (key_dict Build.stats) :=
  build_entries (champion_items matches) [].

(** ** Matchup Stats reducer: [aggregate_matchups] *)

Module Matchup.

(** The value stored in [team_positions[team_id][position]]. *)
Record slot : Type := mk_slot {
  champion : json;
  win : json
}.

(** [team_positions]: the slots of team 100 and those of team 200. *)
Definition teams : Type := (key_dict slot * key_dict slot)%type.

(** The cell [matchup_data[champ1][champ2]]. *)
Record cell : Type := mk_cell {
  wins : Z;
  games : Z
}.

Definition fresh : cell := {| wins := 0; games := 0 |}.

Record stats : Type := mk_stats {
  games_out : Z;
  wins_out : Z;
  win_rate : Q
}.

End Matchup.

Definition matchup_dict : Type := key_dict (key_dict Matchup.cell).

(** Lines 285-296 *)
Definition place_participant (tp : Matchup.teams) (p : json)
  : outcome Matchup.teams :=
  match p with
  | JDict kv =>
      let team_id := get kv "team_id" JNull in
      let position := position_of kv in
      let champion := get kv "champion" JNull in
      let win := get kv "win" (JBool false) in
      if negb (truthy team_id) || negb (truthy position)
         || is_str "Invalid" position || negb (truthy champion)
      then Normal tp
      else
        let slot := {| Matchup.champion := champion; Matchup.win := win |} in
        match to_key team_id with
        | Err e => Raise e tp
        | Ok t =>
            if key_eqb t (KNum 100) then
              match to_key position with
              | Err e => Raise e tp
              | Ok r => Normal (od_set key_eqb r slot (fst tp), snd tp)
              end
            else if key_eqb t (KNum 200) then
              match to_key position with
              | Err e => Raise e tp
              | Ok r => Normal (fst tp, od_set key_eqb r slot (snd tp))
              end
            else Raise KeyError tp
        end
  | _ => Raise AttributeError tp
  end.

(** The subscript [matchup_data[a]]: the row of [a] exists afterwards. *)
Definition touch_row (a : pykey) (d : matchup_dict) : matchup_dict :=
  od_set key_eqb a (od_get key_eqb [] a d) d.

Definition update_cell (f : Matchup.cell -> Matchup.cell) (a b : pykey)
  (d : matchup_dict) : matchup_dict :=
  let row := od_get key_eqb [] a d in
  od_set key_eqb a
    (od_set key_eqb b (f (od_get key_eqb Matchup.fresh b row)) row) d.

(** [matchup_data[a][b]['games'] += 1] *)
Definition add_game : pykey -> pykey -> matchup_dict -> matchup_dict :=
  update_cell (fun c => {| Matchup.wins := Matchup.wins c;
                           Matchup.games := Matchup.games c + 1 |}).

(** [matchup_data[a][b]['wins'] += 1] *)
Definition add_win : pykey -> pykey -> matchup_dict -> matchup_dict :=
  update_cell (fun c => {| Matchup.wins := Matchup.wins c + 1;
                           Matchup.games := Matchup.games c |}).

(** Lines 305-311 *)
Definition record_matchup (champ1 champ2 : pykey) (won1 : bool)
  (d : matchup_dict) : matchup_dict :=
  let d := add_game champ1 champ2 d in
  let d := if won1 then add_win champ1 champ2 d else d in
  let d := add_game champ2 champ1 d in
  if negb won1 then add_win champ2 champ1 d else d.

(** Lines 300-311: the body of the loop over the five positions. *)
Definition track_matchup (tp : Matchup.teams) (d : matchup_dict)
  (position : string) : outcome matchup_dict :=
  match od_find key_eqb (KStr position) (fst tp),
        od_find key_eqb (KStr position) (snd tp) with
  | Some s1, Some s2 =>
      let won1 := truthy (Matchup.win s1) in
      match to_key (Matchup.champion s1) with
      | Err e => Raise e d
      | Ok champ1 =>
          match to_key (Matchup.champion s2) with
          | Err e => Raise e (touch_row champ1 d)
          | Ok champ2 => Normal (record_matchup champ1 champ2 won1 d)
          end
      end
  | _, _ => Normal d
  end.

Definition canonical_positions : list string :=
  ["TOP"; "JUNGLE"; "MIDDLE"; "BOTTOM"; "UTILITY"]%string.

(** Lines 279-311: the body of the [try] of one match. *)
Definition matchup_match (d : matchup_dict) (m : json) : outcome matchup_dict :=
  match subscript_if_in "participants" m with
  | Absent => Normal d
  | Fails e => Raise e d
  | Present ps =>
      match py_iter ps with
      | Err e => Raise e d
      | Ok l =>
          match for_each place_participant l ([], []) with
          | Raise e _ => Raise e d
          | Normal tp => for_each (track_matchup tp) canonical_positions d
          end
      end
  end.

Definition matchup_data (matches : list json) : matchup_dict :=
  for_each_try matchup_match matches [].

(** Lines 320-326 *)
Fixpoint significant_row (opponents : key_dict Matchup.cell)
  (champ_matchups : key_dict Matchup.stats) : result (key_dict Matchup.stats) :=
  match opponents with
  | [] => Ok champ_matchups
  | (champ2, data) :: opponents' =>
      if 3 <=? Matchup.games data then
        r <- py_div (inject_Z (Matchup.wins data))
                    (inject_Z (Matchup.games data)) ;;
        significant_row opponents'
          (od_set key_eqb champ2
             {| Matchup.games_out := Matchup.games data;
                Matchup.wins_out := Matchup.wins data;
                Matchup.win_rate := py_round (r * 100) 2 |}
             champ_matchups)
      else significant_row opponents' champ_matchups
  end.

(** Lines 317-329 *)
Fixpoint significant_rows (items : matchup_dict)
  (significant_matchups : key_dict (key_dict Matchup.stats))
  : result (key_dict (key_dict Matchup.stats)) :=
  match items with
  | [] => Ok significant_matchups
  | (champ1, opponents) :: items' =>
      champ_matchups <- significant_row opponents [] ;;
      match champ_matchups with
      | [] => significant_rows items' significant_matchups
      | _ :: _ =>
          significant_rows items'
            (od_set key_eqb champ1 champ_matchups significant_matchups)
      end
  end.

Definition aggregate_matchups (matches : list json)
  : result (key_dict (key_dict Matchup.stats)) :=
  significant_rows (matchup_data matches) [].

(** ** Objective Correlation reducer: [aggregate_objective_correlations] *)

Module Objective.

Record tally : Type := mk_tally {
  wins : Z;
  games : Z
}.

Record stats : Type := mk_stats {
  wins_out : Z;
  games_out : Z;
  win_rate : Q
}.

End Objective.

Definition objective_dict : Type := list (string * Objective.tally).

(** Lines 335-340 *)
Definition initial_objective_stats : objective_dict :=
  let zero := {| Objective.wins := 0; Objective.games := 0 |} in
  [("first_blood", zero); ("first_tower", zero); ("first_dragon", zero);
   ("first_baron", zero)]%string.

(** Lines 358-363: the pairs [(obj_name, obj_key)]. *)
Definition first_objectives : list (string * string) :=
  [("first_blood", "first_blood"); ("first_tower", "first_tower");
   ("first_dragon", "first_dragon"); ("first_baron", "first_baron")]%string.

(** Lines 364-367 *)
Definition check_objective (objectives : json) (won : json)
  (d : objective_dict) (obj : string * string) : outcome objective_dict :=
  match objectives with
  | JDict okv =>
      if truthy (get okv (snd obj) JNull) then
        match od_find String.eqb (fst obj) d with
        | None => Raise KeyError d
        | Some t =>
            let t := {| Objective.wins := Objective.wins t;
                        Objective.games := Objective.games t + 1 |} in
            let t := if truthy won
                     then {| Objective.wins := Objective.wins t + 1;
                             Objective.games := Objective.games t |}
                     else t in
            Normal (od_set String.eqb (fst obj) t d)
        end
      else Normal d
  | _ => Raise AttributeError d
  end.

(** Lines 350-367: the body of the loop over the two colours. *)
Definition objective_team (team_stats : json) (d : objective_dict)
  (team_color : string) : outcome objective_dict :=
  match subscript_if_in team_color team_stats with
  | Absent => Normal d
  | Fails e => Raise e d
  | Present (JDict kv) =>
      let won := get kv "win" (JBool false) in
      let objectives := get kv "objectives" (JDict []) in
      for_each (check_objective objectives won) first_objectives d
  | Present _ => Raise AttributeError d
  end.

(** Lines 344-367: the body of the [try] of one match. *)
Definition objective_match (d : objective_dict) (m : json)
  : outcome objective_dict :=
  match subscript_if_in "team_stats" m with
  | Absent => Normal d
  | Fails e => Raise e d
  | Present team_stats =>
      for_each (objective_team team_stats) ["blue"; "red"]%string d
  end.

(** Lines 373-377 *)
Fixpoint objective_rates (d : objective_dict)
  : result (list (string * Objective.stats)) :=
  match d with
  | [] => Ok []
  | (objective, data) :: d' =>
      rate <- (if 0 <? Objective.games data
               then
                 r <- py_div (inject_Z (Objective.wins data))
                             (inject_Z (Objective.games data)) ;;
                 Ok (py_round (r * 100) 2)
               else Ok 0%Q) ;;
      rest <- objective_rates d' ;;
      Ok ((objective,
           {| Objective.wins_out := Objective.wins data;
              Objective.games_out := Objective.games data;
              Objective.win_rate := rate |}) :: rest)
  end.

Definition aggregate_objective_correlations (matches : list json)
  : result (list (string * Objective.stats)) :=
  objective_rates (for_each_try objective_match matches initial_objective_stats).

(** ** Summary Composer: [create_meta_summary] *)

Module Summary.

Record win_rate_row : Type := mk_win_rate_row {
  w_rank : Z;
  w_champion : pykey;
  w_win_rate : Q;
  w_pick_rate : Q;
  w_avg_kda : Q;
  w_primary_position : pykey
}.

Record pick_rate_row : Type := mk_pick_rate_row {
  p_rank : Z;
  p_champion : pykey;
  p_pick_rate : Q;
  p_win_rate : Q;
  p_games : Z
}.

Record gold_row : Type := mk_gold_row {
  g_rank : Z;
  g_champion : pykey;
  g_gold_efficiency : Q;
  g_avg_gold_per_min : Q;
  g_avg_damage : Q;
  g_primary_position : pykey
}.

Record vision_row : Type := mk_vision_row {
  v_rank : Z;
  v_champion : pykey;
  v_avg_vision_per_min : Q;
  v_avg_vision_score : Q;
  v_primary_position : pykey
}.

Record economy : Type := mk_economy {
  e_avg_gold_per_min : Q;
  e_avg_vision_per_min : Q;
  e_win_rate : Q
}.

Record summary : Type := mk_summary {
  patch : string;
  total_matches_analyzed : Z;
  champions_with_data : Z;
  data_collection_date : string;
  reliability_assessment : string;
  top_10_by_win_rate : list win_rate_row;
  top_10_by_pick_rate : list pick_rate_row;
  top_10_gold_efficient : list gold_row;
  top_10_vision_control : list vision_row;
  role_economy : key_dict economy;
  objective_importance : list (string * Objective.stats);
  data_quality_notes : list string
}.

Definition set_patch (p : string) (s : summary) : summary :=
  {| patch := p;
     total_matches_analyzed := total_matches_analyzed s;
     champions_with_data := champions_with_data s;
     data_collection_date := data_collection_date s;
     reliability_assessment := reliability_assessment s;
     top_10_by_win_rate := top_10_by_win_rate s;
     top_10_by_pick_rate := top_10_by_pick_rate s;
     top_10_gold_efficient := top_10_gold_efficient s;
     top_10_vision_control := top_10_vision_control s;
     role_economy := role_economy s;
     objective_importance := objective_importance s;
     data_quality_notes := data_quality_notes s |}.

End Summary.

(** Lines 410-418 *)
Definition assess_reliability (games : Z) : string :=
  if 300 <=? games then "High"
  else if 150 <=? games then "Medium"
  else if 50 <=? games then "Low"
  else "Very Low".

(** [[f(i + 1, x) for i, x in enumerate(l)]] *)
Fixpoint ranked {A B : Type} (f : Z -> A -> B) (i : Z) (l : list A) : list B :=
  match l with
  | [] => []
  | x :: l' => f (i + 1) x :: ranked f (i + 1) l'
  end.

(** [f"{n}"] for an integer [n]. *)
Definition str (n : Z) : string := NilZero.string_of_int (Z.to_int n).

(** [[(champ, stats) for champ, stats in champion_stats.items()
      if stats['games_played'] >= 5]] *)
Definition with_five_games (champion_stats : key_dict Champion.stats)
  : key_dict Champion.stats :=
  filter (fun x => 5 <=? Champion.games_played (snd x)) champion_stats.

(** [now] is what [datetime.now().isoformat()] returns when the summary is
    composed. *)
Definition create_meta_summary (now : string)
  (champion_stats : key_dict Champion.stats) (role_stats : key_dict Role.stats)
  (objective_stats : list (string * Objective.stats)) (total_matches : Z)
  : Summary.summary :=
  let top_by_winrate :=
    firstn 10 (sorted_reverse (fun x => Champion.win_rate (snd x))
                 (with_five_games champion_stats)) in
  let top_by_pickrate :=
    firstn 10 (sorted_reverse (fun x => Champion.pick_rate (snd x))
                 champion_stats) in
  let top_by_gold_efficiency :=
    firstn 10 (sorted_reverse (fun x => Champion.gold_efficiency (snd x))
                 (with_five_games champion_stats)) in
  let top_by_vision :=
    firstn 10 (sorted_reverse (fun x => Champion.avg_vision_per_min (snd x))
                 (with_five_games champion_stats)) in
  {| Summary.patch := "";
     Summary.total_matches_analyzed := total_matches;
     Summary.champions_with_data := len champion_stats;
     Summary.data_collection_date := now;
     Summary.reliability_assessment := assess_reliability total_matches;
     Summary.top_10_by_win_rate :=
       ranked (fun rank x =>
                 {| Summary.w_rank := rank;
                    Summary.w_champion := fst x;
                    Summary.w_win_rate := Champion.win_rate (snd x);
                    Summary.w_pick_rate := Champion.pick_rate (snd x);
                    Summary.w_avg_kda := Champion.avg_kda (snd x);
                    Summary.w_primary_position :=
                      Champion.primary_position (snd x) |})
              0 top_by_winrate;
     Summary.top_10_by_pick_rate :=
       ranked (fun rank x =>
                 {| Summary.p_rank := rank;
                    Summary.p_champion := fst x;
                    Summary.p_pick_rate := Champion.pick_rate (snd x);
                    Summary.p_win_rate := Champion.win_rate (snd x);
                    Summary.p_games := Champion.games_played (snd x) |})
              0 top_by_pickrate;
     Summary.top_10_gold_efficient :=
       ranked (fun rank x =>
                 {| Summary.g_rank := rank;
                    Summary.g_champion := fst x;
                    Summary.g_gold_efficiency :=
                      Champion.gold_efficiency (snd x);
                    Summary.g_avg_gold_per_min :=
                      Champion.avg_gold_per_min (snd x);
                    Summary.g_avg_damage := Champion.avg_damage (snd x);
                    Summary.g_primary_position :=
                      Champion.primary_position (snd x) |})
              0 top_by_gold_efficiency;
     Summary.top_10_vision_control :=
       ranked (fun rank x =>
                 {| Summary.v_rank := rank;
                    Summary.v_champion := fst x;
                    Summary.v_avg_vision_per_min :=
                      Champion.avg_vision_per_min (snd x);
                    Summary.v_avg_vision_score :=
                      Champion.avg_vision_score (snd x);
                    Summary.v_primary_position :=
                      Champion.primary_position (snd x) |})
              0 top_by_vision;
     Summary.role_economy :=
       map (fun x =>
              (fst x,
               {| Summary.e_avg_gold_per_min := Role.avg_gold_per_min (snd x);
                  Summary.e_avg_vision_per_min :=
                    Role.avg_vision_per_min (snd x);
                  Summary.e_win_rate := Role.win_rate (snd x) |}))
           role_stats;
     Summary.objective_importance := objective_stats;
     Summary.data_quality_notes :=
       [("Sample size: " ++ str total_matches ++ " matches - "
           ++ assess_reliability total_matches ++ " reliability")%string;
        if 500 <=? total_matches
        then "Sample size is sufficient for reliable analysis"%string
        else "Recommended minimum: 500 matches"%string;
        ("Current data covers " ++ str (len champion_stats)
           ++ " unique champions")%string] |}.

(** ** The pipeline: lines 517-549 of [aggregate_match_data] *)

Record outputs : Type := mk_outputs {
  out_champion_stats : key_dict Champion.stats;
  out_role_meta : key_dict Role.stats;
  out_item_builds : key_dict Build.stats;
  out_matchup_data : key_dict (key_dict Matchup.stats);
  out_objective_correlations : list (string * Objective.stats);
  out_meta_summary : Summary.summary
}.

(** The six documents handed to the sink, for the matches loaded and the
    reading [now] of the clock. *)
Definition run_aggregations (now patch : string) (matches : list json)
  : result outputs :=
  champion_stats <- aggregate_champion_stats matches ;;
  role_stats <- aggregate_role_meta matches ;;
  item_builds <- aggregate_item_builds matches ;;
  matchups <- aggregate_matchups matches ;;
  objective_stats <- aggregate_objective_correlations matches ;;
  let meta_summary :=
    create_meta_summary now champion_stats role_stats objective_stats
      (len matches) in
  Ok {| out_champion_stats := champion_stats;
        out_role_meta := role_stats;
        out_item_builds := item_builds;
        out_matchup_data := matchups;
        out_objective_correlations := objective_stats;
        out_meta_summary := Summary.set_patch patch meta_summary |}.

(** ** The script around the reducers: lines 14-50 and 495-571

    The object store and [json.loads] are outside the script; its functions
    are embedded over what these calls answer, whatever it is. Of what the
    script prints, only the warnings of [load_match_data] are kept. *)

(** A call outside the script returns or raises; [why] is the text of the
    exception. *)
Inductive reply (A : Type) : Type :=
| Reply (a : A)
| Refused (why : string).
Arguments Reply {A} a.
Arguments Refused {A} why.

(** A page of the listing: the keys of its ['Contents'], if it has any. *)
Definition page : Type := option (list string).

(** The data handed to [save_to_s3]. *)
Inductive document : Type :=
| ChampionStats (d : key_dict Champion.stats)
| RoleMeta (d : key_dict Role.stats)
| ItemBuilds (d : key_dict Build.stats)
| MatchupData (d : key_dict (key_dict Matchup.stats))
| ObjectiveCorrelations (d : list (string * Objective.stats))
| MetaSummary (s : Summary.summary).

(** What the script calls, for a store whose states are [W]:
    [paginate bucket prefix] for the pages of
    [paginator.paginate(Bucket=bucket, Prefix=prefix)];
    [get_object bucket key] for
    [s3.get_object(Bucket=bucket, Key=key)['Body'].read()];
    [put_object bucket key data w] for [s3.put_object] of
    [json.dumps(data, indent=2)] on the store [w], with the store it leaves
    and the text of the exception if it raises;
    [clock] for [datetime.now().isoformat()]. *)
Record services (W : Type) : Type := mk_services {
  paginate : string -> string -> reply (list page);
  get_object : string -> string -> reply string;
  json_loads : string -> reply json;
  put_object : string -> string -> document -> W -> W * option string;
  clock : string
}.
Arguments paginate {W} s _ _.
Arguments get_object {W} s _ _.
Arguments json_loads {W} s _.
Arguments put_object {W} s _ _ _ _.
Arguments clock {W} s.

(** An exception that leaves the script: one of a call outside it, or one
    of its own code. *)
Inductive failure : Type :=
| ServiceError (why : string)
| ScriptError (e : pyerr).

Inductive ended (A : Type) : Type :=
| Returned (a : A)
| Uncaught (f : failure).
Arguments Returned {A} a.
Arguments Uncaught {A} f.

(** [s.endswith(suffix)] *)
Fixpoint ends_with (suffix s : string) : bool :=
  String.eqb suffix s
  || match s with
     | EmptyString => false
     | String _ s' => ends_with suffix s'
     end.

(** Lines 24-26: the body of the loop over the pages. *)
Definition extend_with_page (match_files : list string) (p : page)
  : list string :=
  match p with
  | Some contents => match_files ++ filter (ends_with ".json") contents
  | None => match_files
  end.

(** Lines 14-28 *)
Definition get_match_files {W : Type} (s3 : services W)
  (bucket_name patch queue_type : string) : reply (list string) :=
  let prefix := ("matches/" ++ patch ++ "/" ++ queue_type ++ "/")%string in
  match paginate s3 bucket_name prefix with
  | Refused why => Refused why
  | Reply pages => Reply (fold_left extend_with_page pages [])
  end.

(** The warnings [load_match_data] prints. *)
Inductive warning : Type :=
| LoadError (file_key why : string)
| LoadErrors (errors : Z).

Record loading : Type := mk_loading {
  loaded : list json;
  errors : Z;
  warnings : list warning
}.

(** Lines 38-40: the body of the [try]. *)
Definition fetch {W : Type} (s3 : services W) (bucket_name file_key : string)
  : reply json :=
  match get_object s3 bucket_name file_key with
  | Refused why => Refused why
  | Reply body => json_loads s3 body
  end.

(** Lines 37-45: the body of the loop over the files. *)
Definition load_file {W : Type} (s3 : services W) (bucket_name : string)
  (st : loading) (file_key : string) : loading :=
  match fetch s3 bucket_name file_key with
  | Reply match_data =>
      {| loaded := loaded st ++ [match_data];
         errors := errors st;
         warnings := warnings st |}
  | Refused why =>
      let errors' := errors st + 1 in
      {| loaded := loaded st;
         errors := errors';
         warnings := if errors' <=? 5
                     then warnings st ++ [LoadError file_key why]
                     else warnings st |}
  end.

(** Lines 30-50; the function returns the field [loaded]. *)
Definition load_match_data {W : Type} (s3 : services W) (bucket_name : string)
  (match_files : list string) : loading :=
  let st := fold_left (load_file s3 bucket_name) match_files
              {| loaded := []; errors := 0; warnings := [] |} in
  if 5 <? errors st
  then {| loaded := loaded st;
          errors := errors st;
          warnings := warnings st ++ [LoadErrors (errors st)] |}
  else st.

(** Lines 495-503, as the body of the loop of lines 554-556. *)
Fixpoint save_all {W : Type} (s3 : services W) (bucket_name : string)
  (outputs : list (string * document)) (w : W) : W * option string :=
  match outputs with
  | [] => (w, None)
  | (key, data) :: outputs' =>
      match put_object s3 bucket_name key data w with
      | (w', None) => save_all s3 bucket_name outputs' w'
      | (w', Some why) => (w', Some why)
      end
  end.

(** Lines 543-552: the dict [outputs]; its six keys differ. *)
Definition artifacts (patch : string) (o : outputs) : list (string * document) :=
  let base_path := ("aggregated/" ++ patch ++ "/")%string in
  [((base_path ++ "champion_stats.json")%string,
    ChampionStats (out_champion_stats o));
   ((base_path ++ "role_meta.json")%string, RoleMeta (out_role_meta o));
   ((base_path ++ "item_builds.json")%string, ItemBuilds (out_item_builds o));
   ((base_path ++ "matchup_data.json")%string,
    MatchupData (out_matchup_data o));
   ((base_path ++ "objective_correlations.json")%string,
    ObjectiveCorrelations (out_objective_correlations o));
   ((base_path ++ "meta_summary.json")%string,
    MetaSummary (out_meta_summary o))].

(** A value of the dict [aggregate_match_data] returns. *)
Inductive field : Type :=
| FInt (n : Z)
| FList (l : list string).

Definition report : Type := list (string * field).

(** Lines 505-561 *)
Definition aggregate_match_data {W : Type} (s3 : services W)
  (bucket_name patch queue_type : string) (w : W) : ended report * W :=
  match get_match_files s3 bucket_name patch queue_type with
  | Refused why => (Uncaught (ServiceError why), w)
  | Reply [] => (Returned [], w)
  | Reply ((_ :: _) as match_files) =>
      let matches := loaded (load_match_data s3 bucket_name match_files) in
      match run_aggregations (clock s3) patch matches with
      | Err e => (Uncaught (ScriptError e), w)
      | Ok o =>
          let outputs := artifacts patch o in
          match save_all s3 bucket_name outputs w with
          | (w', Some why) => (Uncaught (ServiceError why), w')
          | (w', None) =>
              (Returned
                 [("matches_processed"%string, FInt (len matches));
                  ("champions_analyzed"%string,
                   FInt (len (out_champion_stats o)));
                  ("aggregation_files"%string, FList (map fst outputs))],
               w')
          end
      end
  end.

(** [result[name]] *)
Fixpoint report_field (name : string) (r : report) : result field :=
  match r with
  | [] => Err KeyError
  | (k, v) :: r' => if String.eqb name k then Ok v else report_field name r'
  end.

(** Lines 563-571 *)
Definition main {W : Type} (s3 : services W) (w : W) : ended unit * W :=
  match aggregate_match_data s3 "rift-rewind-match-data-ml-nyc" "15.20"
          "RANKED_SOLO" w with
  | (Uncaught f, w') => (Uncaught f, w')
  | (Returned r, w') =>
      match report_field "matches_processed" r with
      | Err e => (Uncaught (ScriptError e), w')
      | Ok _ =>
          match report_field "champions_analyzed" r with
          | Err e => (Uncaught (ScriptError e), w')
          | Ok _ => (Returned tt, w')
          end
      end
  end.

(** ** Notions used to state the properties *)

(** A match record that carries the participants [ps]. *)
Definition match_of (ps : list json) : json :=
  JDict [("participants"%string, JList ps)].


(** The participants the loops over [match['participants']] visit. *)
Definition participants (m : json) : list json :=
  match subscript_if_in "participants" m with
  | Present ps =>
      match py_iter ps with
      | Ok l => l
      | Err _ => []
      end
  | _ => []
  end.

(** Some participant record of the record set names the entity [c]. *)
Definition has_record (c : pykey) (matches : list json) : Prop :=
  exists m kv,
    In m matches /\ In (JDict kv) (participants m) /\
    to_key (get kv "champion" (JStr "Unknown")) = Ok c.

(** The cell [matchup_data[a][b]], created or not. *)
Definition cell_at (a b : pykey) (d : matchup_dict) : Matchup.cell :=
  od_get key_eqb Matchup.fresh b (od_get key_eqb [] a d).

(** The entry [out[a][b]] of the output of the Matchup Stats reducer. *)
Definition matchup_entry (a b : pykey) (out : key_dict (key_dict Matchup.stats))
  : option Matchup.stats :=
  match od_find key_eqb a out with
  | Some row => od_find key_eqb b row
  | None => None
  end.

(** One matchup observation: the occupants of a canonical role on team 100
    and on team 200, and whether the former won. *)
Definition observation : Type := (pykey * pykey * bool)%type.

(** The observation the loop body of lines 300-311 makes for a position. *)
Definition observe (tp : Matchup.teams) (log : list observation)
  (position : string) : outcome (list observation) :=
  match od_find key_eqb (KStr position) (fst tp),
        od_find key_eqb (KStr position) (snd tp) with
  | Some s1, Some s2 =>
      match to_key (Matchup.champion s1) with
      | Err e => Raise e log
      | Ok champ1 =>
          match to_key (Matchup.champion s2) with
          | Err e => Raise e log
          | Ok champ2 =>
              Normal (log ++ [(champ1, champ2, truthy (Matchup.win s1))])
          end
      end
  | _, _ => Normal log
  end.

(** The observations the reducer makes on one match, in order. *)
Definition match_observations (m : json) : list observation :=
  match for_each place_participant (participants m) ([], []) with
  | Raise _ _ => []
  | Normal tp => state_of (for_each (observe tp) canonical_positions [])
  end.

Definition observations (matches : list json) : list observation :=
  flat_map match_observations matches.

(** The observations in which [a] was on team 100 and [b] on team 200. *)
Definition faced (a b : pykey) (obs : list observation) : Z :=
  len (filter (fun o => key_eqb (fst (fst o)) a && key_eqb (snd (fst o)) b) obs).

(** The observed game count of the pair: the observations in which [a] and
    [b] occupied the same role on opposite teams. *)
Definition observed_games (a b : pykey) (matches : list json) : Z :=
  let obs := observations matches in
  if key_eqb a b then faced a a obs else faced a b obs + faced b a obs.



(** Sample records. *)

(** The entry of an objective no team has taken. *)
Definition zeroed : Objective.stats :=
  {| Objective.wins_out := 0; Objective.games_out := 0;
     Objective.win_rate := 0 |}.

(** A single participant on Ashe whose role label is the sentinel. *)
Definition ashe_invalid_role : json :=
  match_of [JDict [("champion", JStr "Ashe"); ("win", JBool true);
                   ("position", JStr "Invalid")]%string].

(** A participant whose kill count is no number, and a sound one. *)
Definition malformed : json :=
  JDict [("champion", JStr "Ashe"); ("kills", JStr "many")]%string.

Definition well_formed : json :=
  JDict [("champion", JStr "Garen"); ("kills", JNum 3)]%string.






(** A record set with one game for each of three champions. *)
Definition three_picks : list json :=
  [match_of [JDict [("champion", JStr "Ashe"); ("win", JBool true)]%string;
             JDict [("champion", JStr "Garen")]%string;
             JDict [("champion", JStr "Lux")]%string]].


(** The observations of [a] on team 100 against [b] on team 200 that team
    100 won ([w = true]) or lost ([w = false]). *)
Definition faced_with (w : bool) (a b : pykey) (obs : list observation) : Z :=
  len (filter (fun o => key_eqb (fst (fst o)) a && key_eqb (snd (fst o)) b
                        && Bool.eqb (snd o) w) obs).

(** The entry the final loop writes for a cell (lines 322-326). *)
Definition cell_stats (c : Matchup.cell) : Matchup.stats :=
  {| Matchup.games_out := Matchup.games c;
     Matchup.wins_out := Matchup.wins c;
     Matchup.win_rate :=
       py_round (inject_Z (Matchup.wins c) / inject_Z (Matchup.games c) * 100) 2 |}.

(** The cells of [d] count the observations [obs]. *)
Definition tallies (d : matchup_dict) (obs : list observation) : Prop :=
  forall x y,
    Matchup.games (cell_at x y d) = faced x y obs + faced y x obs /\
    Matchup.wins (cell_at x y d)
    = faced_with true x y obs + faced_with false y x obs.

(** The keys of [d] and of each of its rows are distinct. *)
Definition distinct_keys (d : matchup_dict) : Prop :=
  NoDup (map fst d) /\ Forall (fun r => NoDup (map fst (snd r))) d.

(** Two matches in which Ashe occupies TOP on both teams. *)
Definition mirror_match : json :=
  match_of
    [JDict [("champion", JStr "Ashe"); ("team_id", JNum 100);
            ("position", JStr "TOP"); ("win", JBool true)]%string;
     JDict [("champion", JStr "Ashe"); ("team_id", JNum 200);
            ("position", JStr "TOP"); ("win", JBool false)]%string].

Definition two_mirrors : list json := [mirror_match; mirror_match].

(** Three matches of Garen (team 100) against Lux (team 200) in MIDDLE,
    Garen winning the first two. *)
Definition garen_lux (garen_won : bool) : json :=
  match_of
    [JDict [("champion", JStr "Garen"); ("team_id", JNum 100);
            ("position", JStr "MIDDLE"); ("win", JBool garen_won)]%string;
     JDict [("champion", JStr "Lux"); ("team_id", JNum 200);
            ("position", JStr "MIDDLE"); ("win", JBool (negb garen_won))]%string].

Definition three_duels : list json :=
  [garen_lux true; garen_lux true; garen_lux false].

(** The games a pair is listed for: a mirror observation is tallied in both
    directions, so it counts twice. *)
Definition tallied_games (a b : pykey) (matches : list json) : Z :=
  if key_eqb a b then 2 * observed_games a a matches
  else observed_games a b matches.

Definition three_duels_output : key_dict (key_dict Matchup.stats) :=
  Eval vm_compute in
    match aggregate_matchups three_duels with
    | Ok out => out
    | Err _ => []
    end.

Definition garen_against_lux : Matchup.stats :=
  Eval vm_compute in
    match matchup_entry (KStr "Garen") (KStr "Lux") three_duels_output with
    | Some s => s
    | None => Matchup.mk_stats 0 0 0
    end.


Definition numeric (v : json) : bool :=
  match as_number v with
  | Some _ => true
  | None => false
  end.

Definition stringy (v : json) : bool :=
  match v with
  | JStr _ => true
  | _ => false
  end.

(** A list of numbers or a list of strings: the lists [sorted] accepts,
    besides those of at most one item. *)
Definition uniform (l : list json) : Prop :=
  Forall (fun v => numeric v = true) l \/ Forall (fun v => stringy v = true) l.

(** The key of a hashable value. *)
Definition key_of (v : json) : pykey :=
  match to_key v with
  | Ok k => k
  | Err _ => KNone
  end.

(** The order of the keys of numbers and of the keys of strings; a number
    key is in lowest terms. *)
Definition key_le (a b : pykey) : Prop :=
  match a, b with
  | KNum p, KNum q => (p <= q)%Q /\ Qred p = p /\ Qred q = q
  | KStr s, KStr t => String.ltb t s = false
  | _, _ => False
  end.

Definition json_le (a b : json) : Prop := key_le (key_of a) (key_of b).

(** The two participants of the build example: the same items in another
    order. *)
Definition items_312 : list json := [JNum 3; JNum 1; JNum 2].

Definition items_123 : list json := [JNum 1; JNum 2; JNum 3].

Definition ashe_with (items : list json) : list (string * json) :=
  [("champion", JStr "Ashe"); ("items", JList items)]%string.

(** Notions used in the proofs. *)

(** The only exception an expression can raise is a [TypeError]. *)
Definition type_error_only {A : Type} (r : result A) : Prop :=
  forall e, r = Err e -> e = TypeError.

(** A statement that leaves the two counters of an entry alone. *)
Definition keeps_counts (f : Champion.data -> outcome Champion.data) : Prop :=
  forall s,
    Champion.games (state_of (f s)) = Champion.games s /\
    Champion.wins (state_of (f s)) = Champion.wins s.

(** What holds of every entry of [champion_data]. *)
Definition entry_ok (matches : list json) (e : pykey * Champion.data) : Prop :=
  1 <= Champion.games (snd e) /\
  0 <= Champion.wins (snd e) <= Champion.games (snd e) /\
  has_record (fst e) matches.

(** The entry with the pick rate written for the total [total]. *)
Definition with_pick_rate (total : Z) (e : pykey * Champion.stats)
  : pykey * Champion.stats :=
  (fst e,
   Champion.set_pick_rate
     (py_round (inject_Z (Champion.games_played (snd e)) / inject_Z total * 100) 2)
     (snd e)).

(** An objective without games has the win rate 0. *)
Definition objective_rate_ok (e : string * Objective.stats) : Prop :=
  Objective.games_out (snd e) = 0 -> Objective.win_rate (snd e) = 0%Q.

(** The increment a test stands for. *)
Definition bit (b : bool) : Z := if b then 1 else 0.



(** The role counters of an entry: each role was seen, and no more roles
    were seen than games were played. *)
Definition positions_ok (data : Champion.data) : Prop :=
  Forall (fun e => 1 <= snd e) (Champion.positions data) /\
  sum_values (Champion.positions data) <= Champion.games data.
(** A record set in which one participant carries the placeholder. *)
Definition with_placeholder : list json :=
  [match_of [JDict [("champion", JStr "Unknown"); ("win", JBool true)]%string;
             JDict [("champion", JStr "Lux"); ("position", JStr "MIDDLE")]%string;
             JDict [("win", JBool false)]%string]].

Definition with_placeholder_output : key_dict Champion.stats :=
  Eval vm_compute in
    match aggregate_champion_stats with_placeholder with
    | Ok out => out
    | Err _ => []
    end.
(** Kai'Sa three times: once in BOTTOM, twice in MIDDLE, and once with no
    role. *)
Definition kaisa (position : string) : json :=
  JDict [("champion", JStr "Kaisa"); ("position", JStr position)]%string.

Definition kaisa_games : list json :=
  [match_of [kaisa "BOTTOM"; kaisa "MIDDLE"]; match_of [kaisa "MIDDLE"; kaisa ""]].

Definition kaisa_output : key_dict Champion.stats :=
  Eval vm_compute in
    match aggregate_champion_stats kaisa_games with
    | Ok out => out
    | Err _ => []
    end.

Definition kaisa_entry : Champion.stats :=
  Eval vm_compute in
    match kaisa_output with
    | (_, s) :: _ => s
    | [] => Champion.mk_stats 0 0 0 0 0 0 0 0 0 0 0 0 0 0 0 0 0 KNone 0
    end.

(** What holds of every entry of [role_data]: it has games, no more wins
    than games, and champion counters that were each incremented and add up
    to no more than the games. *)
Definition role_ok (data : Role.data) : Prop :=
  1 <= Role.games data /\
  0 <= Role.wins data <= Role.games data /\
  Forall (fun e => 1 <= snd e) (Role.champions data) /\
  sum_values (Role.champions data) <= Role.games data.

(** The row of [top_champions] for a counter of the role (lines 216-220). *)
Definition top_champion_row (games : Z) (x : pykey * Z) : Role.top_champion :=
  {| Role.champion := fst x;
     Role.top_games := snd x;
     Role.pick_rate_in_role :=
       py_round (inject_Z (snd x) / inject_Z games * 100) 2 |}.

(** Four participants in TOP, one with the sentinel role and one with
    none. *)
Definition top_lane : list json :=
  [match_of
     [JDict [("champion", JStr "Garen"); ("position", JStr "TOP");
             ("win", JBool true)]%string;
      JDict [("champion", JStr "Darius"); ("position", JStr "TOP")]%string;
      JDict [("champion", JStr "Garen"); ("position", JStr "TOP")]%string;
      JDict [("champion", JStr "Teemo"); ("position", JStr "Invalid")]%string;
      JDict [("champion", JStr "Garen"); ("individual_position", JStr "TOP")]%string;
      JDict [("champion", JStr "Lux")]%string]].

Definition top_lane_output : key_dict Role.stats :=
  Eval vm_compute in
    match aggregate_role_meta top_lane with
    | Ok out => out
    | Err _ => []
    end.

Definition top_lane_entry : Role.stats :=
  Eval vm_compute in
    match top_lane_output with
    | (_, s) :: _ => s
    | [] => Role.mk_stats 0 0 0 0 0 0 0 0 []
    end.

(** A build in normal form: its items are in order. *)
Definition in_order (b : list pykey) : Prop :=
  (List.length b <= 1)%nat \/ StronglySorted key_le b.

(** What holds of the build counters of a champion: each build is in
    normal form and was counted at least once. *)
Definition builds_ok (builds : Build.counts) : Prop :=
  Forall (fun e => in_order (fst e) /\ 1 <= snd e) builds.

(** The row of [top_builds] for a build counter (lines 262-266). *)
Definition top_build_row (total_games : Z) (x : list pykey * Z) : Build.top_build :=
  {| Build.items := fst x;
     Build.games := snd x;
     Build.pick_rate :=
       py_round (inject_Z (snd x) / inject_Z total_games * 100) 2 |}.

(** Ashe with the same three items in two orders, and once with others. *)
Definition ashe_builds : list json :=
  [match_of [JDict (ashe_with items_312); JDict (ashe_with items_123);
             JDict (ashe_with [JNum 9; JNum 4])]].

Definition ashe_builds_output : key_dict Build.stats :=
  Eval vm_compute in
    match aggregate_item_builds ashe_builds with
    | Ok out => out
    | Err _ => []
    end.

Definition ashe_builds_entry : Build.stats :=
  Eval vm_compute in
    match ashe_builds_output with
    | (_, s) :: _ => s
    | [] => Build.mk_stats 0 []
    end.



(** A participant the grouping by team and role (lines 285-296) fails on:
    not a mapping, or one with a team, a role and a champion whose team is
    neither 100 nor 200, or whose team or role cannot be hashed. *)
Definition unplaceable (p : json) : bool :=
  match p with
  | JDict kv =>
      let team_id := get kv "team_id" JNull in
      let position := position_of kv in
      let champion := get kv "champion" JNull in
      truthy team_id && truthy position && negb (is_str "Invalid" position)
      && truthy champion
      && match to_key team_id, to_key position with
         | Ok t, Ok _ => negb (key_eqb t (KNum 100) || key_eqb t (KNum 200))
         | _, _ => true
         end
  | _ => true
  end.

(** The participant takes the slot of role [r] on team [t]. *)
Definition claims (t r : pykey) (p : json) : bool :=
  match p with
  | JDict kv =>
      let team_id := get kv "team_id" JNull in
      let position := position_of kv in
      let champion := get kv "champion" JNull in
      truthy team_id && truthy position && negb (is_str "Invalid" position)
      && truthy champion
      && match to_key team_id, to_key position with
         | Ok t', Ok r' => key_eqb t' t && key_eqb r' r
         | _, _ => false
         end
  | _ => false
  end.

(** The slot a participant is stored as (lines 293-296). *)
Definition slot_of (p : json) : Matchup.slot :=
  match p with
  | JDict kv => {| Matchup.champion := get kv "champion" JNull;
                   Matchup.win := get kv "win" (JBool false) |}
  | _ => {| Matchup.champion := JNull; Matchup.win := JNull |}
  end.

(** A duel of Garen and Lux followed by a participant of team 300. *)
Definition third_team : json :=
  match_of
    [JDict [("champion", JStr "Garen"); ("team_id", JNum 100);
            ("position", JStr "TOP"); ("win", JBool true)]%string;
     JDict [("champion", JStr "Lux"); ("team_id", JNum 200);
            ("position", JStr "TOP"); ("win", JBool false)]%string;
     JDict [("champion", JStr "Ashe"); ("team_id", JNum 300);
            ("position", JStr "TOP"); ("win", JBool false)]%string].

(** Two participants of team 100 in the role TOP. *)
Definition garen_top : json :=
  JDict [("champion", JStr "Garen"); ("team_id", JNum 100);
         ("position", JStr "TOP"); ("win", JBool true)]%string.

Definition darius_top : json :=
  JDict [("champion", JStr "Darius"); ("team_id", JNum 100);
         ("position", JStr "TOP"); ("win", JBool true)]%string.

Definition lux_middle : json :=
  JDict [("champion", JStr "Lux"); ("team_id", JNum 200);
         ("position", JStr "MIDDLE"); ("win", JBool false)]%string.




(** What a list of the summary is for the entries [eligible] and the
    statistic [metric]: the ten entries (or all, when fewer) of the greatest
    [metric], the greatest first, ranked from 1. [rk], [who] and [val] read
    the rank, the entity and the statistic of a row. *)
Definition top_ten {R : Type} (metric : Champion.stats -> Q)
  (eligible : key_dict Champion.stats) (rk : R -> Z) (who : R -> pykey)
  (val : R -> Q) (rows : list R) : Prop :=
  len rows = Z.min 10 (len eligible) /\
  (forall k row, nth_error rows k = Some row ->
     rk row = Z.of_nat k + 1 /\
     exists st, In (who row, st) eligible /\ val row = metric st) /\
  StronglySorted (fun a b => (val b <= val a)%Q) rows /\
  (forall c st, In (c, st) eligible ->
     (exists row, In row rows /\ who row = c /\ val row = metric st) \/
     (forall row, In row rows -> (metric st <= val row)%Q)).

(** The records [load_match_data] can fetch, in the order of the files. *)
Definition fetched {W : Type} (s3 : services W) (bucket_name : string)
  (match_files : list string) : list json :=
  flat_map (fun file_key =>
              match fetch s3 bucket_name file_key with
              | Reply match_data => [match_data]
              | Refused _ => []
              end) match_files.

(** The warnings for the files it cannot fetch, in the order of the files. *)
Definition refusals {W : Type} (s3 : services W) (bucket_name : string)
  (match_files : list string) : list warning :=
  flat_map (fun file_key =>
              match fetch s3 bucket_name file_key with
              | Reply _ => []
              | Refused why => [LoadError file_key why]
              end) match_files.

(** No page lists a key that ends in [.json]. *)
Definition no_match_file (pages : list page) : Prop :=
  forall contents key,
    In (Some contents) pages -> In key contents ->
    ends_with ".json" key = false.

(** A store that keeps what is put, and the services around it: one page
    with the keys [listing], every object read as [body], which parses as
    [record]. *)
Definition shelf : Type := list (string * document).

Definition sample_services (listing : list string) (record : reply json)
  : services shelf :=
  {| paginate := fun _ _ => Reply [None; Some listing];
     get_object := fun _ _ => Reply "body"%string;
     json_loads := fun _ => record;
     put_object := fun _ key data w => (w ++ [(key, data)], None);
     clock := "2025-10-20T12:00:00"%string |}.

(** A record in which a participant carries a KDA that is no number. *)
Definition text_kda_record : json :=
  match_of [JDict [("champion", JStr "Ashe"); ("kda", JStr "perfect")]%string].



(** * Properties *)

(** ** Zero input *)

(** C4, as the specification words it, fails on the code: on the empty
    record sequence the Objective Correlation reducer does not return an empty
    mapping. *)
Lemma objective_mapping_of_empty_input_not_empty :
  aggregate_champion_stats [] = Ok [] /\
  aggregate_objective_correlations [] <> Ok [].
Proof.
  split; [reflexivity | discriminate].
Qed.

(** C4, amended: for the empty input sequence the Entity, Role, Build and
    Matchup reducers return an empty mapping, the Objective Correlation
    reducer returns its four fixed keys with games, wins and win rate 0, and
    the Summary Composer applied to those outputs with total match count 0
    returns a summary with champions_with_data = 0 and reliability_assessment
    = "Very Low". *)
Theorem empty_input_outputs :
  aggregate_champion_stats [] = Ok [] /\
  aggregate_role_meta [] = Ok [] /\
  aggregate_item_builds [] = Ok [] /\
  aggregate_matchups [] = Ok [] /\
  aggregate_objective_correlations [] =
    Ok [("first_blood", zeroed); ("first_tower", zeroed);
        ("first_dragon", zeroed); ("first_baron", zeroed)]%string /\
  forall (now : string) (objective_stats : list (string * Objective.stats)),
    let s := create_meta_summary now [] [] objective_stats 0 in
    Summary.champions_with_data s = 0 /\
    Summary.reliability_assessment s = "Very Low"%string.
Proof.
  repeat split; reflexivity.
Qed.

(** ** Determinism *)




(** ** Role tracking of the Entity Stats reducer *)

(** C7: the code at the failing input.  The participant is counted, and its
    sentinel role is tracked by the Entity Stats reducer and becomes the
    primary role, while the Role Stats reducer leaves it out. *)
Theorem invalid_role_is_tracked :
  match aggregate_champion_stats [ashe_invalid_role] with
  | Ok [(champion, s)] =>
      champion = KStr "Ashe" /\
      Champion.games_played s = 1 /\
      Champion.wins_out s = 1 /\
      Champion.primary_position s = KStr "Invalid" /\
      Champion.position_flexibility s = 1
  | _ => False
  end /\
  aggregate_role_meta [ashe_invalid_role] = Ok [].
Proof.
  vm_compute. repeat split; reflexivity.
Qed.

(** ** A participant that raises *)

(** C3, as the specification words it, fails on the code: the participant
    that follows a raising one in the same match is not accumulated. *)
Lemma participants_after_a_raise_are_dropped :
  raised (champion_participant [] malformed) = true /\
  od_mem key_eqb (KStr "Garen") (champion_data [match_of [well_formed]]) = true /\
  od_mem key_eqb (KStr "Garen")
    (champion_data [match_of [malformed; well_formed]]) = false.
Proof.
  repeat split; reflexivity.
Qed.

(** A sample that is no number is stored without a test and is met by
    [sum] in the final loop, outside every [try]: the reducer raises. *)
Lemma non_numeric_sample_raises :
  aggregate_champion_stats
    [match_of [JDict [("champion", JStr "Ashe"); ("kda", JStr "high")]%string]]
  = Err TypeError.
Proof. reflexivity. Qed.

Lemma for_each_app {S X : Type} (body : S -> X -> outcome S) (l1 l2 : list X)
  (s s1 : S) :
  for_each body l1 s = Normal s1 ->
  for_each body (l1 ++ l2) s = for_each body l2 s1.
Proof.
  revert s. induction l1 as [| x l1 IH]; simpl; intros s H.
  - now inversion H.
  - destruct (body s x) as [s' | e s']; [now apply IH | discriminate].
Qed.

(** C3, amended: in the Entity Stats reducer a participant entry that raises
    an error during extraction ends the processing of its own match: the
    participants before it in that match stay accumulated, the ones after it
    are not processed, and the reducer goes on with the next match, so the
    loop over the matches is never aborted. *)
Theorem raising_participant_ends_its_match
  (d d1 d2 : key_dict Champion.data) (pre post : list json) (p : json)
  (e : pyerr) (m : json) (rest : list json) :
  subscript_if_in "participants" m = Present (JList (pre ++ p :: post)) ->
  for_each champion_participant pre d = Normal d1 ->
  champion_participant d1 p = Raise e d2 ->
  champion_match d m = Raise e d2 /\
  for_each_try champion_match (m :: rest) d
  = for_each_try champion_match rest d2.
Proof.
  intros Hm Hpre Hp.
  assert (Hr : champion_match d m = Raise e d2).
  { unfold champion_match. rewrite Hm. simpl.
    rewrite (for_each_app _ _ _ _ _ Hpre). simpl. now rewrite Hp. }
  split; [exact Hr |].
  unfold for_each_try. simpl. now rewrite Hr.
Qed.

Lemma raising_participant_ends_its_match_witness :
  champion_match [] (match_of [well_formed; malformed; well_formed])
  = Raise TypeError
      (state_of (champion_participant
                   (state_of (champion_participant [] well_formed)) malformed)) /\
  for_each_try champion_match
    [match_of [well_formed; malformed; well_formed]; match_of [well_formed]] []
  = for_each_try champion_match [match_of [well_formed]]
      (state_of (champion_participant
                   (state_of (champion_participant [] well_formed)) malformed)).
Proof.
  apply (raising_participant_ends_its_match []
           (state_of (champion_participant [] well_formed))
           (state_of (champion_participant
                        (state_of (champion_participant [] well_formed))
                        malformed))
           [well_formed] [well_formed] malformed TypeError);
    reflexivity.
Defined.

(** ** Keys and ordered dictionaries *)

Lemma Q_eqb_eq (a b : Q) : Q_eqb a b = true <-> a = b.
Proof.
  unfold Q_eqb. destruct a as [n d], b as [n' d']; simpl.
  rewrite andb_true_iff, Z.eqb_eq, Pos.eqb_eq. split.
  - intros [-> ->]. reflexivity.
  - intros H. inversion H. auto.
Qed.

Lemma key_eqb_eq (a b : pykey) : key_eqb a b = true <-> a = b.
Proof.
  destruct a, b; simpl; try (split; [discriminate | congruence]).
  - tauto.
  - rewrite Q_eqb_eq. split; congruence.
  - rewrite String.eqb_eq. split; congruence.
Qed.

Lemma key_eqb_refl (a : pykey) : key_eqb a a = true.
Proof. now apply key_eqb_eq. Qed.

Lemma key_eqb_neq (a b : pykey) : a <> b -> key_eqb a b = false.
Proof.
  intros H. destruct (key_eqb a b) eqn:E; [| reflexivity].
  now apply key_eqb_eq in E.
Qed.

Lemma tuple_eqb_eq (a b : list pykey) : tuple_eqb a b = true <-> a = b.
Proof.
  revert b. induction a as [| x a IH]; destruct b as [| y b]; simpl;
    try (split; [discriminate | congruence]).
  - tauto.
  - rewrite andb_true_iff, key_eqb_eq, IH. split.
    + intros [-> ->]. reflexivity.
    + intros H. inversion H. auto.
Qed.

Section OrderedDictFacts.
Context {K V : Type} (eqb : K -> K -> bool).
Hypothesis eqb_eq : forall a b, eqb a b = true <-> a = b.

Lemma od_find_set_same (k : K) (v : V) (d : list (K * V)) :
  od_find eqb k (od_set eqb k v d) = Some v.
Proof.
  induction d as [| [k' v'] d IH]; simpl.
  - now rewrite (proj2 (eqb_eq k k) eq_refl).
  - destruct (eqb k k') eqn:E; simpl; rewrite E; [reflexivity | exact IH].
Qed.

Lemma od_find_set_other (k k' : K) (v : V) (d : list (K * V)) :
  k <> k' -> od_find eqb k' (od_set eqb k v d) = od_find eqb k' d.
Proof.
  intros Hne. induction d as [| [k0 v0] d IH]; simpl.
  - destruct (eqb k' k) eqn:E; [| reflexivity].
    apply eqb_eq in E. congruence.
  - destruct (eqb k k0) eqn:E; simpl.
    + apply eqb_eq in E. subst k0.
      destruct (eqb k' k) eqn:E'; [| reflexivity].
      apply eqb_eq in E'. congruence.
    + now rewrite IH.
Qed.

Lemma od_get_set_same (dflt : V) (k : K) (v : V) (d : list (K * V)) :
  od_get eqb dflt k (od_set eqb k v d) = v.
Proof. unfold od_get. now rewrite od_find_set_same. Qed.

Lemma od_get_set_other (dflt : V) (k k' : K) (v : V) (d : list (K * V)) :
  k <> k' -> od_get eqb dflt k' (od_set eqb k v d) = od_get eqb dflt k' d.
Proof. intros H. unfold od_get. now rewrite od_find_set_other. Qed.

Lemma od_find_In (k : K) (v : V) (d : list (K * V)) :
  od_find eqb k d = Some v -> In (k, v) d.
Proof.
  induction d as [| [k' v'] d IH]; simpl; [discriminate |].
  destruct (eqb k k') eqn:E.
  - apply eqb_eq in E. intros H. inversion H. subst. now left.
  - intros H. right. now apply IH.
Qed.

Lemma In_od_set (k k' : K) (v v' : V) (d : list (K * V)) :
  In (k', v') (od_set eqb k v d) -> (k' = k /\ v' = v) \/ In (k', v') d.
Proof.
  induction d as [| [k0 v0] d IH]; simpl.
  - intros [H | []]. inversion H. now left.
  - destruct (eqb k k0) eqn:E; simpl.
    + apply eqb_eq in E. subst k0. intros [H | H].
      * inversion H. now left.
      * right. now right.
    + intros [H | H]; [right; now left |].
      destruct (IH H) as [? | ?]; [now left | right; now right].
Qed.

Lemma od_set_keys (k : K) (v : V) (d : list (K * V)) :
  map fst (od_set eqb k v d)
  = if od_mem eqb k d then map fst d else map fst d ++ [k].
Proof.
  unfold od_mem. induction d as [| [k' v'] d IH]; simpl; [reflexivity |].
  destruct (eqb k k') eqn:E; simpl; [reflexivity |].
  rewrite IH. now destruct (od_find eqb k d).
Qed.

Lemma od_find_None (k : K) (d : list (K * V)) :
  od_find eqb k d = None <-> ~ In k (map fst d).
Proof.
  induction d as [| [k' v'] d IH]; simpl; [tauto |].
  destruct (eqb k k') eqn:E.
  - apply eqb_eq in E. subst. split; [discriminate | tauto].
  - rewrite IH. split; [| tauto].
    intros Hn [-> | H]; [| tauto].
    rewrite (proj2 (eqb_eq k k) eq_refl) in E. discriminate.
Qed.

Lemma od_set_NoDup (k : K) (v : V) (d : list (K * V)) :
  NoDup (map fst d) -> NoDup (map fst (od_set eqb k v d)).
Proof.
  intros Hd. rewrite od_set_keys. unfold od_mem.
  destruct (od_find eqb k d) eqn:E; [exact Hd |].
  apply od_find_None in E.
  apply NoDup_rev in Hd. rewrite <- (rev_involutive (map fst d ++ [k])).
  apply NoDup_rev. rewrite rev_app_distr. simpl. constructor; [| exact Hd].
  now rewrite <- in_rev.
Qed.

Lemma In_od_find (k : K) (v : V) (d : list (K * V)) :
  NoDup (map fst d) -> In (k, v) d -> od_find eqb k d = Some v.
Proof.
  induction d as [| [k' v'] d IH]; simpl; [tauto |].
  intros Hd [H | H].
  - inversion H. subst. now rewrite (proj2 (eqb_eq k k) eq_refl).
  - inversion Hd as [| ? ? Hn Hd']. subst.
    destruct (eqb k k') eqn:E; [| now apply IH].
    apply eqb_eq in E. subst k'. exfalso. apply Hn.
    change k with (fst (k, v)). now apply in_map.
Qed.

Lemma Forall_od_set (P : K * V -> Prop) (k : K) (v : V) (d : list (K * V)) :
  Forall P d -> P (k, v) -> Forall P (od_set eqb k v d).
Proof.
  intros Hd Hk. apply Forall_forall. intros [k' v'] Hin.
  apply In_od_set in Hin. destruct Hin as [[-> ->] | Hin]; [exact Hk |].
  revert Hin. now apply Forall_forall.
Qed.

End OrderedDictFacts.

(** ** Loops *)

Lemma for_each_state {S X : Type} (I : S -> Prop) (body : S -> X -> outcome S)
  (l : list X) (s : S) :
  (forall s x, In x l -> I s -> I (state_of (body s x))) ->
  I s -> I (state_of (for_each body l s)).
Proof.
  revert s. induction l as [| x l IH]; simpl; intros s Hb Hs; [exact Hs |].
  assert (Hx : I (state_of (body s x))) by (apply Hb; auto).
  destruct (body s x) as [s' | e s']; simpl in *; [| exact Hx].
  apply IH; auto.
Qed.

Lemma for_each_try_state {S X : Type} (I : S -> Prop)
  (body : S -> X -> outcome S) (l : list X) (s : S) :
  (forall s x, In x l -> I s -> I (state_of (body s x))) ->
  I s -> I (for_each_try body l s).
Proof.
  unfold for_each_try. revert s.
  induction l as [| x l IH]; simpl; intros s Hb Hs; [exact Hs |].
  apply IH; auto.
Qed.

(** ** Expressions that can raise *)

Lemma rbind_Ok {A B : Type} (r : result A) (k : A -> result B) (b : B) :
  rbind r k = Ok b -> exists a, r = Ok a /\ k a = Ok b.
Proof.
  destruct r as [a | e]; simpl; [| discriminate]. intros H. now exists a.
Qed.

Ltac bind_inv H :=
  let a := fresh "a" in
  let Ha := fresh "Ha" in
  apply rbind_Ok in H; destruct H as (a & Ha & H).

Lemma py_div_Ok (a b r : Q) : py_div a b = Ok r -> r = (a / b)%Q.
Proof.
  unfold py_div. destruct (Qeq_bool b 0); [discriminate |].
  intros H. now inversion H.
Qed.

Lemma py_div_defined (a b : Q) : ~ (b == 0)%Q -> py_div a b = Ok (a / b)%Q.
Proof.
  intros Hb. unfold py_div. destruct (Qeq_bool b 0) eqn:E; [| reflexivity].
  now apply Qeq_bool_eq in E.
Qed.

Lemma inject_Z_nonzero (z : Z) : z <> 0 -> ~ (inject_Z z == 0)%Q.
Proof.
  intros Hz H. apply Hz. unfold Qeq in H. simpl in H. lia.
Qed.

Lemma sum_from_no_zero_division (acc : Q) (l : list json) :
  sum_from acc l <> Err ZeroDivisionError.
Proof.
  revert acc. induction l as [| v l IH]; simpl; intros acc; [discriminate |].
  destruct (as_number v); [apply IH | discriminate].
Qed.

Lemma len_cons_nonzero {A : Type} (x : A) (l : list A) : len (x :: l) <> 0.
Proof. unfold len. simpl. lia. Qed.

(** An average never divides by zero. *)
Lemma average_no_zero_division (l : list json) :
  average l <> Err ZeroDivisionError.
Proof.
  unfold average. destruct l as [| v l]; [discriminate |].
  pose proof (sum_from_no_zero_division 0 (v :: l)) as Hs.
  unfold py_sum. destruct (sum_from 0 (v :: l)) as [s | e]; cbn [rbind].
  - rewrite py_div_defined; [discriminate |].
    apply inject_Z_nonzero, len_cons_nonzero.
  - congruence.
Qed.

Lemma Q_gtb_nonzero (q : Q) : Q_gtb q 0 = true -> ~ (q == 0)%Q.
Proof.
  unfold Q_gtb. intros H Hq.
  apply negb_true_iff in H.
  assert (Hle : Qle_bool q 0 = true) by (apply Qle_bool_iff; rewrite Hq; apply Qle_refl).
  congruence.
Qed.

Lemma flexibility_defined (games : Z) (l : list (pykey * Z)) :
  games <> 0 -> exists n, flexibility games l = Ok n.
Proof.
  intros Hg. induction l as [| [k c] l [n IH]]; simpl; [now exists 0 |].
  rewrite py_div_defined by now apply inject_Z_nonzero.
  cbn [rbind]. rewrite IH. cbn [rbind]. eauto.
Qed.

Lemma type_error_only_Ok {A : Type} (a : A) : type_error_only (Ok a).
Proof. intros e H. discriminate. Qed.

Lemma type_error_only_bind {A B : Type} (r : result A) (k : A -> result B) :
  type_error_only r -> (forall a, r = Ok a -> type_error_only (k a)) ->
  type_error_only (rbind r k).
Proof.
  intros Hr Hk e. destruct r as [a | e']; simpl.
  - now apply Hk.
  - intros H. inversion H. subst. now apply Hr.
Qed.

Lemma type_error_only_div (a b : Q) :
  ~ (b == 0)%Q -> type_error_only (py_div a b).
Proof. intros Hb. rewrite py_div_defined by exact Hb. apply type_error_only_Ok. Qed.

Lemma type_error_only_sum (acc : Q) (l : list json) :
  type_error_only (sum_from acc l).
Proof.
  revert acc. induction l as [| v l IH]; simpl; intros acc.
  - apply type_error_only_Ok.
  - destruct (as_number v); [apply IH |]. intros e H. now inversion H.
Qed.

Lemma type_error_only_average (l : list json) : type_error_only (average l).
Proof.
  unfold average. destruct l as [| v l]; [apply type_error_only_Ok |].
  apply type_error_only_bind; [apply type_error_only_sum |]. intros s _.
  apply type_error_only_bind; [| intros; apply type_error_only_Ok].
  apply type_error_only_div, inject_Z_nonzero, len_cons_nonzero.
Qed.

Lemma type_error_only_flexibility (games : Z) (l : list (pykey * Z)) :
  games <> 0 -> type_error_only (flexibility games l).
Proof.
  intros Hg. destruct (flexibility_defined games l Hg) as [n ->].
  apply type_error_only_Ok.
Qed.

(** ** The Entity Stats reducer *)

Lemma champion_entry_type_error_only (data : Champion.data) :
  Champion.games data <> 0 -> type_error_only (champion_entry data).
Proof.
  intros Hg. unfold champion_entry.
  assert (Hd : forall a, type_error_only
                           (py_div a (inject_Z (Champion.games data)))).
  { intros a. apply type_error_only_div. now apply inject_Z_nonzero. }
  repeat first
    [ apply type_error_only_Ok
    | apply Hd
    | apply type_error_only_average
    | apply type_error_only_flexibility; exact Hg
    | apply type_error_only_bind; [| intros ? _] ].
  destruct (Q_gtb (Champion.totals data Champion.total_gold) 0) eqn:E.
  - apply type_error_only_bind; [| intros; apply type_error_only_Ok].
    apply type_error_only_div. now apply Q_gtb_nonzero.
  - apply type_error_only_Ok.
Qed.

(** What the entry of a champion holds, given the accumulated [data]. *)
Lemma champion_entry_fields (data : Champion.data) (s : Champion.stats) :
  champion_entry data = Ok s ->
  Champion.games_played s = Champion.games data /\
  Champion.wins_out s = Champion.wins data /\
  Champion.win_rate s
  = py_round (inject_Z (Champion.wins data) / inject_Z (Champion.games data)
              * 100) 2 /\
  Champion.pick_rate s = 0%Q /\
  (Q_gtb (Champion.totals data Champion.total_gold) 0 = false ->
   Champion.gold_efficiency s = 0%Q) /\
  (Champion.samples data Champion.kda_samples = [] ->
   Champion.avg_kda s = 0%Q) /\
  (Champion.samples data Champion.damage_per_min_samples = [] ->
   Champion.avg_damage_per_min s = 0%Q) /\
  (Champion.samples data Champion.cs_per_min_samples = [] ->
   Champion.avg_cs_per_min s = 0%Q) /\
  (Champion.samples data Champion.gold_per_min_samples = [] ->
   Champion.avg_gold_per_min s = 0%Q) /\
  (Champion.samples data Champion.vision_per_min_samples = [] ->
   Champion.avg_vision_per_min s = 0%Q).
Proof.
  unfold champion_entry. intros H.
  bind_inv H. apply py_div_Ok in Ha. subst a.
  do 3 (bind_inv H; clear Ha).
  bind_inv H. rename a2 into kda, Ha into Hkda.
  bind_inv H; clear Ha.
  bind_inv H. rename a2 into dpm, Ha into Hdpm.
  bind_inv H; clear Ha.
  bind_inv H. rename a3 into cpm, Ha into Hcpm.
  bind_inv H; clear Ha.
  bind_inv H. rename a4 into gpm, Ha into Hgpm.
  bind_inv H. rename a5 into eff, Ha into Heff.
  bind_inv H; clear Ha.
  bind_inv H. rename a6 into vpm, Ha into Hvpm.
  bind_inv H; clear Ha.
  inversion H; subst s; clear H; simpl.
  repeat split; try reflexivity.
  - intros E. rewrite E in Heff. now inversion Heff.
  - intros E. rewrite E in Hkda. now inversion Hkda.
  - intros E. rewrite E in Hdpm. now inversion Hdpm.
  - intros E. rewrite E in Hcpm. now inversion Hcpm.
  - intros E. rewrite E in Hgpm. now inversion Hgpm.
  - intros E. rewrite E in Hvpm. now inversion Hvpm.
Qed.

Lemma state_of_omap {S T : Type} (f : S -> T) (o : outcome S) :
  state_of (omap f o) = f (state_of o).
Proof. now destruct o. Qed.

Lemma add_total_keeps_counts (f : Champion.total) (v : json) :
  keeps_counts (add_total f v).
Proof. intros s. unfold add_total. now destruct (as_number v). Qed.

Lemma append_sample_keeps_counts (f : Champion.series) (v : json) :
  keeps_counts (append_sample f v).
Proof. intros s. now split. Qed.

Lemma track_position_keeps_counts (kv : list (string * json)) :
  keeps_counts (track_position kv).
Proof.
  intros s. unfold track_position.
  destruct (truthy (position_of kv)); [| now split].
  now destruct (to_key (position_of kv)).
Qed.

Lemma seq_keeps_counts (f g : Champion.data -> outcome Champion.data)
  (s : Champion.data) :
  keeps_counts g ->
  Champion.games (state_of ((f >>> g) s)) = Champion.games (state_of (f s)) /\
  Champion.wins (state_of ((f >>> g) s)) = Champion.wins (state_of (f s)).
Proof.
  intros Hg. unfold seq. destruct (f s) as [s' | e s']; simpl; [apply Hg | now split].
Qed.

(** A participant adds one game and at most one win to its entry, whether
    a later statement raises or not. *)
Lemma update_stats_counts (kv : list (string * json)) (s : Champion.data) :
  Champion.games (state_of (update_stats kv s)) = Champion.games s + 1 /\
  Champion.wins s <= Champion.wins (state_of (update_stats kv s))
  <= Champion.wins s + 1.
Proof.
  unfold update_stats.
  repeat
    match goal with
    | |- context [state_of ((?f >>> add_total ?t ?v) s)] =>
        destruct (seq_keeps_counts f (add_total t v) s
                    (add_total_keeps_counts t v)) as [-> ->]
    | |- context [state_of ((?f >>> append_sample ?t ?v) s)] =>
        destruct (seq_keeps_counts f (append_sample t v) s
                    (append_sample_keeps_counts t v)) as [-> ->]
    | |- context [state_of ((?f >>> track_position ?k) s)] =>
        destruct (seq_keeps_counts f (track_position k) s
                    (track_position_keeps_counts k)) as [-> ->]
    end.
  unfold seq; simpl. destruct (truthy (get kv "win" (JBool false))); lia.
Qed.

Lemma od_get_cases {V : Type} (dflt : V) (c : pykey) (d : key_dict V) :
  od_get key_eqb dflt c d = dflt \/ In (c, od_get key_eqb dflt c d) d.
Proof.
  unfold od_get. destruct (od_find key_eqb c d) as [v |] eqn:E; [| now left].
  right. now apply (od_find_In key_eqb key_eqb_eq).
Qed.

Lemma champion_participant_ok (matches : list json) (m p : json)
  (d : key_dict Champion.data) :
  In m matches -> In p (participants m) ->
  Forall (entry_ok matches) d ->
  Forall (entry_ok matches) (state_of (champion_participant d p)).
Proof.
  intros Hm Hp Hd. unfold champion_participant.
  destruct p as [| | | | | kv]; try exact Hd.
  destruct (is_str "Unknown" (get kv "champion" (JStr "Unknown"))); [exact Hd |].
  destruct (to_key (get kv "champion" (JStr "Unknown"))) as [c | e] eqn:Ec;
    [| exact Hd].
  rewrite state_of_omap.
  apply (Forall_od_set key_eqb key_eqb_eq); [exact Hd |].
  pose proof (update_stats_counts kv (od_get key_eqb Champion.fresh c d))
    as [Hg Hw].
  assert (Hold : 0 <= Champion.wins (od_get key_eqb Champion.fresh c d)
                 <= Champion.games (od_get key_eqb Champion.fresh c d)).
  { destruct (od_get_cases Champion.fresh c d) as [-> | Hin]; [simpl; lia |].
    rewrite Forall_forall in Hd. apply (Hd _ Hin). }
  unfold entry_ok; simpl. repeat split; try lia.
  now exists m, kv.
Qed.

Lemma champion_match_ok (matches : list json) (m : json)
  (d : key_dict Champion.data) :
  In m matches ->
  Forall (entry_ok matches) d ->
  Forall (entry_ok matches) (state_of (champion_match d m)).
Proof.
  intros Hm Hd. unfold champion_match.
  destruct (subscript_if_in "participants" m) as [| e | ps] eqn:Es;
    try exact Hd.
  destruct (py_iter ps) as [l | e] eqn:El; [| exact Hd].
  apply for_each_state; [| exact Hd].
  intros s x Hx Hs. apply (champion_participant_ok matches m); auto.
  unfold participants. now rewrite Es, El.
Qed.

Lemma champion_data_ok (matches : list json) :
  Forall (entry_ok matches) (champion_data matches).
Proof.
  unfold champion_data. apply for_each_try_state; [| constructor].
  intros s m Hm Hs. now apply champion_match_ok.
Qed.

Lemma champion_entries_In (items : key_dict Champion.data)
  (out0 out : key_dict Champion.stats) (c : pykey) (s : Champion.stats) :
  champion_entries items out0 = Ok out -> In (c, s) out ->
  In (c, s) out0 \/
  exists data, In (c, data) items /\ Champion.games data <> 0 /\
               champion_entry data = Ok s.
Proof.
  revert out0. induction items as [| [c' data] items IH]; simpl; intros out0 H Hin.
  - inversion H. subst. now left.
  - destruct (Champion.games data =? 0) eqn:Eg.
    + destruct (IH _ H Hin) as [? | (data' & ? & ?)]; [now left |].
      right. exists data'. auto.
    + bind_inv H.
      destruct (IH _ H Hin) as [Hin' | (data' & ? & ?)].
      * apply (In_od_set key_eqb key_eqb_eq) in Hin'.
        destruct Hin' as [[-> ->] | ?]; [| now left].
        right. exists data. apply Z.eqb_neq in Eg. auto.
      * right. exists data'. auto.
Qed.

Lemma champion_entries_type_error_only (items : key_dict Champion.data)
  (out0 : key_dict Champion.stats) :
  type_error_only (champion_entries items out0).
Proof.
  revert out0. induction items as [| [c data] items IH]; simpl; intros out0.
  - apply type_error_only_Ok.
  - destruct (Champion.games data =? 0) eqn:Eg; [apply IH |].
    apply type_error_only_bind; [| intros; apply IH].
    apply champion_entry_type_error_only. now apply Z.eqb_neq.
Qed.

Lemma write_pick_rates_defined (total : Z) (out : key_dict Champion.stats) :
  total <> 0 ->
  write_pick_rates total out = Ok (map (with_pick_rate total) out).
Proof.
  intros Ht. induction out as [| [c s] out IH]; simpl; [reflexivity |].
  rewrite py_div_defined by now apply inject_Z_nonzero.
  cbn [rbind]. rewrite IH. reflexivity.
Qed.

Lemma fold_left_plus {A : Type} (f : A -> Z) (l : list A) (a : Z) :
  fold_left (fun t e => t + f e) l a = a + fold_left (fun t e => t + f e) l 0.
Proof.
  revert a. induction l as [| x l IH]; simpl; intros a; [lia |].
  rewrite (IH (a + f x)), (IH (f x)). lia.
Qed.

Lemma total_picks_cons (e : pykey * Champion.stats)
  (out : key_dict Champion.stats) :
  total_picks (e :: out) = Champion.games_played (snd e) + total_picks out.
Proof.
  unfold total_picks. simpl.
  now rewrite (fold_left_plus (fun e => Champion.games_played (snd e))).
Qed.


(** The entries before the pick rates are written. *)
Lemma aggregated_entry_ok (matches : list json) (agg : key_dict Champion.stats)
  (c : pykey) (s : Champion.stats) :
  champion_entries (champion_data matches) [] = Ok agg -> In (c, s) agg ->
  exists data,
    In (c, data) (champion_data matches) /\ entry_ok matches (c, data) /\
    champion_entry data = Ok s.
Proof.
  intros H Hin.
  destruct (champion_entries_In _ _ _ _ _ H Hin) as [[] | (data & Hd & _ & He)].
  exists data. split; [exact Hd |]. split; [| exact He].
  pose proof (champion_data_ok matches) as Hok.
  rewrite Forall_forall in Hok. apply (Hok _ Hd).
Qed.

Lemma total_picks_positive (matches : list json)
  (agg : key_dict Champion.stats) :
  champion_entries (champion_data matches) [] = Ok agg ->
  agg <> [] -> 0 < total_picks agg.
Proof.
  intros H Hne.
  assert (Hall : forall e, In e agg -> 1 <= Champion.games_played (snd e)).
  { intros [c s] Hin.
    destruct (aggregated_entry_ok _ _ _ _ H Hin) as (data & _ & Hok & He).
    apply champion_entry_fields in He. destruct He as (Hg & _).
    simpl. rewrite Hg. apply Hok. }
  clear H. destruct agg as [| e agg]; [congruence |].
  assert (Hnn : forall l : key_dict Champion.stats,
             (forall e, In e l -> 1 <= Champion.games_played (snd e)) ->
             0 <= total_picks l).
  { induction l as [| x l IH]; intros Hl; [unfold total_picks; simpl; lia |].
    rewrite total_picks_cons.
    assert (1 <= Champion.games_played (snd x)) by (apply Hl; now left).
    assert (0 <= total_picks l) by (apply IH; intros; apply Hl; now right).
    lia. }
  rewrite total_picks_cons.
  assert (1 <= Champion.games_played (snd e)) by (apply Hall; now left).
  assert (0 <= total_picks agg) by (apply Hnn; intros; apply Hall; now right).
  lia.
Qed.

(** The output is the list of entries, with the pick rates written against
    the total of their games. *)
Lemma aggregate_champion_stats_shape (matches : list json)
  (out : key_dict Champion.stats) :
  aggregate_champion_stats matches = Ok out ->
  exists agg,
    champion_entries (champion_data matches) [] = Ok agg /\
    ((agg = [] /\ out = []) \/
     (0 < total_picks agg /\ out = map (with_pick_rate (total_picks agg)) agg)).
Proof.
  unfold aggregate_champion_stats. intros H. bind_inv H. rename a into agg.
  exists agg. split; [exact Ha |].
  destruct (0 <? total_picks agg) eqn:Et.
  - apply Z.ltb_lt in Et. right. split; [exact Et |].
    rewrite write_pick_rates_defined in H by lia. now inversion H.
  - apply Z.ltb_ge in Et. left. inversion H; subst out.
    destruct agg as [| e agg]; [now split |].
    assert (0 < total_picks (e :: agg)) by
      (apply (total_picks_positive matches); [exact Ha | discriminate]).
    lia.
Qed.

Lemma aggregate_champion_stats_type_error_only (matches : list json) :
  type_error_only (aggregate_champion_stats matches).
Proof.
  unfold aggregate_champion_stats.
  apply type_error_only_bind; [apply champion_entries_type_error_only |].
  intros agg _. destruct (0 <? total_picks agg) eqn:Et.
  - apply Z.ltb_lt in Et. rewrite write_pick_rates_defined by lia.
    apply type_error_only_Ok.
  - apply type_error_only_Ok.
Qed.

(** ** The other reducers never divide by zero *)

Lemma top_champion_rows_defined (games : Z) (top : list (pykey * Z)) :
  games <> 0 -> exists rows, top_champion_rows games top = Ok rows.
Proof.
  intros Hg. induction top as [| [c n] top [rows IH]]; simpl; [now eexists |].
  rewrite py_div_defined by now apply inject_Z_nonzero.
  cbn [rbind]. rewrite IH. cbn [rbind]. now eexists.
Qed.

Lemma role_entry_type_error_only (data : Role.data) :
  Role.games data <> 0 -> type_error_only (role_entry data).
Proof.
  intros Hg. unfold role_entry.
  assert (Hd : forall a, type_error_only (py_div a (inject_Z (Role.games data)))).
  { intros a. apply type_error_only_div. now apply inject_Z_nonzero. }
  repeat first
    [ apply type_error_only_Ok
    | apply Hd
    | apply type_error_only_average
    | apply type_error_only_bind; [| intros ? _] ].
  destruct (top_champion_rows_defined (Role.games data)
              (firstn 10 (sorted_reverse (fun x => inject_Z (snd x))
                            (Role.champions data))) Hg) as [rows ->].
  apply type_error_only_Ok.
Qed.

Lemma aggregate_role_meta_type_error_only (matches : list json) :
  type_error_only (aggregate_role_meta matches).
Proof.
  unfold aggregate_role_meta. generalize (@nil (pykey * Role.stats)).
  induction (role_data matches) as [| [c data] items IH]; simpl; intros out0.
  - apply type_error_only_Ok.
  - destruct (Role.games data =? 0) eqn:Eg; [apply IH |].
    apply type_error_only_bind; [| intros; apply IH].
    apply role_entry_type_error_only. now apply Z.eqb_neq.
Qed.

Lemma top_build_rows_defined (total_games : Z) (top : Build.counts) :
  total_games <> 0 -> exists rows, top_build_rows total_games top = Ok rows.
Proof.
  intros Hg. induction top as [| [c n] top [rows IH]]; simpl; [now eexists |].
  rewrite py_div_defined by now apply inject_Z_nonzero.
  cbn [rbind]. rewrite IH. cbn [rbind]. now eexists.
Qed.

(** The Build Stats reducer returns for every input. *)
Lemma aggregate_item_builds_defined (matches : list json) :
  exists out, aggregate_item_builds matches = Ok out.
Proof.
  unfold aggregate_item_builds. generalize (@nil (pykey * Build.stats)).
  induction (champion_items matches) as [| [c builds] items IH];
    cbn [build_entries]; intros out0; [now eexists |].
  destruct (sum_values builds =? 0) eqn:Eg; [apply IH |].
  apply Z.eqb_neq in Eg.
  destruct (top_build_rows_defined (sum_values builds)
              (firstn 5 (sorted_reverse (fun x => inject_Z (snd x)) builds)) Eg)
    as [rows ->].
  cbn [rbind]. apply IH.
Qed.

Lemma significant_row_defined (opponents : key_dict Matchup.cell)
  (row0 : key_dict Matchup.stats) :
  exists row, significant_row opponents row0 = Ok row.
Proof.
  revert row0. induction opponents as [| [b data] opponents IH]; simpl;
    intros row0; [now eexists |].
  destruct (3 <=? Matchup.games data) eqn:Eg; [| apply IH].
  apply Z.leb_le in Eg.
  rewrite py_div_defined by (apply inject_Z_nonzero; lia).
  cbn [rbind]. apply IH.
Qed.

(** The Matchup Stats reducer returns for every input. *)
Lemma aggregate_matchups_defined (matches : list json) :
  exists out, aggregate_matchups matches = Ok out.
Proof.
  unfold aggregate_matchups.
  generalize (@nil (pykey * key_dict Matchup.stats)).
  induction (matchup_data matches) as [| [a opponents] items IH]; simpl;
    intros out0; [now eexists |].
  destruct (significant_row_defined opponents []) as [row ->].
  cbn [rbind]. destruct row; apply IH.
Qed.

(** The Objective Correlation reducer returns for every input, with a win
    rate 0 for an objective without games. *)
Lemma objective_rates_defined (d : objective_dict) :
  exists out, objective_rates d = Ok out /\ Forall objective_rate_ok out.
Proof.
  induction d as [| [name data] d (out & IH & Hall)]; simpl.
  - exists []. split; [reflexivity | constructor].
  - destruct (0 <? Objective.games data) eqn:Eg.
    + apply Z.ltb_lt in Eg.
      rewrite py_div_defined by (apply inject_Z_nonzero; lia).
      cbn [rbind]. rewrite IH. cbn [rbind]. eexists. split; [reflexivity |].
      constructor; [| exact Hall]. unfold objective_rate_ok; simpl. lia.
    + cbn [rbind]. rewrite IH. cbn [rbind]. eexists. split; [reflexivity |].
      constructor; [| exact Hall]. unfold objective_rate_ok; simpl. reflexivity.
Qed.


(** ** Entries of the Entity Stats reducer *)

Lemma champion_match_NoDup (d : key_dict Champion.data) (m : json) :
  NoDup (map fst d) -> NoDup (map fst (state_of (champion_match d m))).
Proof.
  intros Hd. unfold champion_match.
  destruct (subscript_if_in "participants" m) as [| e | ps]; try exact Hd.
  destruct (py_iter ps) as [l | e]; [| exact Hd].
  apply (for_each_state (fun d => NoDup (map fst d))); [| exact Hd].
  intros s p _ Hs. unfold champion_participant.
  destruct p as [| | | | | kv]; try exact Hs.
  destruct (is_str "Unknown" (get kv "champion" (JStr "Unknown"))); [exact Hs |].
  destruct (to_key (get kv "champion" (JStr "Unknown"))) as [c | e];
    [| exact Hs].
  rewrite state_of_omap. now apply (od_set_NoDup key_eqb key_eqb_eq).
Qed.

Lemma champion_data_NoDup (matches : list json) :
  NoDup (map fst (champion_data matches)).
Proof.
  unfold champion_data.
  apply (for_each_try_state (fun d => NoDup (map fst d))); [| constructor].
  intros s m _ Hs. now apply champion_match_NoDup.
Qed.


(** An entry of the output and the data it was built from. *)
Lemma output_entry (matches : list json) (out : key_dict Champion.stats)
  (c : pykey) (s : Champion.stats) :
  aggregate_champion_stats matches = Ok out -> In (c, s) out ->
  let data := od_get key_eqb Champion.fresh c (champion_data matches) in
  exists s0,
    entry_ok matches (c, data) /\ champion_entry data = Ok s0 /\
    exists r, s = Champion.set_pick_rate r s0.
Proof.
  intros H Hin.
  destruct (aggregate_champion_stats_shape _ _ H) as (agg & Hagg & Hcase).
  assert (Hfrom : exists s0, In (c, s0) agg /\
                             exists r, s = Champion.set_pick_rate r s0).
  { destruct Hcase as [[_ ->] | [_ ->]]; [destruct Hin |].
    apply in_map_iff in Hin. destruct Hin as ([c0 s0] & E & Hin0).
    unfold with_pick_rate in E; simpl in E. inversion E; subst.
    exists s0. split; [exact Hin0 | now eexists]. }
  destruct Hfrom as (s0 & Hin0 & r & ->).
  destruct (aggregated_entry_ok _ _ _ _ Hagg Hin0) as (data & Hd & Hok & He).
  assert (Hdata : od_get key_eqb Champion.fresh c (champion_data matches) = data).
  { unfold od_get.
    now rewrite (In_od_find key_eqb key_eqb_eq _ _ _
                   (champion_data_NoDup matches) Hd). }
  simpl. rewrite Hdata. exists s0. split; [exact Hok |]. split; [exact He |].
  now exists r.
Qed.





(** ** Pick rates *)







(** ** Cells of the Matchup Stats reducer *)

Lemma key_eqb_false (a b : pykey) : key_eqb a b = false -> a <> b.
Proof. intros H E. subst. rewrite key_eqb_refl in H. discriminate. Qed.

Lemma cell_at_update_cell (f : Matchup.cell -> Matchup.cell) (a b x y : pykey)
  (d : matchup_dict) :
  cell_at x y (update_cell f a b d)
  = if key_eqb a x && key_eqb b y then f (cell_at x y d) else cell_at x y d.
Proof.
  unfold cell_at, update_cell.
  destruct (key_eqb a x) eqn:Ea; simpl.
  - apply key_eqb_eq in Ea. subst x.
    rewrite (od_get_set_same key_eqb key_eqb_eq).
    destruct (key_eqb b y) eqn:Eb.
    + apply key_eqb_eq in Eb. subst y.
      now rewrite (od_get_set_same key_eqb key_eqb_eq).
    + apply key_eqb_false in Eb.
      now rewrite (od_get_set_other key_eqb key_eqb_eq).
  - apply key_eqb_false in Ea.
    now rewrite (od_get_set_other key_eqb key_eqb_eq).
Qed.

Lemma cell_at_touch_row (a x y : pykey) (d : matchup_dict) :
  cell_at x y (touch_row a d) = cell_at x y d.
Proof.
  unfold cell_at, touch_row. destruct (key_eqb a x) eqn:Ea.
  - apply key_eqb_eq in Ea. subst x.
    now rewrite (od_get_set_same key_eqb key_eqb_eq).
  - apply key_eqb_false in Ea.
    now rewrite (od_get_set_other key_eqb key_eqb_eq).
Qed.

(** What one observation adds to a cell: lines 305-311. *)
Lemma record_matchup_cell (champ1 champ2 x y : pykey) (won1 : bool)
  (d : matchup_dict) :
  let fwd := key_eqb champ1 x && key_eqb champ2 y in
  let bwd := key_eqb champ2 x && key_eqb champ1 y in
  Matchup.games (cell_at x y (record_matchup champ1 champ2 won1 d))
  = Matchup.games (cell_at x y d) + bit fwd + bit bwd /\
  Matchup.wins (cell_at x y (record_matchup champ1 champ2 won1 d))
  = Matchup.wins (cell_at x y d) + bit (fwd && won1) + bit (bwd && negb won1).
Proof.
  unfold record_matchup, add_game, add_win.
  destruct won1; cbv zeta; simpl negb; cbv iota;
    rewrite !cell_at_update_cell;
    destruct (key_eqb champ1 x), (key_eqb champ2 y), (key_eqb champ2 x),
      (key_eqb champ1 y); simpl; split; lia.
Qed.

Lemma len_app {A : Type} (l1 l2 : list A) : len (l1 ++ l2) = len l1 + len l2.
Proof. unfold len. rewrite length_app. lia. Qed.

Lemma faced_app (a b : pykey) (l1 l2 : list observation) :
  faced a b (l1 ++ l2) = faced a b l1 + faced a b l2.
Proof. unfold faced. now rewrite filter_app, len_app. Qed.

Lemma faced_with_app (w : bool) (a b : pykey) (l1 l2 : list observation) :
  faced_with w a b (l1 ++ l2) = faced_with w a b l1 + faced_with w a b l2.
Proof. unfold faced_with. now rewrite filter_app, len_app. Qed.

Lemma faced_one (a b c1 c2 : pykey) (w : bool) :
  faced a b [(c1, c2, w)] = bit (key_eqb c1 a && key_eqb c2 b).
Proof.
  unfold faced; simpl. now destruct (key_eqb c1 a && key_eqb c2 b).
Qed.

Lemma faced_with_one (v : bool) (a b c1 c2 : pykey) (w : bool) :
  faced_with v a b [(c1, c2, w)]
  = bit (key_eqb c1 a && key_eqb c2 b && Bool.eqb w v).
Proof.
  unfold faced_with; simpl.
  now destruct (key_eqb c1 a && key_eqb c2 b && Bool.eqb w v).
Qed.

Lemma faced_split (a b : pykey) (obs : list observation) :
  faced a b obs = faced_with true a b obs + faced_with false a b obs.
Proof.
  induction obs as [| [[c1 c2] w] obs IH]; [reflexivity |].
  change ((c1, c2, w) :: obs) with ([(c1, c2, w)] ++ obs).
  rewrite faced_app, !faced_with_app, IH, faced_one, !faced_with_one.
  destruct (key_eqb c1 a), (key_eqb c2 b), w; cbn [bit andb Bool.eqb]; lia.
Qed.

Lemma tallies_record (champ1 champ2 : pykey) (won1 : bool) (d : matchup_dict)
  (obs : list observation) :
  tallies d obs ->
  tallies (record_matchup champ1 champ2 won1 d)
          (obs ++ [(champ1, champ2, won1)]).
Proof.
  intros H x y. destruct (H x y) as [Hg Hw].
  destruct (record_matchup_cell champ1 champ2 x y won1 d) as [-> ->].
  rewrite !faced_app, !faced_with_app, !faced_one, !faced_with_one, Hg, Hw.
  destruct (key_eqb champ1 x), (key_eqb champ2 y), (key_eqb champ2 x),
    (key_eqb champ1 y), won1; cbn [bit andb negb Bool.eqb]; split; lia.
Qed.

Lemma tallies_touch_row (a : pykey) (d : matchup_dict) (obs : list observation) :
  tallies d obs -> tallies (touch_row a d) obs.
Proof. intros H x y. rewrite cell_at_touch_row. apply H. Qed.

(** The reducer and the list of observations advance together. *)
Lemma track_observe_step (tp : Matchup.teams) (d : matchup_dict)
  (log : list observation) (position : string) :
  tallies d log ->
  tallies (state_of (track_matchup tp d position))
          (state_of (observe tp log position)) /\
  raised (track_matchup tp d position) = raised (observe tp log position).
Proof.
  intros H. unfold track_matchup, observe.
  destruct (od_find key_eqb (KStr position) (fst tp)) as [s1 |];
    [| now split].
  destruct (od_find key_eqb (KStr position) (snd tp)) as [s2 |];
    [| now split].
  destruct (to_key (Matchup.champion s1)) as [champ1 | e]; [| now split].
  destruct (to_key (Matchup.champion s2)) as [champ2 | e]; simpl.
  - split; [now apply tallies_record | reflexivity].
  - split; [now apply tallies_touch_row | reflexivity].
Qed.

Lemma track_observe_loop (tp : Matchup.teams) (l : list string)
  (d : matchup_dict) (log : list observation) :
  tallies d log ->
  tallies (state_of (for_each (track_matchup tp) l d))
          (state_of (for_each (observe tp) l log)).
Proof.
  revert d log. induction l as [| position l IH]; simpl; intros d log H;
    [exact H |].
  destruct (track_observe_step tp d log position H) as [Ht Hr].
  destruct (track_matchup tp d position) as [d' | e d'],
    (observe tp log position) as [log' | e' log']; simpl in *;
    try discriminate; auto.
Qed.

Lemma observe_prefix (tp : Matchup.teams) (l : list string)
  (log : list observation) :
  state_of (for_each (observe tp) l log)
  = log ++ state_of (for_each (observe tp) l []).
Proof.
  revert log. induction l as [| position l IH]; simpl; intros log;
    [now rewrite app_nil_r |].
  unfold observe at 1 3.
  destruct (od_find key_eqb (KStr position) (fst tp)) as [s1 |];
    [| apply IH].
  destruct (od_find key_eqb (KStr position) (snd tp)) as [s2 |];
    [| apply IH].
  destruct (to_key (Matchup.champion s1)) as [champ1 | e];
    [| simpl; now rewrite app_nil_r].
  destruct (to_key (Matchup.champion s2)) as [champ2 | e];
    [| simpl; now rewrite app_nil_r].
  rewrite IH. rewrite (IH ([] ++ _)). simpl. now rewrite <- app_assoc.
Qed.

Lemma tallies_nothing_observed (d : matchup_dict) (log : list observation) :
  tallies d log ->
  tallies d (log ++ state_of (for_each (observe ([], [])) canonical_positions [])).
Proof. simpl. now rewrite app_nil_r. Qed.

Lemma matchup_match_tallies (d : matchup_dict) (log : list observation)
  (m : json) :
  tallies d log ->
  tallies (state_of (matchup_match d m)) (log ++ match_observations m).
Proof.
  intros H. unfold matchup_match, match_observations, participants.
  destruct (subscript_if_in "participants" m) as [| e | ps];
    try now apply tallies_nothing_observed.
  destruct (py_iter ps) as [l | e]; [| now apply tallies_nothing_observed].
  destruct (for_each place_participant l ([], [])) as [tp | e tp];
    cbv beta iota.
  - rewrite <- observe_prefix. now apply track_observe_loop.
  - cbn [state_of]. now rewrite app_nil_r.
Qed.

Lemma for_each_try_tallies (matches : list json) (d : matchup_dict)
  (log : list observation) :
  tallies d log ->
  tallies (for_each_try matchup_match matches d) (log ++ observations matches).
Proof.
  unfold for_each_try, observations.
  revert d log. induction matches as [| m matches IH]; simpl; intros d log H.
  - now rewrite app_nil_r.
  - rewrite app_assoc. apply IH. now apply matchup_match_tallies.
Qed.

(** The cells of [matchup_data] count the observations of the record set. *)
Lemma matchup_data_tallies (matches : list json) :
  tallies (matchup_data matches) (observations matches).
Proof.
  apply (for_each_try_tallies matches [] []). intros x y. now split.
Qed.

Lemma distinct_keys_row (a : pykey) (d : matchup_dict) :
  distinct_keys d -> NoDup (map fst (od_get key_eqb [] a d)).
Proof.
  intros [_ Hrows].
  destruct (od_get_cases (@nil (pykey * Matchup.cell)) a d) as [-> | Hin];
    [constructor |].
  rewrite Forall_forall in Hrows. apply (Hrows _ Hin).
Qed.

Lemma distinct_keys_update_cell (f : Matchup.cell -> Matchup.cell)
  (a b : pykey) (d : matchup_dict) :
  distinct_keys d -> distinct_keys (update_cell f a b d).
Proof.
  intros Hd. pose proof (distinct_keys_row a d Hd) as Hrow.
  destruct Hd as [Hk Hrows]. unfold update_cell. split.
  - now apply (od_set_NoDup key_eqb key_eqb_eq).
  - apply (Forall_od_set key_eqb key_eqb_eq); [exact Hrows |].
    simpl. now apply (od_set_NoDup key_eqb key_eqb_eq).
Qed.

Lemma distinct_keys_touch_row (a : pykey) (d : matchup_dict) :
  distinct_keys d -> distinct_keys (touch_row a d).
Proof.
  intros Hd. pose proof (distinct_keys_row a d Hd) as Hrow.
  destruct Hd as [Hk Hrows]. unfold touch_row. split.
  - now apply (od_set_NoDup key_eqb key_eqb_eq).
  - now apply (Forall_od_set key_eqb key_eqb_eq).
Qed.

Lemma distinct_keys_record (champ1 champ2 : pykey) (won1 : bool)
  (d : matchup_dict) :
  distinct_keys d -> distinct_keys (record_matchup champ1 champ2 won1 d).
Proof.
  intros Hd. unfold record_matchup, add_game, add_win.
  destruct won1; cbv zeta; simpl negb; cbv iota;
    repeat apply distinct_keys_update_cell; exact Hd.
Qed.

Lemma matchup_data_distinct_keys (matches : list json) :
  distinct_keys (matchup_data matches).
Proof.
  unfold matchup_data.
  apply (for_each_try_state distinct_keys); [| split; constructor].
  intros d m _ Hd. unfold matchup_match.
  destruct (subscript_if_in "participants" m) as [| e | ps]; try exact Hd.
  destruct (py_iter ps) as [l | e]; [| exact Hd].
  destruct (for_each place_participant l ([], [])) as [tp | e tp];
    [| exact Hd].
  apply (for_each_state distinct_keys); [| exact Hd].
  intros s position _ Hs. unfold track_matchup.
  destruct (od_find key_eqb (KStr position) (fst tp)); [| exact Hs].
  destruct (od_find key_eqb (KStr position) (snd tp)); [| exact Hs].
  destruct (to_key (Matchup.champion s0)); [| exact Hs].
  destruct (to_key (Matchup.champion s1)); simpl.
  - now apply distinct_keys_record.
  - now apply distinct_keys_touch_row.
Qed.

(** ** Output of the Matchup Stats reducer *)

Lemma significant_row_find (opponents : key_dict Matchup.cell)
  (row0 row : key_dict Matchup.stats) (b : pykey) :
  NoDup (map fst opponents) ->
  significant_row opponents row0 = Ok row ->
  od_find key_eqb b row
  = match od_find key_eqb b opponents with
    | Some c =>
        if 3 <=? Matchup.games c then Some (cell_stats c)
        else od_find key_eqb b row0
    | None => od_find key_eqb b row0
    end.
Proof.
  revert row0. induction opponents as [| [b' data] opponents IH];
    simpl; intros row0 Hnd H.
  - now inversion H.
  - inversion Hnd as [| ? ? Hnotin Hnd']. subst.
    assert (Hstep : exists row1,
               significant_row opponents row1 = Ok row /\
               row1 = if 3 <=? Matchup.games data
                      then od_set key_eqb b' (cell_stats data) row0
                      else row0).
    { destruct (3 <=? Matchup.games data); [| now exists row0].
      bind_inv H. apply py_div_Ok in Ha. subst a. eexists. split; [exact H |].
      reflexivity. }
    destruct Hstep as (row1 & Hrec & Hrow1).
    rewrite (IH row1 Hnd' Hrec).
    destruct (key_eqb b b') eqn:Eb.
    + apply key_eqb_eq in Eb. subst b'.
      apply (od_find_None key_eqb key_eqb_eq) in Hnotin. rewrite Hnotin.
      rewrite Hrow1. destruct (3 <=? Matchup.games data); [| reflexivity].
      apply (od_find_set_same key_eqb key_eqb_eq).
    + apply key_eqb_false in Eb.
      assert (E : od_find key_eqb b row1 = od_find key_eqb b row0).
      { rewrite Hrow1. destruct (3 <=? Matchup.games data); [| reflexivity].
        apply (od_find_set_other key_eqb key_eqb_eq). congruence. }
      now rewrite E.
Qed.

Lemma significant_rows_find (items : matchup_dict)
  (out0 out : key_dict (key_dict Matchup.stats)) (a : pykey) :
  NoDup (map fst items) ->
  significant_rows items out0 = Ok out ->
  od_find key_eqb a out
  = match od_find key_eqb a items with
    | Some opponents =>
        match significant_row opponents [] with
        | Ok (e :: row) => Some (e :: row)
        | _ => od_find key_eqb a out0
        end
    | None => od_find key_eqb a out0
    end.
Proof.
  revert out0. induction items as [| [a' opponents] items IH];
    simpl; intros out0 Hnd H.
  - now inversion H.
  - inversion Hnd as [| ? ? Hnotin Hnd']. subst.
    bind_inv H. rename a0 into row.
    assert (Hstep : exists out1,
               significant_rows items out1 = Ok out /\
               out1 = match row with
                      | [] => out0
                      | _ :: _ => od_set key_eqb a' row out0
                      end).
    { destruct row; eexists; split; try exact H; reflexivity. }
    destruct Hstep as (out1 & Hrec & Hout1).
    rewrite (IH out1 Hnd' Hrec).
    destruct (key_eqb a a') eqn:Ea.
    + apply key_eqb_eq in Ea. subst a'.
      apply (od_find_None key_eqb key_eqb_eq) in Hnotin. rewrite Hnotin, Ha.
      rewrite Hout1. destruct row; [reflexivity |].
      apply (od_find_set_same key_eqb key_eqb_eq).
    + apply key_eqb_false in Ea.
      assert (E : od_find key_eqb a out1 = od_find key_eqb a out0).
      { rewrite Hout1. destruct row; [reflexivity |].
        apply (od_find_set_other key_eqb key_eqb_eq). congruence. }
      now rewrite E.
Qed.

(** A pair is listed exactly when its cell has at least three games, with
    the counts of the cell. *)
Lemma matchup_entry_cell (matches : list json)
  (out : key_dict (key_dict Matchup.stats)) (a b : pykey) :
  aggregate_matchups matches = Ok out ->
  matchup_entry a b out
  = let c := cell_at a b (matchup_data matches) in
    if 3 <=? Matchup.games c then Some (cell_stats c) else None.
Proof.
  intros H. unfold aggregate_matchups in H.
  destruct (matchup_data_distinct_keys matches) as [Hk Hrows].
  unfold matchup_entry, cell_at, od_get.
  rewrite (significant_rows_find _ _ _ a Hk H). simpl od_find.
  unfold matchup_dict, key_dict in *. cbv zeta.
  destruct (@od_find pykey (list (pykey * Matchup.cell)) key_eqb a
              (matchup_data matches)) as [opponents |] eqn:Ea;
    [| reflexivity].
  assert (Hnd : NoDup (map fst opponents)).
  { apply (od_find_In key_eqb key_eqb_eq) in Ea.
    rewrite Forall_forall in Hrows. apply (Hrows _ Ea). }
  destruct (significant_row_defined opponents []) as [row Hrow].
  pose proof (significant_row_find opponents [] row b Hnd Hrow) as Hb.
  rewrite Hrow. simpl in Hb.
  destruct row as [| e row].
  - destruct (od_find key_eqb b opponents) as [c |]; simpl in *;
      [| reflexivity].
    destruct (3 <=? Matchup.games c); [discriminate | reflexivity].
  - rewrite Hb.
    destruct (od_find key_eqb b opponents) as [c |]; reflexivity.
Qed.

Lemma cell_games_tallied (matches : list json) (a b : pykey) :
  Matchup.games (cell_at a b (matchup_data matches)) = tallied_games a b matches.
Proof.
  destruct (matchup_data_tallies matches a b) as [-> _].
  unfold tallied_games, observed_games. destruct (key_eqb a b) eqn:E.
  - apply key_eqb_eq in E. subst b. rewrite key_eqb_refl. lia.
  - reflexivity.
Qed.

Lemma cell_wins_complementary (matches : list json) (a b : pykey) :
  Matchup.wins (cell_at a b (matchup_data matches))
  + Matchup.wins (cell_at b a (matchup_data matches))
  = Matchup.games (cell_at a b (matchup_data matches)).
Proof.
  destruct (matchup_data_tallies matches a b) as [-> ->].
  destruct (matchup_data_tallies matches b a) as [_ ->].
  rewrite (faced_split a b), (faced_split b a). lia.
Qed.

Lemma cell_games_symmetric (matches : list json) (a b : pykey) :
  Matchup.games (cell_at a b (matchup_data matches))
  = Matchup.games (cell_at b a (matchup_data matches)).
Proof.
  destruct (matchup_data_tallies matches a b) as [-> _].
  destruct (matchup_data_tallies matches b a) as [-> _]. lia.
Qed.



(** C2, as the specification words it, fails on the code: a mirror pair
    observed in two games only is listed, with four games. *)
Lemma mirror_pair_listed_after_two_games :
  observed_games (KStr "Ashe") (KStr "Ashe") two_mirrors = 2 /\
  match aggregate_matchups two_mirrors with
  | Ok out =>
      match matchup_entry (KStr "Ashe") (KStr "Ashe") out with
      | Some s => Matchup.games_out s = 4 /\ Matchup.wins_out s = 2
      | None => False
      end
  | Err _ => False
  end.
Proof.
  vm_compute. repeat split; reflexivity.
Qed.

(** C2, amended: for every record set, a matchup pair (A,B) of distinct
    entities appears in the output of the Matchup Stats reducer if and only if
    its observed game count is at least 3, and a mirror pair (A,A) appears if
    and only if twice its observed game count is at least 3; and for every pair
    of distinct entities A and B with an entry, the (A,B) and (B,A) entries
    have equal games counts, which are the observed game count of the pair, and
    their wins counts sum to that games count. *)
Theorem matchup_threshold_and_symmetry (matches : list json) (a b : pykey) :
  match aggregate_matchups matches with
  | Err _ => False
  | Ok out =>
      (matchup_entry a b out <> None <-> 3 <= tallied_games a b matches) /\
      (a <> b ->
       forall s1, matchup_entry a b out = Some s1 ->
       exists s2,
         matchup_entry b a out = Some s2 /\
         Matchup.games_out s1 = Matchup.games_out s2 /\
         Matchup.wins_out s1 + Matchup.wins_out s2 = Matchup.games_out s1 /\
         Matchup.games_out s1 = observed_games a b matches)
  end.
Proof.
  destruct (aggregate_matchups_defined matches) as [out Hout]. rewrite Hout.
  rewrite (matchup_entry_cell matches out a b Hout),
    (matchup_entry_cell matches out b a Hout). cbv zeta.
  pose proof (cell_games_tallied matches a b) as Hg.
  pose proof (cell_games_symmetric matches a b) as Hsym.
  pose proof (cell_wins_complementary matches a b) as Hwins.
  split.
  - rewrite <- Hg.
    destruct (3 <=? Matchup.games (cell_at a b (matchup_data matches))) eqn:E.
    + apply Z.leb_le in E. split; [auto | discriminate].
    + apply Z.leb_gt in E. split; [congruence | lia].
  - intros Hne s1 H1.
    rewrite <- Hsym.
    destruct (3 <=? Matchup.games (cell_at a b (matchup_data matches)));
      [| discriminate].
    inversion H1. subst s1. eexists. split; [reflexivity |]. simpl.
    unfold tallied_games in Hg. rewrite (key_eqb_neq a b Hne) in Hg.
    repeat split; lia.
Qed.

Lemma matchup_threshold_and_symmetry_witness :
  (matchup_entry (KStr "Garen") (KStr "Lux") three_duels_output <> None
   <-> 3 <= tallied_games (KStr "Garen") (KStr "Lux") three_duels) /\
  exists s2,
    matchup_entry (KStr "Lux") (KStr "Garen") three_duels_output = Some s2 /\
    Matchup.games_out garen_against_lux = Matchup.games_out s2 /\
    Matchup.wins_out garen_against_lux + Matchup.wins_out s2
    = Matchup.games_out garen_against_lux /\
    Matchup.games_out garen_against_lux
    = observed_games (KStr "Garen") (KStr "Lux") three_duels.
Proof.
  pose proof (matchup_threshold_and_symmetry three_duels (KStr "Garen")
                (KStr "Lux")) as H.
  assert (Hout : aggregate_matchups three_duels = Ok three_duels_output)
    by (vm_compute; reflexivity).
  rewrite Hout in H. destruct H as [Hiff Hsym].
  split; [exact Hiff |].
  apply Hsym; [discriminate | vm_compute; reflexivity].
Defined.

(** ** Sorting the items of a build *)

Lemma string_ltb_asym (s t : string) :
  String.ltb s t = true -> String.ltb t s = false.
Proof.
  unfold String.ltb. rewrite (String.compare_antisym s t).
  destruct (String.compare t s); simpl; congruence.
Qed.


Lemma string_le_trans (s t u : string) :
  String.ltb t s = false -> String.ltb u t = false -> String.ltb u s = false.
Proof.
  intros Hst Htu. destruct (String.ltb u s) eqn:Hus; [| reflexivity].
  exfalso.
  assert (Hlt : String_as_OT.lt u s).
  { apply String_as_OT.cmp_lt. unfold String_as_OT.cmp, String.ltb in *.
    now destruct (String.compare u s). }
  destruct (String.compare t s) eqn:Ets.
  - apply String.compare_eq_iff in Ets. subst t. congruence.
  - unfold String.ltb in Hst. now rewrite Ets in Hst.
  - assert (Hst' : String_as_OT.lt s t).
    { apply String_as_OT.cmp_lt. unfold String_as_OT.cmp.
      rewrite String.compare_antisym, Ets. reflexivity. }
    pose proof (String_as_OT.lt_trans _ _ _ Hlt Hst') as Hut.
    apply String_as_OT.cmp_lt in Hut. unfold String_as_OT.cmp in Hut.
    unfold String.ltb in Htu. now rewrite Hut in Htu.
Qed.


Lemma key_le_trans (a b c : pykey) : key_le a b -> key_le b c -> key_le a c.
Proof.
  destruct a as [| p | s], b as [| q | t], c as [| r | u]; simpl; try tauto.
  - intros (Hpq & Hp & Hq) (Hqr & _ & Hr). repeat split; auto.
    now apply Qle_trans with q.
  - intros H1 H2. now apply string_le_trans with t.
Qed.

Lemma Q_gtb_false (a b : Q) : Q_gtb a b = false <-> (a <= b)%Q.
Proof.
  unfold Q_gtb. rewrite negb_false_iff. apply Qle_bool_iff.
Qed.

Lemma Q_gtb_true (a b : Q) : Q_gtb a b = true -> (b <= a)%Q.
Proof.
  unfold Q_gtb. rewrite negb_true_iff. intros H.
  destruct (Qlt_le_dec b a) as [Hlt | Hle]; [now apply Qlt_le_weak |].
  apply Qle_bool_iff in Hle. congruence.
Qed.

Lemma Qred_Qred (q : Q) : Qred (Qred q) = Qred q.
Proof. apply Qred_complete, Qred_correct. Qed.

Lemma key_of_number (v : json) (q : Q) :
  as_number v = Some q -> to_key v = Ok (KNum (Qred q)).
Proof.
  destruct v as [| b | p | | |]; simpl; try discriminate.
  - intros H. inversion H. now destruct b.
  - intros H. now inversion H.
Qed.

(** Two values [sorted] can compare have keys, and the comparison tells
    the order of the keys. *)
Lemma py_lt_order (y x : json) (c : bool) :
  py_lt y x = Ok c ->
  ((numeric y = true /\ numeric x = true) \/
   (stringy y = true /\ stringy x = true)) /\
  if c then json_le y x else json_le x y.
Proof.
  unfold py_lt, numeric, json_le, key_of.
  destruct (as_number y) as [p |] eqn:Ey.
  - destruct (as_number x) as [q |] eqn:Ex.
    + intros H. inversion H. split; [now left |].
      rewrite (key_of_number _ _ Ey), (key_of_number _ _ Ex). simpl.
      rewrite !Qred_Qred.
      destruct (Q_gtb q p) eqn:E.
      * apply Q_gtb_true in E. repeat split. now rewrite !Qred_correct.
      * apply Q_gtb_false in E. repeat split. now rewrite !Qred_correct.
    + destruct y as [| | | s | |]; try discriminate.
  - destruct y as [| | | s | |]; try discriminate.
    destruct x as [| | | t | |]; try discriminate.
    simpl. intros H. inversion H. split; [now right |].
    destruct (String.ltb s t) eqn:E; simpl;
      [now apply string_ltb_asym | now rewrite ?E].
Qed.


Lemma insert_sorted_perm (x : json) (s s' : list json) :
  insert_sorted x s = Ok s' -> Permutation (x :: s) s'.
Proof.
  revert s'. induction s as [| y s IH]; simpl; intros s' H.
  - inversion H. apply Permutation_refl.
  - bind_inv H. destruct a.
    + bind_inv H. inversion H. subst s'.
      apply perm_trans with (y :: x :: s); [apply perm_swap |].
      apply perm_skip. now apply IH.
    + inversion H. apply Permutation_refl.
Qed.

Lemma insert_sorted_HdRel (x y : json) (s s' : list json) :
  insert_sorted x s = Ok s' ->
  json_le y x -> HdRel json_le y s -> HdRel json_le y s'.
Proof.
  destruct s as [| z s]; simpl; intros H Hyx Hys.
  - inversion H. now constructor.
  - bind_inv H. destruct a.
    + bind_inv H. inversion H. constructor. now inversion Hys.
    + inversion H. now constructor.
Qed.

Lemma insert_sorted_Sorted (x : json) (s s' : list json) :
  insert_sorted x s = Ok s' -> Sorted json_le s -> Sorted json_le s'.
Proof.
  revert s'. induction s as [| y s IH]; simpl; intros s' H Hs.
  - inversion H. repeat constructor.
  - bind_inv H. apply py_lt_order in Ha. destruct Ha as [_ Hord].
    inversion Hs as [| ? ? Hs' Hhd]. subst.
    destruct a.
    + bind_inv H. inversion H. subst s'. constructor.
      * now apply IH.
      * now apply (insert_sorted_HdRel x y s).
    + inversion H. subst s'. constructor; [exact Hs | now constructor].
Qed.


Lemma sort_list_perm (l s : list json) :
  sort_list l = Ok s -> Permutation l s.
Proof.
  revert s. induction l as [| x l IH]; simpl; intros s H.
  - inversion H. constructor.
  - bind_inv H. apply insert_sorted_perm in H.
    apply perm_trans with (x :: a); [| exact H]. apply perm_skip. now apply IH.
Qed.

Lemma sort_list_Sorted (l s : list json) :
  sort_list l = Ok s -> Sorted json_le s.
Proof.
  revert s. induction l as [| x l IH]; simpl; intros s H.
  - inversion H. constructor.
  - bind_inv H. apply (insert_sorted_Sorted x a); [exact H | now apply IH].
Qed.

Lemma uniform_perm (l1 l2 : list json) :
  Permutation l1 l2 -> uniform l1 -> uniform l2.
Proof.
  intros Hp [Hu | Hu]; [left | right]; now apply (Permutation_Forall Hp).
Qed.

Lemma uniform_tail (x : json) (l : list json) : uniform (x :: l) -> uniform l.
Proof.
  intros [Hu | Hu]; [left | right]; now inversion Hu.
Qed.


(** What [sorted] accepts: at most one item, or items of one kind. *)
Lemma sort_list_kind (l s : list json) :
  sort_list l = Ok s -> (List.length l <= 1)%nat \/ uniform l.
Proof.
  revert s. induction l as [| x l IH]; simpl; intros s H; [left; lia |].
  bind_inv H. rename a into s0.
  pose proof (sort_list_perm _ _ Ha) as Hp.
  destruct s0 as [| y s0].
  - apply Permutation_sym, Permutation_nil in Hp. subst l. left. simpl. lia.
  - right. simpl in H. bind_inv H. apply py_lt_order in Ha0.
    destruct Ha0 as [Hkind _].
    assert (Hy : In y l).
    { apply (Permutation_in y (Permutation_sym Hp)). now left. }
    destruct (IH _ Ha) as [Hlen | [Hu | Hu]].
    + destruct l as [| z [| ? ?]]; simpl in Hlen; try lia; [destruct Hy |].
      destruct Hy as [-> | []].
      destruct Hkind as [[Hn Hx] | [Hs Hx]]; [left | right];
        repeat constructor; assumption.
    + left. constructor; [| exact Hu].
      rewrite Forall_forall in Hu. specialize (Hu y Hy).
      destruct Hkind as [[_ Hx] | [Hs _]]; [exact Hx |].
      unfold numeric in Hu. destruct y; simpl in *; discriminate.
    + right. constructor; [| exact Hu].
      rewrite Forall_forall in Hu. specialize (Hu y Hy).
      destruct Hkind as [[Hn _] | [_ Hx]]; [| exact Hx].
      unfold numeric in Hn. destruct y; simpl in *; discriminate.
Qed.

Lemma to_key_key_of (v : json) :
  numeric v = true \/ stringy v = true -> to_key v = Ok (key_of v).
Proof.
  unfold key_of, numeric. intros [H | H].
  - destruct (as_number v) as [q |] eqn:E; [| discriminate].
    now rewrite (key_of_number _ _ E).
  - now destruct v.
Qed.

Lemma tuple_key_uniform (l : list json) :
  uniform l -> tuple_key l = Ok (map key_of l).
Proof.
  induction l as [| v l IH]; simpl; intros Hu; [reflexivity |].
  rewrite to_key_key_of, IH; [reflexivity | now apply uniform_tail with v |].
  destruct Hu as [Hu | Hu]; inversion Hu; auto.
Qed.

Lemma Sorted_key_of (s : list json) :
  Sorted json_le s -> StronglySorted key_le (map key_of s).
Proof.
  intros Hs. apply Sorted_StronglySorted.
  - intros a b c. apply key_le_trans.
  - induction Hs as [| x s Hs IH Hhd]; simpl; constructor; [exact IH |].
    destruct Hhd; simpl; now constructor.
Qed.



(** ** Build counters *)





(** * Further properties of the code *)

(** ** Rankings: [sorted(..., reverse=True)[:n]] *)

Section Ranking.
Context {A : Type} (key : A -> Q).

Lemma insert_desc_perm (x : A) (l : list A) :
  Permutation (x :: l) (insert_desc key x l).
Proof.
  induction l as [| y l IH]; simpl; [apply Permutation_refl |].
  destruct (Q_gtb (key y) (key x)); [| apply Permutation_refl].
  apply perm_trans with (y :: x :: l); [apply perm_swap | now apply perm_skip].
Qed.

Lemma sorted_reverse_perm (l : list A) : Permutation l (sorted_reverse key l).
Proof.
  induction l as [| x l IH]; simpl; [constructor |].
  apply perm_trans with (x :: sorted_reverse key l);
    [now apply perm_skip | apply insert_desc_perm].
Qed.

Lemma insert_desc_sorted (x : A) (l : list A) :
  StronglySorted (fun a b => (key b <= key a)%Q) l ->
  StronglySorted (fun a b => (key b <= key a)%Q) (insert_desc key x l).
Proof.
  induction l as [| y l IH]; simpl; intros Hl; [repeat constructor |].
  inversion Hl as [| ? ? Hl' Hy]. subst.
  destruct (Q_gtb (key y) (key x)) eqn:E.
  - apply Q_gtb_true in E. constructor; [now apply IH |].
    apply (Permutation_Forall (insert_desc_perm x l)). now constructor.
  - apply Q_gtb_false in E. constructor; [exact Hl |].
    constructor; [exact E |].
    apply Forall_forall. intros z Hz. rewrite Forall_forall in Hy.
    apply Qle_trans with (key y); auto.
Qed.

Lemma sorted_reverse_sorted (l : list A) :
  StronglySorted (fun a b => (key b <= key a)%Q) (sorted_reverse key l).
Proof.
  induction l as [| x l IH]; simpl; [constructor | now apply insert_desc_sorted].
Qed.

Lemma insert_desc_filter (k : Q) (x : A) (l : list A) :
  filter (fun y => Qeq_bool (key y) k) (insert_desc key x l)
  = filter (fun y => Qeq_bool (key y) k) (x :: l).
Proof.
  induction l as [| y l IH]; [reflexivity |].
  simpl insert_desc. destruct (Q_gtb (key y) (key x)) eqn:E; [| reflexivity].
  simpl filter in *. rewrite IH.
  destruct (Qeq_bool (key x) k) eqn:Ex; [| reflexivity].
  destruct (Qeq_bool (key y) k) eqn:Ey; [| reflexivity].
  apply Qeq_bool_iff in Ex, Ey. exfalso.
  unfold Q_gtb in E. apply negb_true_iff in E.
  assert (Hle : Qle_bool (key y) (key x) = true).
  { apply Qle_bool_iff. rewrite Ex, Ey. apply Qle_refl. }
  congruence.
Qed.

(** The sort is stable: the elements of one key keep their order. *)
Lemma sorted_reverse_stable (k : Q) (l : list A) :
  filter (fun y => Qeq_bool (key y) k) (sorted_reverse key l)
  = filter (fun y => Qeq_bool (key y) k) l.
Proof.
  induction l as [| x l IH]; [reflexivity |].
  simpl sorted_reverse. rewrite insert_desc_filter. simpl. now rewrite IH.
Qed.

End Ranking.

Lemma In_firstn {A : Type} (n : nat) (l : list A) (x : A) :
  In x (firstn n l) -> In x l.
Proof.
  revert n. induction l as [| y l IH]; intros n; [now rewrite firstn_nil |].
  destruct n; simpl; [tauto |]. intros [-> | H]; [now left | right; eauto].
Qed.

Lemma firstn_sorted {A : Type} (R : A -> A -> Prop) (n : nat) (l : list A) :
  StronglySorted R l -> StronglySorted R (firstn n l).
Proof.
  revert n. induction l as [| x l IH]; intros n Hl; [now rewrite firstn_nil |].
  destruct n; simpl; [constructor |].
  inversion Hl as [| ? ? Hl' Hx]. subst. constructor; [now apply IH |].
  apply Forall_forall. intros y Hy. rewrite Forall_forall in Hx.
  apply Hx. now apply In_firstn with n.
Qed.

Lemma len_firstn {A : Type} (n : nat) (l : list A) :
  len (firstn n l) = Z.min (Z.of_nat n) (len l).
Proof. unfold len. rewrite length_firstn. lia. Qed.

(** ** Rounding *)

Lemma round_half_even_range (q : Q) (n : Z) :
  (0 <= q)%Q -> (q <= inject_Z n)%Q -> 0 <= round_half_even q <= n.
Proof.
  intros H0 Hn. unfold round_half_even.
  assert (Hf0 : 0 <= Qfloor q).
  { change 0 with (Qfloor 0). now apply Qfloor_resp_le. }
  assert (Hfn : Qfloor q <= n).
  { rewrite <- (Qfloor_Z n). now apply Qfloor_resp_le. }
  destruct (Z.eq_dec (Qfloor q) n) as [E | E].
  - assert (Hq : (q - inject_Z (Qfloor q) <= 0)%Q) by (rewrite E; lra).
    destruct (Qcompare (q - inject_Z (Qfloor q)) (1 # 2)) eqn:C.
    + apply Qeq_alt in C. lra.
    + lia.
    + apply Qgt_alt in C. lra.
  - destruct (Qcompare (q - inject_Z (Qfloor q)) (1 # 2));
      try destruct (Z.even (Qfloor q)); lia.
Qed.

(** A percentage stays a percentage when it is rounded to two places. *)
Lemma py_round_percent (q : Q) :
  (0 <= q)%Q -> (q <= 100)%Q -> (0 <= py_round q 2 /\ py_round q 2 <= 100)%Q.
Proof.
  intros H0 H100. unfold py_round. change (pow10 2) with (100 # 1)%Q.
  destruct (round_half_even_range (q * (100 # 1)) 10000) as [Hlo Hhi].
  - lra.
  - change (inject_Z 10000) with (10000 # 1)%Q. lra.
  - unfold Qdiv. change (/ (100 # 1))%Q with (1 # 100)%Q.
    assert (Hlo' : (0 <= inject_Z (round_half_even (q * (100 # 1))))%Q).
    { change 0%Q with (inject_Z 0). now rewrite <- Zle_Qle. }
    assert (Hhi' : (inject_Z (round_half_even (q * (100 # 1))) <= 10000 # 1)%Q).
    { change (10000 # 1)%Q with (inject_Z 10000). now rewrite <- Zle_Qle. }
    split; lra.
Qed.

Lemma ratio_percent (w g : Z) :
  0 <= w <= g -> 0 < g ->
  (0 <= inject_Z w / inject_Z g * 100 /\ inject_Z w / inject_Z g * 100 <= 100)%Q.
Proof.
  intros Hw Hg.
  assert (Hg' : (0 < inject_Z g)%Q).
  { change 0%Q with (inject_Z 0). now rewrite <- Zlt_Qlt. }
  assert (Hw0 : (0 <= inject_Z w)%Q).
  { change 0%Q with (inject_Z 0). rewrite <- Zle_Qle. lia. }
  assert (Hwg : (inject_Z w <= inject_Z g)%Q) by (rewrite <- Zle_Qle; lia).
  assert (H1 : (0 <= inject_Z w / inject_Z g)%Q).
  { apply Qle_shift_div_l; [exact Hg' | lra]. }
  assert (H2 : (inject_Z w / inject_Z g <= 1)%Q).
  { apply Qle_shift_div_r; [exact Hg' | lra]. }
  split; lra.
Qed.

(** ** More on the Entity Stats reducer *)

(** What every step of a participant keeps is kept by [champion_data]. *)
Lemma champion_data_invariant (P : pykey -> Champion.data -> Prop)
  (matches : list json) :
  (forall kv c s,
     is_str "Unknown" (get kv "champion" (JStr "Unknown")) = false ->
     to_key (get kv "champion" (JStr "Unknown")) = Ok c ->
     s = Champion.fresh \/ P c s ->
     P c (state_of (update_stats kv s))) ->
  Forall (fun e => P (fst e) (snd e)) (champion_data matches).
Proof.
  intros Hstep. unfold champion_data.
  apply for_each_try_state; [| constructor].
  intros d m _ Hd. unfold champion_match.
  destruct (subscript_if_in "participants" m) as [| e | ps]; try exact Hd.
  destruct (py_iter ps) as [l | e]; [| exact Hd].
  apply for_each_state; [| exact Hd].
  clear d Hd. intros d p _ Hd. unfold champion_participant.
  destruct p as [| | | | | kv]; try exact Hd.
  destruct (is_str "Unknown" (get kv "champion" (JStr "Unknown"))) eqn:Eu;
    [exact Hd |].
  destruct (to_key (get kv "champion" (JStr "Unknown"))) as [c | e] eqn:Ec;
    [| exact Hd].
  rewrite state_of_omap.
  apply (Forall_od_set key_eqb key_eqb_eq); [exact Hd |]. simpl.
  apply Hstep; auto.
  destruct (od_get_cases Champion.fresh c d) as [E | Hin]; [now left | right].
  rewrite Forall_forall in Hd. apply (Hd _ Hin).
Qed.

(** An entry of the output comes from an entry of [champion_data]. *)
Lemma output_key (matches : list json) (out : key_dict Champion.stats)
  (c : pykey) (s : Champion.stats) :
  aggregate_champion_stats matches = Ok out -> In (c, s) out ->
  exists data, In (c, data) (champion_data matches).
Proof.
  intros H Hin.
  destruct (aggregate_champion_stats_shape _ _ H) as (agg & Hagg & Hcase).
  assert (Hfrom : exists s0, In (c, s0) agg).
  { destruct Hcase as [[_ ->] | [_ ->]]; [destruct Hin |].
    apply in_map_iff in Hin. destruct Hin as ([c0 s0] & E & Hin0).
    unfold with_pick_rate in E; simpl in E. inversion E; subst. now exists s0. }
  destruct Hfrom as (s0 & Hin0).
  destruct (aggregated_entry_ok _ _ _ _ Hagg Hin0) as (data & Hd & _).
  now exists data.
Qed.

Lemma to_key_not_Unknown (v : json) (c : pykey) :
  is_str "Unknown" v = false -> to_key v = Ok c -> c <> KStr "Unknown".
Proof.
  destruct v as [| b | q | s | |]; simpl; intros Hu Hk; inversion Hk;
    try discriminate.
  intros E. inversion E. subst s. discriminate.
Qed.

(** X1: the placeholder 'Unknown', which also stands for a participant
    without a champion, is never an entity of the output of the Entity
    Stats reducer. *)
Theorem unknown_champion_never_listed (matches : list json)
  (out : key_dict Champion.stats) :
  aggregate_champion_stats matches = Ok out ->
  ~ In (KStr "Unknown") (map fst out).
Proof.
  intros H Hin. apply in_map_iff in Hin. destruct Hin as ([c s] & E & Hin).
  simpl in E. subst c.
  destruct (output_key _ _ _ _ H Hin) as (data & Hd).
  pose proof (champion_data_invariant (fun c _ => c <> KStr "Unknown") matches)
    as Hinv.
  rewrite Forall_forall in Hinv.
  apply (Hinv (fun kv c s Hu Hk _ => to_key_not_Unknown _ c Hu Hk) _ Hd).
  reflexivity.
Qed.

Lemma unknown_champion_never_listed_witness :
  ~ In (KStr "Unknown") (map fst with_placeholder_output).
Proof.
  apply (unknown_champion_never_listed with_placeholder).
  vm_compute. reflexivity.
Defined.

(** A statement that leaves the role counters of an entry alone. *)
Lemma seq_state {S : Type} (f g : S -> outcome S) (s : S) :
  state_of ((f >>> g) s)
  = match f s with
    | Normal s' => state_of (g s')
    | Raise _ s' => s'
    end.
Proof. unfold seq. now destruct (f s). Qed.

Lemma seq_keeps_positions (f g : Champion.data -> outcome Champion.data) :
  (forall s, Champion.positions (state_of (f s)) = Champion.positions s) ->
  (forall s, Champion.positions (state_of (g s)) = Champion.positions s) ->
  forall s, Champion.positions (state_of ((f >>> g) s)) = Champion.positions s.
Proof.
  intros Hf Hg s. rewrite seq_state. specialize (Hf s).
  destruct (f s) as [s' | e s']; simpl in Hf; [| exact Hf].
  now rewrite Hg.
Qed.

Lemma add_total_keeps_positions (f : Champion.total) (v : json)
  (s : Champion.data) :
  Champion.positions (state_of (add_total f v s)) = Champion.positions s.
Proof. unfold add_total. now destruct (as_number v). Qed.

(** The role counters after a participant: untouched when its role is
    empty or cannot be hashed, or when an earlier statement raised, and
    with one more for its role otherwise. *)
Lemma update_stats_positions (kv : list (string * json)) (s : Champion.data) :
  Champion.positions (state_of (update_stats kv s)) = Champion.positions s \/
  (truthy (position_of kv) = true /\
   exists k, to_key (position_of kv) = Ok k /\
             Champion.positions (state_of (update_stats kv s))
             = incr key_eqb k (Champion.positions s)).
Proof.
  unfold update_stats. rewrite seq_state.
  match goal with
  | |- context [match ?p s with _ => _ end] => set (prefix := p)
  end.
  assert (Hp : forall s, Champion.positions (state_of (prefix s))
                         = Champion.positions s).
  { subst prefix.
    repeat (apply seq_keeps_positions;
            [| first [ apply add_total_keeps_positions
                     | intros; reflexivity ]]).
    intros; reflexivity. }
  specialize (Hp s).
  destruct (prefix s) as [s' | e s']; simpl in Hp; [| now left].
  unfold track_position.
  destruct (truthy (position_of kv)) eqn:Et; [| left; exact Hp].
  destruct (to_key (position_of kv)) as [k | e]; [| left; exact Hp].
  right. split; [reflexivity |]. exists k. split; [reflexivity |].
  simpl. now rewrite Hp.
Qed.

Lemma sum_values_cons {K : Type} (e : K * Z) (l : list (K * Z)) :
  sum_values (e :: l) = snd e + sum_values l.
Proof.
  unfold sum_values. simpl. now rewrite (fold_left_plus snd).
Qed.

Lemma sum_values_od_set {K : Type} (eqb : K -> K -> bool) (k : K) (v : Z)
  (l : list (K * Z)) :
  sum_values (od_set eqb k v l) = sum_values l - od_get eqb 0 k l + v.
Proof.
  unfold od_get. induction l as [| [k' v'] l IH]; simpl.
  - unfold sum_values. simpl. lia.
  - destruct (eqb k k'); rewrite !sum_values_cons; simpl; lia.
Qed.

Lemma sum_values_incr {K : Type} (eqb : K -> K -> bool) (k : K)
  (l : list (K * Z)) :
  sum_values (incr eqb k l) = sum_values l + 1.
Proof. unfold incr. rewrite sum_values_od_set. lia. Qed.

Lemma incr_positive (k : pykey) (l : list (pykey * Z)) :
  Forall (fun e => 1 <= snd e) l ->
  Forall (fun e => 1 <= snd e) (incr key_eqb k l).
Proof.
  intros Hl. unfold incr. apply (Forall_od_set key_eqb key_eqb_eq); [exact Hl |].
  simpl. destruct (od_get_cases 0 k l) as [-> | Hin]; [lia |].
  rewrite Forall_forall in Hl. specialize (Hl _ Hin). simpl in Hl. lia.
Qed.

Lemma champion_data_positions_ok (matches : list json) :
  Forall (fun e => positions_ok (snd e)) (champion_data matches).
Proof.
  apply (champion_data_invariant (fun _ data => positions_ok data)).
  intros kv c s _ _ Hs.
  assert (Hs' : positions_ok s /\ 0 <= Champion.games s \/ s = Champion.fresh).
  { destruct Hs as [-> | Hs]; [now right |]. left. split; [exact Hs |].
    destruct Hs as [Hpos Hsum]. clear - Hpos Hsum.
    assert (0 <= sum_values (Champion.positions s)); [| lia].
    induction Hpos as [| e l He Hl IH]; [unfold sum_values; simpl; lia |].
    rewrite sum_values_cons in *. lia. }
  assert (Hold : Forall (fun e => 1 <= snd e) (Champion.positions s) /\
                 sum_values (Champion.positions s) <= Champion.games s).
  { destruct Hs' as [[Hs' _] | ->]; [exact Hs' |].
    split; [constructor | unfold sum_values; simpl; lia]. }
  destruct Hold as [Hpos Hsum].
  destruct (update_stats_counts kv s) as [Hg _].
  unfold positions_ok. rewrite Hg.
  destruct (update_stats_positions kv s) as [-> | (_ & k & _ & ->)].
  - split; [exact Hpos | lia].
  - split; [now apply incr_positive | rewrite sum_values_incr; lia].
Qed.

Lemma first_max_split {K : Type} (l pre mid : list (K * Z)) (best : K * Z) :
  (forall e, In e pre -> snd e < snd best) ->
  (forall e, In e mid -> snd e <= snd best) ->
  exists pre' n post',
    pre ++ best :: mid ++ l = pre' ++ (first_max best l, n) :: post' /\
    (forall e, In e pre' -> snd e < n) /\
    (forall e, In e post' -> snd e <= n).
Proof.
  revert pre mid best. induction l as [| [k c] l IH]; intros pre mid best Hpre Hmid.
  - exists pre, (snd best), mid. rewrite app_nil_r. simpl.
    destruct best. auto.
  - simpl. destruct (snd best <? c) eqn:E.
    + apply Z.ltb_lt in E.
      destruct (IH (pre ++ best :: mid) [] (k, c)) as (pre' & n & post' & Heq & H1 & H2).
      * intros e He. simpl. apply in_app_or in He.
        destruct He as [He | [<- | He]]; [specialize (Hpre _ He) | |
                                           specialize (Hmid _ He)]; lia.
      * intros e [].
      * exists pre', n, post'. split; [| now split].
        rewrite <- Heq. simpl. now rewrite <- app_assoc.
    + apply Z.ltb_ge in E.
      destruct (IH pre (mid ++ [(k, c)]) best) as (pre' & n & post' & Heq & H1 & H2).
      * exact Hpre.
      * intros e He. apply in_app_or in He.
        destruct He as [He | [<- | []]]; [now apply Hmid | simpl; lia].
      * exists pre', n, post'. split; [| now split].
        rewrite <- Heq. now rewrite <- app_assoc.
Qed.

(** The role and the flexibility an entry is given. *)
Lemma champion_entry_roles (data : Champion.data) (s : Champion.stats) :
  champion_entry data = Ok s ->
  Champion.primary_position s
  = match Champion.positions data with
    | [] => KStr "UNKNOWN"
    | p :: l => first_max p l
    end /\
  flexibility (Champion.games data) (Champion.positions data)
  = Ok (Champion.position_flexibility s).
Proof.
  unfold champion_entry. intros H.
  repeat (apply rbind_Ok in H; destruct H as (? & ? & H)).
  inversion H; subst s; clear H. simpl. now split.
Qed.

(** X2: the primary role of an entity is 'UNKNOWN' when no role of it was
    tracked; otherwise it is a tracked role with the greatest count, and the
    first such role in the order the roles were first seen. *)
Theorem primary_position_is_first_most_played (matches : list json)
  (out : key_dict Champion.stats) (c : pykey) (s : Champion.stats) :
  aggregate_champion_stats matches = Ok out -> In (c, s) out ->
  match Champion.positions
          (od_get key_eqb Champion.fresh c (champion_data matches)) with
  | [] => Champion.primary_position s = KStr "UNKNOWN"
  | p :: l =>
      exists before n after,
        p :: l = before ++ (Champion.primary_position s, n) :: after /\
        (forall e, In e before -> snd e < n) /\
        (forall e, In e after -> snd e <= n)
  end.
Proof.
  intros H Hin.
  destruct (output_entry _ _ _ _ H Hin) as (s0 & _ & He & r & ->).
  apply champion_entry_roles in He. destruct He as [Hp _].
  simpl in *. rewrite Hp.
  destruct (Champion.positions
              (od_get key_eqb Champion.fresh c (champion_data matches)))
    as [| p l]; [reflexivity |].
  destruct (first_max_split l [] [] p) as (pre & n & post & Heq & H1 & H2);
    try (intros e []).
  exists pre, n, post. simpl in Heq. auto.
Qed.

Lemma primary_position_is_first_most_played_witness :
  exists before n after,
    [(KStr "BOTTOM", 1); (KStr "MIDDLE", 2)]
    = before ++ (Champion.primary_position kaisa_entry, n) :: after /\
    (forall e, In e before -> snd e < n) /\
    (forall e, In e after -> snd e <= n).
Proof.
  apply (primary_position_is_first_most_played kaisa_games kaisa_output
           (KStr "Kaisa") kaisa_entry).
  - vm_compute. reflexivity.
  - left. reflexivity.
Defined.

Lemma Q_gtb_tenth (count games : Z) :
  0 < games ->
  Q_gtb (inject_Z count / inject_Z games) (1 # 10) = true ->
  games + 1 <= 10 * count.
Proof.
  intros Hg H. unfold Q_gtb in H. apply negb_true_iff in H.
  destruct (Z_lt_le_dec games (10 * count)) as [Hlt | Hle]; [lia |].
  exfalso. assert (Hq : Qle_bool (inject_Z count / inject_Z games) (1 # 10) = true);
    [| congruence].
  apply Qle_bool_iff. apply Qle_shift_div_r.
  - change 0%Q with (inject_Z 0). now rewrite <- Zlt_Qlt.
  - assert (Hc : (inject_Z (10 * count) <= inject_Z games)%Q)
      by now rewrite <- Zle_Qle.
    rewrite inject_Z_mult in Hc. change (inject_Z 10) with (10 # 1)%Q in Hc. lra.
Qed.

Lemma flexibility_bound (games : Z) (l : list (pykey * Z)) (n : Z) :
  0 < games -> Forall (fun e => 1 <= snd e) l ->
  flexibility games l = Ok n ->
  0 <= n <= len l /\ n * (games + 1) <= 10 * sum_values l.
Proof.
  intros Hg. revert n. induction l as [| [k c] l IH]; intros n Hl H.
  - inversion H. unfold len, sum_values. simpl. lia.
  - inversion Hl as [| ? ? Hc Hl']. subst. simpl in Hc.
    cbn [flexibility] in H.
    rewrite py_div_defined in H by (apply inject_Z_nonzero; lia).
    cbn [rbind] in H. apply rbind_Ok in H. destruct H as (m & Hm & H).
    destruct (IH m Hl' Hm) as [Hlen Hsum].
    rewrite sum_values_cons. cbn [snd].
    assert (El : len ((k, c) :: l) = len l + 1)
      by (unfold len; cbn [List.length]; lia).
    rewrite El.
    assert (Ex : (m + 1) * (games + 1) = m * (games + 1) + (games + 1)) by ring.
    destruct (Q_gtb (inject_Z c / inject_Z games) (1 # 10)) eqn:E;
      inversion H; subst n.
    + apply Q_gtb_tenth in E; [| exact Hg]. split; lia.
    + split; lia.
Qed.

(** X3: the flexibility of an entity counts roles played in more than a
    tenth of its games, so it is never above 9, nor above the number of roles
    the entity was seen in. *)
Theorem position_flexibility_at_most_nine (matches : list json)
  (out : key_dict Champion.stats) (c : pykey) (s : Champion.stats) :
  aggregate_champion_stats matches = Ok out -> In (c, s) out ->
  0 <= Champion.position_flexibility s <= 9 /\
  Champion.position_flexibility s
  <= len (Champion.positions
            (od_get key_eqb Champion.fresh c (champion_data matches))).
Proof.
  intros H Hin.
  destruct (output_entry _ _ _ _ H Hin) as (s0 & Hok & He & r & ->).
  apply champion_entry_roles in He. destruct He as [_ Hf].
  destruct Hok as (Hg1 & _ & _).
  cbn [fst snd Champion.set_pick_rate Champion.position_flexibility] in *.
  pose proof (champion_data_positions_ok matches) as Hall.
  set (data := od_get key_eqb Champion.fresh c (champion_data matches)) in *.
  assert (Hpos : positions_ok data).
  { subst data. destruct (od_get_cases Champion.fresh c (champion_data matches))
      as [-> | Hd].
    - split; [constructor | unfold sum_values; simpl; lia].
    - rewrite Forall_forall in Hall. apply (Hall _ Hd). }
  destruct Hpos as [Hp Hs].
  assert (Hg0 : 0 < Champion.games data) by lia.
  destruct (flexibility_bound _ _ _ Hg0 Hp Hf) as [Hlen Hsum].
  set (n := Champion.position_flexibility s0) in *.
  set (g := Champion.games data) in *.
  split; [| lia]. split; [lia |].
  destruct (Z_le_gt_dec n 9) as [Hn | Hn]; [exact Hn |].
  assert (10 * (g + 1) <= n * (g + 1))
    by (apply Z.mul_le_mono_nonneg_r; lia).
  lia.
Qed.

Lemma position_flexibility_at_most_nine_witness :
  0 <= Champion.position_flexibility kaisa_entry <= 9 /\
  Champion.position_flexibility kaisa_entry
  <= len (Champion.positions
            (od_get key_eqb Champion.fresh (KStr "Kaisa")
               (champion_data kaisa_games))).
Proof.
  apply (position_flexibility_at_most_nine kaisa_games kaisa_output).
  - vm_compute. reflexivity.
  - left. reflexivity.
Defined.

(** X4: a participant whose role label is missing or empty is counted for
    its entity, with one more game, and no role is tracked for it. *)
Theorem empty_role_counted_untracked (d : key_dict Champion.data)
  (kv : list (string * json)) (c : pykey) :
  is_str "Unknown" (get kv "champion" (JStr "Unknown")) = false ->
  to_key (get kv "champion" (JStr "Unknown")) = Ok c ->
  truthy (position_of kv) = false ->
  let before := od_get key_eqb Champion.fresh c d in
  let after :=
    od_get key_eqb Champion.fresh c (state_of (champion_participant d (JDict kv))) in
  Champion.games after = Champion.games before + 1 /\
  Champion.positions after = Champion.positions before.
Proof.
  intros Hu Hk Ht. unfold champion_participant. rewrite Hu, Hk.
  rewrite state_of_omap. cbv zeta.
  rewrite (od_get_set_same key_eqb key_eqb_eq).
  split; [apply update_stats_counts |].
  destruct (update_stats_positions kv (od_get key_eqb Champion.fresh c d))
    as [E | (Ht' & _)]; [exact E | congruence].
Qed.

Lemma empty_role_counted_untracked_witness :
  Champion.games
    (od_get key_eqb Champion.fresh (KStr "Kaisa")
       (state_of (champion_participant [] (kaisa "")))) = 0 + 1 /\
  Champion.positions
    (od_get key_eqb Champion.fresh (KStr "Kaisa")
       (state_of (champion_participant [] (kaisa "")))) = [].
Proof.
  apply (empty_role_counted_untracked []
           [("champion", JStr "Kaisa"); ("position", JStr "")]%string
           (KStr "Kaisa")); reflexivity.
Defined.











Lemma total_picks_bounds (l : key_dict Champion.stats) (e : pykey * Champion.stats) :
  (forall x, In x l -> 0 <= Champion.games_played (snd x)) ->
  In e l -> Champion.games_played (snd e) <= total_picks l.
Proof.
  induction l as [| x l IH]; intros Hall Hin; [destruct Hin |].
  rewrite total_picks_cons.
  assert (Hx : 0 <= Champion.games_played (snd x)) by (apply Hall; now left).
  assert (Hl : 0 <= total_picks l).
  { clear - Hall. induction l as [| y l IH]; [unfold total_picks; simpl; lia |].
    rewrite total_picks_cons.
    assert (0 <= Champion.games_played (snd y)) by (apply Hall; right; now left).
    assert (0 <= total_picks l); [| lia].
    apply IH. intros z [Hz | Hz]; apply Hall; [now left | right; now right]. }
  destruct Hin as [-> | Hin]; [lia |].
  assert (Champion.games_played (snd e) <= total_picks l); [| lia].
  apply IH; [| exact Hin]. intros z Hz. apply Hall. now right.
Qed.

(** X6: every win rate and every pick rate in the output of the Entity Stats
    reducer is a percentage, between 0 and 100. *)
Theorem entity_rates_are_percentages (matches : list json)
  (out : key_dict Champion.stats) (c : pykey) (s : Champion.stats) :
  aggregate_champion_stats matches = Ok out -> In (c, s) out ->
  (0 <= Champion.win_rate s /\ Champion.win_rate s <= 100)%Q /\
  (0 <= Champion.pick_rate s /\ Champion.pick_rate s <= 100)%Q.
Proof.
  intros H Hin.
  destruct (aggregate_champion_stats_shape _ _ H) as (agg & Hagg & Hcase).
  destruct Hcase as [[_ ->] | [Hpos ->]]; [destruct Hin |].
  apply in_map_iff in Hin. destruct Hin as ([c0 s0] & E & Hin0).
  unfold with_pick_rate in E. cbn [fst snd] in E. inversion E. subst c0. clear E.
  assert (Hgames : forall x, In x agg -> 1 <= Champion.games_played (snd x) /\
                     0 <= Champion.wins_out (snd x) <= Champion.games_played (snd x) /\
                     Champion.win_rate (snd x)
                     = py_round (inject_Z (Champion.wins_out (snd x))
                                 / inject_Z (Champion.games_played (snd x)) * 100) 2).
  { intros [c1 s1] Hx.
    destruct (aggregated_entry_ok _ _ _ _ Hagg Hx) as (data & _ & Hok & He).
    apply champion_entry_fields in He. destruct He as (Hg & Hw & Hr & _).
    destruct Hok as (Hg1 & Hwg & _). cbn [fst snd] in *.
    rewrite Hg, Hw, Hr. repeat split; lia. }
  destruct (Hgames _ Hin0) as (Hg1 & Hw & Hr). cbn [snd] in *.
  cbn [Champion.set_pick_rate Champion.win_rate Champion.pick_rate].
  split.
  - rewrite Hr. apply py_round_percent; apply ratio_percent; lia.
  - assert (Hle : Champion.games_played s0 <= total_picks agg).
    { apply (total_picks_bounds agg (c, s0)); [| exact Hin0].
      intros x Hx. destruct (Hgames x Hx). lia. }
    apply py_round_percent; apply ratio_percent; lia.
Qed.

Lemma entity_rates_are_percentages_witness :
  (0 <= Champion.win_rate kaisa_entry /\ Champion.win_rate kaisa_entry <= 100)%Q /\
  (0 <= Champion.pick_rate kaisa_entry /\ Champion.pick_rate kaisa_entry <= 100)%Q.
Proof.
  apply (entity_rates_are_percentages kaisa_games kaisa_output (KStr "Kaisa")).
  - vm_compute. reflexivity.
  - left. reflexivity.
Defined.

(** ** Records without a participant list *)

Lemma for_each_try_skip {S : Type} (body : S -> json -> outcome S)
  (l1 l2 : list json) (m : json) (s : S) :
  (forall s, state_of (body s m) = s) ->
  for_each_try body (l1 ++ m :: l2) s = for_each_try body (l1 ++ l2) s.
Proof.
  intros Hm. unfold for_each_try. rewrite !fold_left_app. simpl.
  now rewrite Hm.
Qed.

(** X7: a record without a 'participants' entry, or one that is no dict at
    all, leaves the outputs of the four reducers over the participants
    unchanged, wherever it stands in the sequence; likewise a record without
    'team_stats' for the Objective Correlation reducer. *)
Theorem records_without_participants_ignored (before after : list json)
  (m : json) :
  ((forall v, subscript_if_in "participants" m <> Present v) ->
   aggregate_champion_stats (before ++ m :: after)
   = aggregate_champion_stats (before ++ after) /\
   aggregate_role_meta (before ++ m :: after)
   = aggregate_role_meta (before ++ after) /\
   aggregate_item_builds (before ++ m :: after)
   = aggregate_item_builds (before ++ after) /\
   aggregate_matchups (before ++ m :: after)
   = aggregate_matchups (before ++ after)) /\
  ((forall v, subscript_if_in "team_stats" m <> Present v) ->
   aggregate_objective_correlations (before ++ m :: after)
   = aggregate_objective_correlations (before ++ after)).
Proof.
  split.
  - intros Hm.
    unfold aggregate_champion_stats, aggregate_role_meta, aggregate_item_builds,
      aggregate_matchups, champion_data, role_data, champion_items, matchup_data.
    rewrite !(for_each_try_skip _ before after m); [auto | | | |];
      intros s;
      unfold matchup_match, build_match, role_match, champion_match;
      destruct (subscript_if_in "participants" m) as [| e | v] eqn:E;
      try reflexivity; now destruct (Hm v).
  - intros Hm. unfold aggregate_objective_correlations.
    rewrite (for_each_try_skip _ before after m); [reflexivity |].
    intros s. unfold objective_match.
    destruct (subscript_if_in "team_stats" m) as [| e | v] eqn:E;
      try reflexivity. now destruct (Hm v).
Qed.

Lemma records_without_participants_ignored_witness :
  aggregate_champion_stats (kaisa_games ++ JNull :: three_picks)
  = aggregate_champion_stats (kaisa_games ++ three_picks) /\
  aggregate_role_meta (kaisa_games ++ JNull :: three_picks)
  = aggregate_role_meta (kaisa_games ++ three_picks) /\
  aggregate_item_builds (kaisa_games ++ JNull :: three_picks)
  = aggregate_item_builds (kaisa_games ++ three_picks) /\
  aggregate_matchups (kaisa_games ++ JNull :: three_picks)
  = aggregate_matchups (kaisa_games ++ three_picks).
Proof.
  apply (proj1 (records_without_participants_ignored kaisa_games three_picks JNull)).
  intros v. discriminate.
Defined.

(** ** The Role Stats reducer *)

Lemma seq_peel {S X : Type} (proj : S -> X) (f g : S -> outcome S) (s : S) :
  (forall s, proj (state_of (g s)) = proj s) ->
  proj (state_of ((f >>> g) s)) = proj (state_of (f s)).
Proof.
  intros Hg. rewrite seq_state. destruct (f s) as [s' | e s']; [apply Hg | reflexivity].
Qed.

Lemma role_add_total_games (f : Role.total) (v : json) (s : Role.data) :
  Role.games (state_of (role_add_total f v s)) = Role.games s /\
  Role.wins (state_of (role_add_total f v s)) = Role.wins s /\
  Role.champions (state_of (role_add_total f v s)) = Role.champions s.
Proof. unfold role_add_total. now destruct (as_number v). Qed.

Lemma count_champion_counts (kv : list (string * json)) (s : Role.data) :
  Role.games (state_of (count_champion kv s)) = Role.games s /\
  Role.wins (state_of (count_champion kv s)) = Role.wins s.
Proof.
  unfold count_champion.
  destruct (is_str "Unknown" (get kv "champion" (JStr "Unknown"))); [now split |].
  now destruct (to_key (get kv "champion" (JStr "Unknown"))).
Qed.

Ltac role_peel proj :=
  repeat (rewrite (seq_peel proj);
          [| first [ intros; apply role_add_total_games
                   | intros; apply count_champion_counts
                   | intros; reflexivity ]]).

(** A participant adds one game and at most one win to its role. *)
Lemma update_role_counts (kv : list (string * json)) (s : Role.data) :
  Role.games (state_of (update_role kv s)) = Role.games s + 1 /\
  Role.wins s <= Role.wins (state_of (update_role kv s)) <= Role.wins s + 1.
Proof.
  unfold update_role. split.
  - role_peel Role.games. reflexivity.
  - role_peel Role.wins. rewrite seq_state. simpl.
    destruct (truthy (get kv "win" (JBool false))); lia.
Qed.

Lemma update_role_champions (kv : list (string * json)) (s : Role.data) :
  Role.champions (state_of (update_role kv s)) = Role.champions s \/
  exists c, Role.champions (state_of (update_role kv s))
            = incr key_eqb c (Role.champions s).
Proof.
  unfold update_role. rewrite seq_state.
  match goal with
  | |- context [match ?p s with _ => _ end] => set (prefix := p)
  end.
  assert (Hp : Role.champions (state_of (prefix s)) = Role.champions s).
  { subst prefix. role_peel Role.champions. reflexivity. }
  destruct (prefix s) as [s' | e s']; simpl in Hp; [| now left].
  unfold count_champion.
  destruct (is_str "Unknown" (get kv "champion" (JStr "Unknown")));
    [left; exact Hp |].
  destruct (to_key (get kv "champion" (JStr "Unknown"))) as [c | e];
    [| left; exact Hp].
  right. exists c. simpl. now rewrite Hp.
Qed.

Lemma role_data_invariant (P : pykey -> Role.data -> Prop)
  (matches : list json) :
  (forall kv r s,
     truthy (position_of kv) = true ->
     is_str "Invalid" (position_of kv) = false ->
     to_key (position_of kv) = Ok r ->
     s = Role.fresh \/ P r s ->
     P r (state_of (update_role kv s))) ->
  Forall (fun e => P (fst e) (snd e)) (role_data matches).
Proof.
  intros Hstep. unfold role_data.
  apply for_each_try_state; [| constructor].
  intros d m _ Hd. unfold role_match.
  destruct (subscript_if_in "participants" m) as [| e | ps]; try exact Hd.
  destruct (py_iter ps) as [l | e]; [| exact Hd].
  apply for_each_state; [| exact Hd].
  clear d Hd. intros d p _ Hd. unfold role_participant.
  destruct p as [| | | | | kv]; try exact Hd.
  destruct (truthy (position_of kv)) eqn:Et; [| exact Hd].
  destruct (is_str "Invalid" (position_of kv)) eqn:Ei; [exact Hd |].
  cbn [negb orb].
  destruct (to_key (position_of kv)) as [r | e] eqn:Er; [| exact Hd].
  rewrite state_of_omap.
  apply (Forall_od_set key_eqb key_eqb_eq); [exact Hd |]. simpl.
  apply Hstep; auto.
  destruct (od_get_cases Role.fresh r d) as [E | Hin]; [now left | right].
  rewrite Forall_forall in Hd. apply (Hd _ Hin).
Qed.

Lemma sum_values_nonneg {K : Type} (l : list (K * Z)) :
  Forall (fun e => 1 <= snd e) l -> 0 <= sum_values l.
Proof.
  induction 1 as [| e l He Hl IH]; [unfold sum_values; simpl; lia |].
  rewrite sum_values_cons. lia.
Qed.

Lemma sum_values_bounds {K : Type} (l : list (K * Z)) (e : K * Z) :
  Forall (fun e => 1 <= snd e) l -> In e l -> 1 <= snd e <= sum_values l.
Proof.
  induction 1 as [| x l Hx Hl IH]; intros Hin; [destruct Hin |].
  rewrite sum_values_cons. pose proof (sum_values_nonneg l Hl).
  destruct Hin as [-> | Hin]; [lia |]. specialize (IH Hin). lia.
Qed.

Lemma role_data_ok (matches : list json) :
  Forall (fun e => role_ok (snd e)) (role_data matches).
Proof.
  apply (role_data_invariant (fun _ data => role_ok data)).
  intros kv r s _ _ _ Hs.
  assert (Hold : 0 <= Role.games s /\ 0 <= Role.wins s <= Role.games s /\
                 Forall (fun e => 1 <= snd e) (Role.champions s) /\
                 sum_values (Role.champions s) <= Role.games s).
  { destruct Hs as [-> | (Hg & Hw & Hc & Hsum)].
    - split; [cbn; lia |]. split; [cbn; lia |].
      split; [constructor | unfold sum_values; cbn; lia].
    - split; [lia |]. auto. }
  destruct Hold as (Hg & Hw & Hc & Hsum).
  destruct (update_role_counts kv s) as [Eg Ew].
  unfold role_ok. rewrite Eg.
  destruct (update_role_champions kv s) as [-> | [c ->]].
  - split; [lia |]. split; [lia |]. split; [exact Hc | lia].
  - split; [lia |]. split; [lia |]. split; [now apply incr_positive |].
    rewrite sum_values_incr. lia.
Qed.

Lemma role_entries_In (items : key_dict Role.data) (out0 out : key_dict Role.stats)
  (r : pykey) (s : Role.stats) :
  role_entries items out0 = Ok out -> In (r, s) out ->
  In (r, s) out0 \/
  exists data, In (r, data) items /\ Role.games data <> 0 /\
               role_entry data = Ok s.
Proof.
  revert out0. induction items as [| [r' data] items IH]; simpl; intros out0 H Hin.
  - inversion H. subst. now left.
  - destruct (Role.games data =? 0) eqn:Eg.
    + destruct (IH _ H Hin) as [? | (data' & ? & ?)]; [now left |].
      right. exists data'. auto.
    + apply rbind_Ok in H. destruct H as (e & He & H).
      destruct (IH _ H Hin) as [Hin' | (data' & ? & ?)].
      * apply (In_od_set key_eqb key_eqb_eq) in Hin'.
        destruct Hin' as [[-> ->] | ?]; [| now left].
        right. exists data. apply Z.eqb_neq in Eg. auto.
      * right. exists data'. auto.
Qed.

Lemma top_champion_rows_map (games : Z) (top : list (pykey * Z))
  (rows : list Role.top_champion) :
  top_champion_rows games top = Ok rows ->
  rows = map (top_champion_row games) top.
Proof.
  revert rows. induction top as [| [c n] top IH]; simpl; intros rows H.
  - now inversion H.
  - apply rbind_Ok in H. destruct H as (q & Hq & H). apply py_div_Ok in Hq.
    apply rbind_Ok in H. destruct H as (rest & Hrest & H).
    inversion H. subst. f_equal. now apply IH.
Qed.

Lemma role_entry_fields (data : Role.data) (s : Role.stats) :
  role_entry data = Ok s ->
  Role.games_played s = Role.games data /\
  Role.win_rate s
  = py_round (inject_Z (Role.wins data) / inject_Z (Role.games data) * 100) 2 /\
  Role.top_champions s
  = map (top_champion_row (Role.games data))
        (firstn 10 (sorted_reverse (fun x => inject_Z (snd x))
                      (Role.champions data))).
Proof.
  unfold role_entry. intros H.
  apply rbind_Ok in H. destruct H as (wr & Hwr & H). apply py_div_Ok in Hwr.
  repeat (apply rbind_Ok in H; destruct H as (? & ? & H)).
  inversion H; subst s; clear H. simpl.
  split; [reflexivity |]. split; [now subst wr |].
  now apply top_champion_rows_map.
Qed.

(** An entry of the output and the data it was built from. *)
Lemma role_output_entry (matches : list json) (out : key_dict Role.stats)
  (r : pykey) (s : Role.stats) :
  aggregate_role_meta matches = Ok out -> In (r, s) out ->
  exists data, In (r, data) (role_data matches) /\ role_ok data /\
               role_entry data = Ok s.
Proof.
  unfold aggregate_role_meta. intros H Hin.
  destruct (role_entries_In _ _ _ _ _ H Hin) as [[] | (data & Hd & _ & He)].
  exists data. split; [exact Hd |]. split; [| exact He].
  pose proof (role_data_ok matches) as Hok. rewrite Forall_forall in Hok.
  apply (Hok _ Hd).
Qed.

Lemma role_key_valid (v : json) (r : pykey) :
  truthy v = true -> is_str "Invalid" v = false -> to_key v = Ok r ->
  r <> KStr "Invalid" /\ r <> KStr "" /\ r <> KNone.
Proof.
  destruct v as [| b | q | s | |]; simpl; intros Ht Hi Hk; inversion Hk;
    try discriminate; repeat split; try discriminate.
  - intros E. inversion E. subst s. discriminate.
  - intros E. inversion E. subst s. discriminate.
Qed.

(** X8: the Role Stats reducer lists no role for the sentinel 'Invalid',
    for the empty label or for a missing one. *)
Theorem invalid_role_never_listed (matches : list json)
  (out : key_dict Role.stats) :
  aggregate_role_meta matches = Ok out ->
  ~ In (KStr "Invalid") (map fst out) /\
  ~ In (KStr "") (map fst out) /\
  ~ In KNone (map fst out).
Proof.
  intros H.
  assert (Hkey : forall r s, In (r, s) out ->
                   r <> KStr "Invalid" /\ r <> KStr "" /\ r <> KNone).
  { intros r s Hin.
    destruct (role_output_entry _ _ _ _ H Hin) as (data & Hd & _).
    pose proof (role_data_invariant
                  (fun r _ => r <> KStr "Invalid" /\ r <> KStr "" /\ r <> KNone)
                  matches) as Hinv.
    rewrite Forall_forall in Hinv.
    apply (Hinv (fun kv r s Ht Hi Hk _ => role_key_valid _ r Ht Hi Hk) _ Hd). }
  repeat split; intros Hin; apply in_map_iff in Hin;
    destruct Hin as ([r s] & E & Hin); simpl in E; subst r;
    destruct (Hkey _ _ Hin) as (H1 & H2 & H3); congruence.
Qed.

Lemma invalid_role_never_listed_witness :
  ~ In (KStr "Invalid") (map fst top_lane_output) /\
  ~ In (KStr "") (map fst top_lane_output) /\
  ~ In KNone (map fst top_lane_output).
Proof.
  apply (invalid_role_never_listed top_lane). vm_compute. reflexivity.
Defined.




(** X10: every role of the output has at least one game, and its win rate
    and the pick rates of its top champions are percentages, between 0 and
    100. *)
Theorem role_rates_are_percentages (matches : list json)
  (out : key_dict Role.stats) (r : pykey) (s : Role.stats) :
  aggregate_role_meta matches = Ok out -> In (r, s) out ->
  1 <= Role.games_played s /\
  (0 <= Role.win_rate s /\ Role.win_rate s <= 100)%Q /\
  forall row, In row (Role.top_champions s) ->
    (0 <= Role.pick_rate_in_role row /\ Role.pick_rate_in_role row <= 100)%Q.
Proof.
  intros H Hin.
  destruct (role_output_entry _ _ _ _ H Hin) as (data & _ & Hok & He).
  apply role_entry_fields in He. destruct He as (Hg & Hr & Htop).
  destruct Hok as (Hg1 & Hw & Hc & Hsum).
  rewrite Hg, Hr, Htop. split; [exact Hg1 |]. split.
  - apply py_round_percent; apply ratio_percent; lia.
  - intros row Hrow. apply in_map_iff in Hrow. destruct Hrow as (x & <- & Hx).
    apply In_firstn in Hx.
    apply (Permutation_in x (Permutation_sym (sorted_reverse_perm _ _))) in Hx.
    pose proof (sum_values_bounds _ x Hc Hx). simpl.
    apply py_round_percent; apply ratio_percent; lia.
Qed.

Lemma role_rates_are_percentages_witness :
  1 <= Role.games_played top_lane_entry /\
  (0 <= Role.win_rate top_lane_entry /\ Role.win_rate top_lane_entry <= 100)%Q /\
  forall row, In row (Role.top_champions top_lane_entry) ->
    (0 <= Role.pick_rate_in_role row /\ Role.pick_rate_in_role row <= 100)%Q.
Proof.
  apply (role_rates_are_percentages top_lane top_lane_output (KStr "TOP")).
  - vm_compute. reflexivity.
  - left. reflexivity.
Defined.

Lemma top_ties_first_seen {A : Type} (key : A -> Q) (n : nat) (l : list A)
  (k : Q) :
  exists rest,
    filter (fun y => Qeq_bool (key y) k) l
    = filter (fun y => Qeq_bool (key y) k) (firstn n (sorted_reverse key l))
      ++ rest.
Proof.
  exists (filter (fun y => Qeq_bool (key y) k) (skipn n (sorted_reverse key l))).
  rewrite <- filter_app, firstn_skipn. symmetry. apply sorted_reverse_stable.
Qed.

Lemma filter_map_comm {A B : Type} (f : A -> B) (p : B -> bool) (l : list A) :
  filter p (map f l) = map f (filter (fun x => p (f x)) l).
Proof.
  induction l as [| x l IH]; simpl; [reflexivity |].
  destruct (p (f x)); simpl; now rewrite IH.
Qed.

Lemma Qeq_bool_inject_Z (a b : Z) : Qeq_bool (inject_Z a) (inject_Z b) = (a =? b).
Proof.
  unfold Qeq_bool, inject_Z. simpl. now rewrite !Z.mul_1_r.
Qed.

(** X11: among the champions of a role with the same number of games, the
    listed ones stand in the order they were first seen in that role, and
    they are the first of them. *)
Theorem top_champions_ties_first_seen (matches : list json)
  (out : key_dict Role.stats) (r : pykey) (s : Role.stats) (k : Z) :
  aggregate_role_meta matches = Ok out -> In (r, s) out ->
  exists data rest,
    In (r, data) (role_data matches) /\
    map fst (filter (fun x => snd x =? k) (Role.champions data))
    = map Role.champion
        (filter (fun row => Role.top_games row =? k) (Role.top_champions s))
      ++ rest.
Proof.
  intros H Hin.
  destruct (role_output_entry _ _ _ _ H Hin) as (data & Hd & _ & He).
  apply role_entry_fields in He. destruct He as (_ & _ & Htop).
  destruct (top_ties_first_seen (fun x : pykey * Z => inject_Z (snd x)) 10
              (Role.champions data) (inject_Z k)) as [rest Hrest].
  exists data, (map fst rest). split; [exact Hd |].
  rewrite Htop, filter_map_comm, map_map, <- map_app. cbn [top_champion_row
    Role.top_games Role.champion].
  rewrite (filter_ext _ (fun y : pykey * Z => Qeq_bool (inject_Z (snd y)) (inject_Z k)))
    by (intros; now rewrite Qeq_bool_inject_Z).
  rewrite Hrest. f_equal. f_equal. apply filter_ext.
  intros. now rewrite Qeq_bool_inject_Z.
Qed.

Lemma top_champions_ties_first_seen_witness :
  exists data rest,
    In (KStr "TOP", data) (role_data top_lane) /\
    map fst (filter (fun x => snd x =? 1) (Role.champions data))
    = map Role.champion
        (filter (fun row => Role.top_games row =? 1)
           (Role.top_champions top_lane_entry))
      ++ rest.
Proof.
  apply (top_champions_ties_first_seen top_lane top_lane_output).
  - vm_compute. reflexivity.
  - left. reflexivity.
Defined.

(** ** The Build Stats reducer *)

Lemma tuple_key_length (l : list json) (b : list pykey) :
  tuple_key l = Ok b -> List.length b = List.length l.
Proof.
  revert b. induction l as [| v l IH]; simpl; intros b H.
  - now inversion H.
  - apply rbind_Ok in H. destruct H as (k & _ & H).
    apply rbind_Ok in H. destruct H as (ks & Hks & H).
    inversion H. simpl. f_equal. now apply IH.
Qed.

(** The hashed tuple of a sorted item list is in normal form. *)
Lemma sorted_items_in_order (l s : list json) (b : list pykey) :
  sort_list l = Ok s -> tuple_key s = Ok b -> in_order b.
Proof.
  intros Hs Hb. pose proof (sort_list_perm _ _ Hs) as Hp.
  destruct (sort_list_kind _ _ Hs) as [Hlen | Hu].
  - left. rewrite (tuple_key_length _ _ Hb), <- (Permutation_length Hp). exact Hlen.
  - right. rewrite (tuple_key_uniform s (uniform_perm _ _ Hp Hu)) in Hb.
    inversion Hb. now apply Sorted_key_of, (sort_list_Sorted l).
Qed.

Lemma incr_builds_ok (b : list pykey) (builds : Build.counts) :
  in_order b -> builds_ok builds -> builds_ok (incr tuple_eqb b builds).
Proof.
  intros Hb Hall. unfold incr, builds_ok.
  apply (Forall_od_set tuple_eqb tuple_eqb_eq); [exact Hall |].
  simpl. split; [exact Hb |].
  unfold od_get. destruct (od_find tuple_eqb b builds) as [n |] eqn:E; [| lia].
  apply (od_find_In tuple_eqb tuple_eqb_eq) in E.
  unfold builds_ok in Hall. rewrite Forall_forall in Hall.
  destruct (Hall _ E) as [_ Hn]. simpl in Hn. lia.
Qed.

Lemma champion_items_ok (matches : list json) :
  Forall (fun e => builds_ok (snd e)) (champion_items matches).
Proof.
  unfold champion_items. apply for_each_try_state; [| constructor].
  intros d m _ Hd. unfold build_match.
  destruct (subscript_if_in "participants" m) as [| e | ps]; try exact Hd.
  destruct (py_iter ps) as [l | e]; [| exact Hd].
  apply for_each_state; [| exact Hd].
  clear d Hd. intros d p _ Hd. unfold build_participant.
  destruct p as [| | | | | kv]; try exact Hd.
  destruct (negb (truthy (get kv "champion" JNull))
            || negb (truthy (get kv "items" (JList [])))); [exact Hd |].
  unfold py_sorted.
  destruct (py_iter (get kv "items" (JList []))) as [items | e]; [| exact Hd].
  cbn [rbind].
  destruct (sort_list items) as [sorted_items | e] eqn:Es; [| exact Hd].
  destruct (to_key (get kv "champion" JNull)) as [c | e]; [| exact Hd].
  assert (Hold : builds_ok (od_get key_eqb [] c d)).
  { destruct (od_get_cases (@nil (list pykey * Z)) c d) as [-> | Hin];
      [constructor |].
    rewrite Forall_forall in Hd. apply (Hd _ Hin). }
  destruct (tuple_key sorted_items) as [b | e] eqn:Eb; simpl;
    apply (Forall_od_set key_eqb key_eqb_eq); try exact Hd; simpl;
    [| exact Hold].
  apply incr_builds_ok; [| exact Hold].
  now apply (sorted_items_in_order items sorted_items).
Qed.

Lemma top_build_rows_map (total_games : Z) (top : Build.counts)
  (rows : list Build.top_build) :
  top_build_rows total_games top = Ok rows ->
  rows = map (top_build_row total_games) top.
Proof.
  revert rows. induction top as [| [b n] top IH]; simpl; intros rows H.
  - now inversion H.
  - apply rbind_Ok in H. destruct H as (q & Hq & H). apply py_div_Ok in Hq.
    apply rbind_Ok in H. destruct H as (rest & Hrest & H).
    inversion H. subst. f_equal. now apply IH.
Qed.

Lemma build_entries_In (items : key_dict Build.counts)
  (out0 out : key_dict Build.stats) (c : pykey) (s : Build.stats) :
  build_entries items out0 = Ok out -> In (c, s) out ->
  In (c, s) out0 \/
  exists builds,
    In (c, builds) items /\ sum_values builds <> 0 /\
    Build.total_games s = sum_values builds /\
    Build.top_builds s
    = map (top_build_row (sum_values builds))
        (firstn 5 (sorted_reverse (fun x => inject_Z (snd x)) builds)).
Proof.
  revert out0. induction items as [| [c' builds] items IH];
    cbn [build_entries]; intros out0 H Hin.
  - inversion H. subst. now left.
  - destruct (sum_values builds =? 0) eqn:Eg.
    + destruct (IH _ H Hin) as [? | (b' & Hb & Hrest)]; [now left |].
      right. exists b'. split; [now right | exact Hrest].
    + apply rbind_Ok in H. destruct H as (rows & Hrows & H).
      apply top_build_rows_map in Hrows.
      destruct (IH _ H Hin) as [Hin' | (b' & Hb & Hrest)].
      * apply (In_od_set key_eqb key_eqb_eq) in Hin'.
        destruct Hin' as [[-> ->] | ?]; [| now left].
        right. exists builds. apply Z.eqb_neq in Eg. simpl.
        split; [now left |]. split; [exact Eg |]. now split.
      * right. exists b'. split; [now right | exact Hrest].
Qed.

(** An entry of the output and the counters it was built from. *)
Lemma build_output_entry (matches : list json) (out : key_dict Build.stats)
  (c : pykey) (s : Build.stats) :
  aggregate_item_builds matches = Ok out -> In (c, s) out ->
  exists builds,
    In (c, builds) (champion_items matches) /\ builds_ok builds /\
    sum_values builds <> 0 /\
    Build.total_games s = sum_values builds /\
    Build.top_builds s
    = map (top_build_row (sum_values builds))
        (firstn 5 (sorted_reverse (fun x => inject_Z (snd x)) builds)).
Proof.
  unfold aggregate_item_builds. intros H Hin.
  destruct (build_entries_In _ _ _ _ _ H Hin) as [[] | (builds & Hd & Hne & Ht & Hr)].
  exists builds. split; [exact Hd |]. split; [| now repeat split].
  pose proof (champion_items_ok matches) as Hok. rewrite Forall_forall in Hok.
  apply (Hok _ Hd).
Qed.

Lemma top_build_source (builds : Build.counts) (row : Build.top_build) (t : Z) :
  In row (map (top_build_row t)
            (firstn 5 (sorted_reverse (fun x => inject_Z (snd x)) builds))) ->
  exists x, In x builds /\ row = top_build_row t x.
Proof.
  intros Hrow. apply in_map_iff in Hrow. destruct Hrow as (x & <- & Hx).
  apply In_firstn in Hx.
  apply (Permutation_in x (Permutation_sym (sorted_reverse_perm _ _))) in Hx.
  now exists x.
Qed.

(** X12: every build the Build Stats reducer lists is in normal form: its
    items stand in non-decreasing order (a build of one item is as it was
    given). *)
Theorem listed_builds_are_sorted (matches : list json)
  (out : key_dict Build.stats) (c : pykey) (s : Build.stats)
  (row : Build.top_build) :
  aggregate_item_builds matches = Ok out -> In (c, s) out ->
  In row (Build.top_builds s) ->
  (List.length (Build.items row) <= 1)%nat \/
  StronglySorted key_le (Build.items row).
Proof.
  intros H Hin Hrow.
  destruct (build_output_entry _ _ _ _ H Hin) as (builds & _ & Hok & _ & _ & Htop).
  rewrite Htop in Hrow. apply top_build_source in Hrow.
  destruct Hrow as (x & Hx & ->). unfold builds_ok in Hok.
  rewrite Forall_forall in Hok. apply (Hok _ Hx).
Qed.

Lemma listed_builds_are_sorted_witness :
  (List.length [KNum 1; KNum 2; KNum 3] <= 1)%nat \/
  StronglySorted key_le [KNum 1; KNum 2; KNum 3].
Proof.
  apply (listed_builds_are_sorted ashe_builds ashe_builds_output (KStr "Ashe")
           ashe_builds_entry (top_build_row 3 ([KNum 1; KNum 2; KNum 3], 2))).
  - vm_compute. reflexivity.
  - left. reflexivity.
  - left. reflexivity.
Defined.




(** ** The Matchup Stats reducer *)








Lemma unplaceable_raises (p : json) (tp : Matchup.teams) :
  unplaceable p = true -> exists e, place_participant tp p = Raise e tp.
Proof.
  destruct p as [| b | q | s | l | kv]; simpl; intros H;
    try (now eexists).
  destruct (truthy (get kv "team_id" JNull)); [| discriminate].
  destruct (truthy (position_of kv)); [| discriminate].
  destruct (is_str "Invalid" (position_of kv)); [discriminate |].
  destruct (truthy (get kv "champion" JNull)); [| discriminate].
  simpl in *.
  destruct (to_key (get kv "team_id" JNull)) as [t | e]; [| now eexists].
  destruct (to_key (position_of kv)) as [r | e].
  - destruct (key_eqb t (KNum 100)); [discriminate |].
    destruct (key_eqb t (KNum 200)); [discriminate |]. now eexists.
  - destruct (key_eqb t (KNum 100)); [now eexists |].
    destruct (key_eqb t (KNum 200)); now eexists.
Qed.

Lemma for_each_raises {S X : Type} (body : S -> X -> outcome S) (l : list X)
  (x : X) (s : S) :
  In x l -> (forall s, raised (body s x) = true) ->
  raised (for_each body l s) = true.
Proof.
  intros Hin Hx. revert s. induction l as [| y l IH]; [destruct Hin |].
  intros s. simpl. destruct Hin as [-> | Hin].
  - specialize (Hx s). destruct (body s x); [discriminate | reflexivity].
  - destruct (body s y); [now apply IH | reflexivity].
Qed.

(** X15: a record with a participant the grouping by team and role fails
    on, such as one of a team other than 100 and 200, adds nothing to the
    matchups, wherever the participant stands among the others: the
    result is that of the records without it. *)
Theorem unplaceable_participant_drops_match (pre post : list json) (m : json) :
  existsb unplaceable (participants m) = true ->
  matchup_data (pre ++ m :: post) = matchup_data (pre ++ post) /\
  aggregate_matchups (pre ++ m :: post) = aggregate_matchups (pre ++ post).
Proof.
  intros H. apply existsb_exists in H. destruct H as (p & Hin & Hp).
  assert (Hd : matchup_data (pre ++ m :: post) = matchup_data (pre ++ post)).
  { unfold matchup_data. apply for_each_try_skip. intros d.
    unfold matchup_match. unfold participants in Hin.
    destruct (subscript_if_in "participants" m) as [| e | ps];
      try reflexivity.
    destruct (py_iter ps) as [l | e]; [| reflexivity].
    assert (Hr : raised (for_each place_participant l ([], [])) = true).
    { apply (for_each_raises _ l p); [exact Hin |]. intros tp.
      destruct (unplaceable_raises p tp Hp) as [e ->]. reflexivity. }
    destruct (for_each place_participant l ([], [])); [discriminate |].
    reflexivity. }
  split; [exact Hd |]. unfold aggregate_matchups. now rewrite Hd.
Qed.

Lemma unplaceable_participant_drops_match_witness :
  matchup_data ([garen_lux true; garen_lux true] ++ third_team :: [])
  = matchup_data ([garen_lux true; garen_lux true] ++ []) /\
  aggregate_matchups ([garen_lux true; garen_lux true] ++ third_team :: [])
  = aggregate_matchups ([garen_lux true; garen_lux true] ++ []).
Proof.
  apply (unplaceable_participant_drops_match
           [garen_lux true; garen_lux true] [] third_team).
  vm_compute. reflexivity.
Defined.

Lemma for_each_app_Normal {S X : Type} (body : S -> X -> outcome S)
  (l1 l2 : list X) (s s' : S) :
  for_each body (l1 ++ l2) s = Normal s' ->
  exists s1, for_each body l1 s = Normal s1 /\ for_each body l2 s1 = Normal s'.
Proof.
  revert s. induction l1 as [| x l1 IH]; simpl; intros s H.
  - now exists s.
  - destruct (body s x) as [s1 | e s1]; [now apply IH | discriminate].
Qed.

(** What placing one participant does to the slot of a role. *)
Lemma place_participant_slot (tp tp' : Matchup.teams) (p : json) (r : pykey) :
  place_participant tp p = Normal tp' ->
  od_find key_eqb r (fst tp')
  = (if claims (KNum 100) r p then Some (slot_of p)
     else od_find key_eqb r (fst tp)) /\
  od_find key_eqb r (snd tp')
  = (if claims (KNum 200) r p then Some (slot_of p)
     else od_find key_eqb r (snd tp)).
Proof.
  destruct p as [| b | q | s | l | kv]; simpl; try discriminate.
  destruct (truthy (get kv "team_id" JNull)); simpl;
    [| intros H; inversion H; now split].
  destruct (truthy (position_of kv)); simpl;
    [| intros H; inversion H; now split].
  destruct (is_str "Invalid" (position_of kv)); simpl;
    [intros H; inversion H; now split |].
  destruct (truthy (get kv "champion" JNull)); simpl;
    [| intros H; inversion H; now split].
  destruct (to_key (get kv "team_id" JNull)) as [t | e]; [| discriminate].
  destruct (key_eqb t (KNum 100)) eqn:E1.
  - apply key_eqb_eq in E1. subst t.
    destruct (to_key (position_of kv)) as [r' | e]; [| discriminate].
    intros H. inversion H. subst tp'. simpl.
    destruct (key_eqb r' r) eqn:Er.
    + apply key_eqb_eq in Er. subst r'.
      now rewrite (od_find_set_same key_eqb key_eqb_eq).
    + rewrite (od_find_set_other key_eqb key_eqb_eq);
        [now split | now apply key_eqb_false].
  - destruct (key_eqb t (KNum 200)) eqn:E2; [| discriminate].
    destruct (to_key (position_of kv)) as [r' | e]; [| discriminate].
    intros H. inversion H. subst tp'. simpl.
    destruct (key_eqb r' r) eqn:Er.
    + apply key_eqb_eq in Er. subst r'.
      now rewrite (od_find_set_same key_eqb key_eqb_eq).
    + rewrite (od_find_set_other key_eqb key_eqb_eq);
        [now split | now apply key_eqb_false].
Qed.

Lemma place_participants_unclaimed (l : list json) (tp tp' : Matchup.teams)
  (r : pykey) :
  for_each place_participant l tp = Normal tp' ->
  (forallb (fun p => negb (claims (KNum 100) r p)) l = true ->
   od_find key_eqb r (fst tp') = od_find key_eqb r (fst tp)) /\
  (forallb (fun p => negb (claims (KNum 200) r p)) l = true ->
   od_find key_eqb r (snd tp') = od_find key_eqb r (snd tp)).
Proof.
  revert tp. induction l as [| p l IH]; simpl; intros tp H.
  - inversion H. now split.
  - destruct (place_participant tp p) as [tp1 | e tp1] eqn:Ep; [| discriminate].
    destruct (place_participant_slot _ _ _ r Ep) as [H1 H2].
    destruct (IH _ H) as [IH1 IH2]. split; intros Hall;
      apply andb_prop in Hall; destruct Hall as [Hp Hl].
    + rewrite (IH1 Hl), H1. now destruct (claims (KNum 100) r p).
    + rewrite (IH2 Hl), H2. now destruct (claims (KNum 200) r p).
Qed.

(** X16: when several participants of a match take the same role on the
    same team, the last of them holds the slot the matchups are read from;
    a role no participant of the team takes has no slot. *)
Theorem last_participant_holds_the_slot (l : list json) (tp : Matchup.teams)
  (r : pykey) :
  for_each place_participant l ([], []) = Normal tp ->
  (forall l1 p l2,
     l = l1 ++ p :: l2 -> claims (KNum 100) r p = true ->
     forallb (fun p' => negb (claims (KNum 100) r p')) l2 = true ->
     od_find key_eqb r (fst tp) = Some (slot_of p)) /\
  (forall l1 p l2,
     l = l1 ++ p :: l2 -> claims (KNum 200) r p = true ->
     forallb (fun p' => negb (claims (KNum 200) r p')) l2 = true ->
     od_find key_eqb r (snd tp) = Some (slot_of p)) /\
  (forallb (fun p => negb (claims (KNum 100) r p)) l = true ->
   od_find key_eqb r (fst tp) = None) /\
  (forallb (fun p => negb (claims (KNum 200) r p)) l = true ->
   od_find key_eqb r (snd tp) = None).
Proof.
  intros H.
  assert (Hlast : forall l1 p l2, l = l1 ++ p :: l2 ->
            exists tp1 tp2,
              place_participant tp1 p = Normal tp2 /\
              for_each place_participant l2 tp2 = Normal tp).
  { intros l1 p l2 ->. apply for_each_app_Normal in H.
    destruct H as (tp1 & _ & H). simpl in H.
    destruct (place_participant tp1 p) as [tp2 | e tp2] eqn:Ep;
      [| discriminate].
    now exists tp1, tp2. }
  split; [| split; [| split]].
  - intros l1 p l2 Hl Hp Hl2.
    destruct (Hlast _ _ _ Hl) as (tp1 & tp2 & Ep & Hrest).
    destruct (place_participants_unclaimed _ _ _ r Hrest) as [H1 _].
    destruct (place_participant_slot _ _ _ r Ep) as [H2 _].
    now rewrite (H1 Hl2), H2, Hp.
  - intros l1 p l2 Hl Hp Hl2.
    destruct (Hlast _ _ _ Hl) as (tp1 & tp2 & Ep & Hrest).
    destruct (place_participants_unclaimed _ _ _ r Hrest) as [_ H1].
    destruct (place_participant_slot _ _ _ r Ep) as [_ H2].
    now rewrite (H1 Hl2), H2, Hp.
  - intros Hall.
    destruct (place_participants_unclaimed _ _ _ r H) as [H1 _].
    now rewrite (H1 Hall).
  - intros Hall.
    destruct (place_participants_unclaimed _ _ _ r H) as [_ H1].
    now rewrite (H1 Hall).
Qed.

Lemma last_participant_holds_the_slot_witness :
  od_find key_eqb (KStr "TOP")
    (fst (state_of (for_each place_participant
                      [garen_top; darius_top; lux_middle] ([], []))))
  = Some (slot_of darius_top).
Proof.
  refine (proj1 (last_participant_holds_the_slot
                   [garen_top; darius_top; lux_middle] _ (KStr "TOP") _)
                [garen_top] darius_top [lux_middle] _ _ _);
    vm_compute; reflexivity.
Defined.

(** ** The Objective Correlation reducer *)











(** ** The Summary Composer *)

Section TopRows.

Context {A R : Type}.
Variable f : Z -> A -> R.

Lemma ranked_length (i : Z) (l : list A) :
  List.length (ranked f i l) = List.length l.
Proof.
  revert i. induction l as [| x l IH]; simpl; intros i; [reflexivity |].
  now rewrite IH.
Qed.

Lemma ranked_nth (i : Z) (l : list A) (k : nat) (row : R) :
  nth_error (ranked f i l) k = Some row ->
  exists x, nth_error l k = Some x /\ row = f (i + Z.of_nat k + 1) x.
Proof.
  revert i k. induction l as [| x l IH]; intros i k; [now destruct k |].
  destruct k as [| k]; simpl.
  - intros H. inversion H. exists x. split; [reflexivity |].
    f_equal. lia.
  - intros H. destruct (IH _ _ H) as (y & Hy & ->). exists y.
    split; [exact Hy |]. f_equal. lia.
Qed.

Lemma ranked_In (i : Z) (l : list A) (row : R) :
  In row (ranked f i l) -> exists r x, In x l /\ row = f r x.
Proof.
  revert i. induction l as [| x l IH]; simpl; intros i; [tauto |].
  intros [<- | H].
  - exists (i + 1), x. split; [now left | reflexivity].
  - destruct (IH _ H) as (r & y & Hy & ->). exists r, y.
    split; [now right | reflexivity].
Qed.

Lemma In_ranked (i : Z) (l : list A) (x : A) :
  In x l -> exists r, In (f r x) (ranked f i l).
Proof.
  revert i. induction l as [| y l IH]; simpl; intros i; [tauto |].
  intros [-> | H].
  - exists (i + 1). now left.
  - destruct (IH (i + 1) H) as (r & Hr). exists r. now right.
Qed.

Variable key : A -> Q.

Lemma ranked_sorted (val : R -> Q) (i : Z) (l : list A) :
  (forall r x, val (f r x) = key x) ->
  StronglySorted (fun a b => (key b <= key a)%Q) l ->
  StronglySorted (fun a b => (val b <= val a)%Q) (ranked f i l).
Proof.
  intros Hval Hl. revert i.
  induction Hl as [| x l Hl IH Hx]; simpl; intros i; constructor;
    [apply IH |].
  apply Forall_forall. intros row Hrow.
  destruct (ranked_In _ _ _ Hrow) as (r & y & Hy & ->).
  rewrite !Hval. rewrite Forall_forall in Hx. now apply Hx.
Qed.

Lemma In_skipn_In (n : nat) (l : list A) (x : A) :
  In x (skipn n l) -> In x l.
Proof.
  revert n. induction l as [| y l IH]; intros n; [now rewrite skipn_nil |].
  destruct n; simpl; [tauto |]. intros H. right. now apply (IH n).
Qed.

(** The entries a sorted list keeps in front are not below those it
    leaves out. *)
Lemma firstn_dominates (n : nat) (l : list A) (x y : A) :
  StronglySorted (fun a b => (key b <= key a)%Q) l ->
  In y (firstn n l) -> In x (skipn n l) -> (key x <= key y)%Q.
Proof.
  intros Hl. revert n. induction Hl as [| z l Hl IH Hz]; intros n.
  - rewrite firstn_nil. intros [].
  - destruct n as [| n]; simpl; [tauto |]. intros [<- | Hy] Hx.
    + rewrite Forall_forall in Hz. apply Hz.
      now apply (In_skipn_In n l).
    + now apply (IH n).
Qed.

End TopRows.

Lemma summary_list_top_ten {R : Type} (metric : Champion.stats -> Q)
  (eligible : key_dict Champion.stats) (f : Z -> pykey * Champion.stats -> R)
  (rk : R -> Z) (who : R -> pykey) (val : R -> Q) :
  (forall r x, rk (f r x) = r) ->
  (forall r x, who (f r x) = fst x) ->
  (forall r x, val (f r x) = metric (snd x)) ->
  top_ten metric eligible rk who val
    (ranked f 0 (firstn 10 (sorted_reverse (fun x => metric (snd x)) eligible))).
Proof.
  intros Hrk Hwho Hval.
  set (key := fun x : pykey * Champion.stats => metric (snd x)).
  pose proof (sorted_reverse_sorted key eligible) as Hsorted.
  pose proof (sorted_reverse_perm key eligible) as Hperm.
  split; [| split; [| split]].
  - unfold len. rewrite ranked_length, length_firstn,
      <- (Permutation_length Hperm). lia.
  - intros k row Hk. destruct (ranked_nth _ _ _ _ _ Hk) as (x & Hx & ->).
    rewrite Hrk, Hwho, Hval. split; [lia |]. exists (snd x).
    apply nth_error_In, In_firstn in Hx.
    apply (Permutation_in _ (Permutation_sym Hperm)) in Hx.
    split; [now destruct x | reflexivity].
  - apply (ranked_sorted f key); [exact Hval |]. now apply firstn_sorted.
  - intros c st Hin. apply (Permutation_in _ Hperm) in Hin.
    rewrite <- (firstn_skipn 10 (sorted_reverse key eligible)) in Hin.
    apply in_app_or in Hin. destruct Hin as [Hin | Hin].
    + left. destruct (In_ranked f 0 _ _ Hin) as (r & Hr).
      exists (f r (c, st)). split; [exact Hr |]. now rewrite Hwho, Hval.
    + right. intros row Hrow.
      destruct (ranked_In _ _ _ _ Hrow) as (r & y & Hy & ->). rewrite Hval.
      apply (firstn_dominates key 10 _ (c, st) y Hsorted Hy Hin).
Qed.

(** X18: each of the four lists of the summary holds the ten champions
    (all of them when fewer) of the greatest statistic, the greatest first and
    ranked 1, 2, ...: every champion left out has a statistic no greater than
    any listed one. The lists by win rate, gold efficiency and vision are drawn
    from the champions with at least 5 games, the list by pick rate from all
    champions. *)
Theorem summary_lists_are_top_ten (now : string)
  (champion_stats : key_dict Champion.stats) (role_stats : key_dict Role.stats)
  (objective_stats : list (string * Objective.stats)) (total_matches : Z) :
  let s := create_meta_summary now champion_stats role_stats objective_stats
             total_matches in
  top_ten Champion.win_rate (with_five_games champion_stats)
    Summary.w_rank Summary.w_champion Summary.w_win_rate
    (Summary.top_10_by_win_rate s) /\
  top_ten Champion.pick_rate champion_stats
    Summary.p_rank Summary.p_champion Summary.p_pick_rate
    (Summary.top_10_by_pick_rate s) /\
  top_ten Champion.gold_efficiency (with_five_games champion_stats)
    Summary.g_rank Summary.g_champion Summary.g_gold_efficiency
    (Summary.top_10_gold_efficient s) /\
  top_ten Champion.avg_vision_per_min (with_five_games champion_stats)
    Summary.v_rank Summary.v_champion Summary.v_avg_vision_per_min
    (Summary.top_10_vision_control s) /\
  forall c st, In (c, st) (with_five_games champion_stats) <->
               In (c, st) champion_stats /\ 5 <= Champion.games_played st.
Proof.
  cbv zeta. split; [| split; [| split; [| split]]].
  5: { intros c st. unfold with_five_games. rewrite filter_In. simpl.
       now rewrite Z.leb_le. }
  - apply summary_list_top_ten; reflexivity.
  - apply summary_list_top_ten; reflexivity.
  - apply summary_list_top_ten; reflexivity.
  - apply summary_list_top_ten; reflexivity.
Qed.

(** ** The script around the reducers *)

Lemma firstn_snoc {A : Type} (n : nat) (l : list A) (x : A) :
  firstn n (l ++ [x])
  = if (List.length l <? n)%nat then firstn n l ++ [x] else firstn n l.
Proof.
  rewrite firstn_app. destruct (List.length l <? n)%nat eqn:E.
  - apply Nat.ltb_lt in E.
    destruct (n - List.length l)%nat as [| k] eqn:Ek; [lia |]. simpl.
    now rewrite firstn_nil.
  - apply Nat.ltb_ge in E.
    replace (n - List.length l)%nat with 0%nat by lia. simpl.
    now rewrite app_nil_r.
Qed.

(** What the loop of [load_match_data] has done after the files [l]. *)
Lemma load_files_state {W : Type} (s3 : services W) (bucket_name : string)
  (l : list string) :
  let st := fold_left (load_file s3 bucket_name) l
              {| loaded := []; errors := 0; warnings := [] |} in
  loaded st = fetched s3 bucket_name l /\
  errors st = len (refusals s3 bucket_name l) /\
  warnings st = firstn 5 (refusals s3 bucket_name l).
Proof.
  induction l as [| file_key l IH] using rev_ind; [repeat split |].
  cbv zeta in *. rewrite fold_left_app. simpl fold_left.
  set (st := fold_left (load_file s3 bucket_name) l _) in *.
  destruct IH as (Hl & He & Hw). unfold fetched, refusals.
  rewrite !flat_map_app. simpl flat_map.
  fold (fetched s3 bucket_name l). fold (refusals s3 bucket_name l).
  set (F := refusals s3 bucket_name l) in *.
  unfold load_file.
  destruct (fetch s3 bucket_name file_key) as [match_data | why];
    cbn [loaded errors warnings].
  - rewrite !app_nil_r. rewrite Hl. now repeat split.
  - rewrite !app_nil_r. split; [exact Hl |]. split.
    + rewrite He. unfold len. rewrite length_app. simpl. lia.
    + rewrite firstn_snoc, He, Hw. unfold len.
      destruct (Z.of_nat (List.length F) + 1 <=? 5) eqn:E5.
      * apply Z.leb_le in E5.
        assert (E : (List.length F <? 5)%nat = true) by (apply Nat.ltb_lt; lia).
        now rewrite E.
      * apply Z.leb_gt in E5.
        assert (E : (List.length F <? 5)%nat = false)
          by (apply Nat.ltb_ge; lia).
        now rewrite E.
Qed.


(** X19: [load_match_data] returns the records of the files that can be
    read and parsed, in the order of the files, and counts the others: records
    and errors add up to the files. It warns of the first five files that
    failed, and once more, with the count, when more than five did. *)
Theorem loading_counts_every_file {W : Type} (s3 : services W)
  (bucket_name : string) (match_files : list string) :
  let st := load_match_data s3 bucket_name match_files in
  loaded st = fetched s3 bucket_name match_files /\
  errors st = len (refusals s3 bucket_name match_files) /\
  len (loaded st) + errors st = len match_files /\
  warnings st
  = firstn 5 (refusals s3 bucket_name match_files)
    ++ (if 5 <? errors st then [LoadErrors (errors st)] else []).
Proof.
  cbv zeta. unfold load_match_data.
  destruct (load_files_state s3 bucket_name match_files) as (Hl & He & Hw).
  cbv zeta in Hl, He, Hw.
  set (st := fold_left (load_file s3 bucket_name) match_files _) in *.
  assert (Hsum : len (fetched s3 bucket_name match_files)
                 + len (refusals s3 bucket_name match_files)
                 = len match_files).
  { clear. unfold fetched, refusals, len.
    induction match_files as [| k l IH]; [reflexivity |]. simpl.
    rewrite !length_app.
    destruct (fetch s3 bucket_name k); simpl List.length; lia. }
  destruct (5 <? errors st) eqn:E5; cbn [loaded errors warnings].
  - rewrite E5, Hl, He, Hw. repeat split. exact Hsum.
  - rewrite E5, Hl, He, Hw, app_nil_r. repeat split. exact Hsum.
Qed.

Lemma no_match_file_fold (pages : list page) (acc : list string) :
  fold_left extend_with_page pages acc = [] <->
  acc = [] /\ no_match_file pages.
Proof.
  revert acc. induction pages as [| p pages IH]; simpl; intros acc.
  - split; [intros ->; split; [reflexivity | intros ? ? []] | tauto].
  - rewrite IH. unfold no_match_file. destruct p as [contents |]; simpl.
    + split.
      * intros [Happ Hno]. apply app_eq_nil in Happ. destruct Happ as [-> Hf].
        split; [reflexivity |]. intros c key [Hc | Hc] Hkey.
        -- inversion Hc. subst c.
           destruct (ends_with ".json" key) eqn:E; [| reflexivity].
           assert (Hin : In key (filter (ends_with ".json") contents))
             by (apply filter_In; now split).
           rewrite Hf in Hin. destruct Hin.
        -- now apply (Hno c).
      * intros [-> Hno]. split.
        -- simpl. destruct (filter (ends_with ".json") contents) as [| key l] eqn:E;
             [reflexivity |].
           assert (Hin : In key (filter (ends_with ".json") contents))
             by (rewrite E; now left).
           apply filter_In in Hin. destruct Hin as [Hin Hk].
           rewrite (Hno contents key (or_introl eq_refl) Hin) in Hk.
           discriminate.
        -- intros c key Hc. apply Hno. now right.
    + split.
      * intros [-> Hno]. split; [reflexivity |].
        intros c key [Hc | Hc]; [discriminate | now apply Hno].
      * intros [-> Hno]. split; [reflexivity |].
        intros c key Hc. apply Hno. now right.
Qed.

Lemma run_aggregations_type_error_only (now patch : string)
  (matches : list json) :
  type_error_only (run_aggregations now patch matches).
Proof.
  unfold run_aggregations.
  apply type_error_only_bind;
    [apply aggregate_champion_stats_type_error_only |]. intros cs _.
  apply type_error_only_bind;
    [apply aggregate_role_meta_type_error_only |]. intros rs _.
  destruct (aggregate_item_builds_defined matches) as [ib ->].
  destruct (aggregate_matchups_defined matches) as [mu ->].
  unfold aggregate_objective_correlations.
  destruct (objective_rates_defined
              (for_each_try objective_match matches initial_objective_stats))
    as (os & -> & _).
  cbn [rbind]. apply type_error_only_Ok.
Qed.

(** How a run of [aggregate_match_data] can end. *)
Lemma aggregate_match_data_cases {W : Type} (s3 : services W)
  (bucket_name patch queue_type : string) (w : W) :
  let run := aggregate_match_data s3 bucket_name patch queue_type w in
  (exists why, get_match_files s3 bucket_name patch queue_type = Refused why /\
               run = (Uncaught (ServiceError why), w)) \/
  (get_match_files s3 bucket_name patch queue_type = Reply [] /\
   run = (Returned [], w)) \/
  (exists k l, get_match_files s3 bucket_name patch queue_type = Reply (k :: l) /\
     (run = (Uncaught (ScriptError TypeError), w) \/
      (exists why w', run = (Uncaught (ServiceError why), w')) \/
      (exists n c files w',
         run = (Returned [("matches_processed"%string, FInt n);
                          ("champions_analyzed"%string, FInt c);
                          ("aggregation_files"%string, FList files)], w')))).
Proof.
  cbv zeta. unfold aggregate_match_data.
  destruct (get_match_files s3 bucket_name patch queue_type)
    as [[| k l] | why].
  - right. left. now split.
  - right. right. exists k, l. split; [reflexivity |].
    destruct (run_aggregations _ patch _) as [o | e] eqn:Er.
    + destruct (save_all s3 bucket_name (artifacts patch o) w)
        as [w' [why |]].
      * right. left. now exists why, w'.
      * right. right. now eexists _, _, _, w'.
    + left. apply run_aggregations_type_error_only in Er. now subst e.
  - left. now exists why.
Qed.

Lemma get_match_files_empty {W : Type} (s3 : services W)
  (bucket_name patch queue_type : string) (pages : list page) :
  paginate s3 bucket_name
    ("matches/" ++ patch ++ "/" ++ queue_type ++ "/")%string = Reply pages ->
  get_match_files s3 bucket_name patch queue_type = Reply [] <->
  no_match_file pages.
Proof.
  intros Hp. unfold get_match_files. rewrite Hp.
  pose proof (no_match_file_fold pages []) as H. split.
  - intros E. inversion E as [E']. now apply H.
  - intros Hno. f_equal. now apply H.
Qed.

(** X20: when the listing holds no key that ends in .json,
    [aggregate_match_data] returns the empty dict, and only then, and the
    store is as it was; the script then ends with the KeyError of
    [result['matches_processed']], and only then. *)
Theorem no_match_file_ends_in_key_error {W : Type} (s3 : services W) (w : W)
  (pages : list page) :
  (forall bucket_name patch queue_type,
     paginate s3 bucket_name
       ("matches/" ++ patch ++ "/" ++ queue_type ++ "/")%string = Reply pages ->
     (no_match_file pages <->
      fst (aggregate_match_data s3 bucket_name patch queue_type w)
      = Returned []) /\
     (no_match_file pages ->
      snd (aggregate_match_data s3 bucket_name patch queue_type w) = w)) /\
  (paginate s3 "rift-rewind-match-data-ml-nyc" "matches/15.20/RANKED_SOLO/"
   = Reply pages ->
   (no_match_file pages <->
    fst (main s3 w) = Uncaught (ScriptError KeyError)) /\
   (no_match_file pages -> snd (main s3 w) = w)).
Proof.
  split.
  - intros bucket_name patch queue_type Hp.
    pose proof (get_match_files_empty s3 bucket_name patch queue_type pages Hp)
      as Hiff.
    destruct (aggregate_match_data_cases s3 bucket_name patch queue_type w)
      as [(why & Hg & Hrun) | [(Hg & Hrun) | (k & l & Hg & Hrun)]];
      cbv zeta in Hrun.
    + split; [split |].
      * intros Hno. apply Hiff in Hno. congruence.
      * rewrite Hrun. discriminate.
      * intros Hno. apply Hiff in Hno. congruence.
    + rewrite Hrun. split; [split |]; auto. intros _. now apply Hiff.
    + split; [split |].
      * intros Hno. apply Hiff in Hno. congruence.
      * destruct Hrun as [-> | [(why & w' & ->) | (n & c & files & w' & ->)]];
          discriminate.
      * intros Hno. apply Hiff in Hno. congruence.
  - intros Hp.
    pose proof (get_match_files_empty s3 "rift-rewind-match-data-ml-nyc"
                  "15.20" "RANKED_SOLO" pages Hp) as Hiff.
    unfold main.
    destruct (aggregate_match_data_cases s3 "rift-rewind-match-data-ml-nyc"
                "15.20" "RANKED_SOLO" w)
      as [(why & Hg & Hrun) | [(Hg & Hrun) | (k & l & Hg & Hrun)]];
      cbv zeta in Hrun.
    + rewrite Hrun. split; [split |].
      * intros Hno. apply Hiff in Hno. congruence.
      * discriminate.
      * reflexivity.
    + rewrite Hrun. simpl. split; [split |]; auto. intros _. now apply Hiff.
    + split; [split |].
      * intros Hno. apply Hiff in Hno. congruence.
      * destruct Hrun as [-> | [(why & w' & ->) | (n & c & files & w' & ->)]];
          simpl; discriminate.
      * intros Hno. apply Hiff in Hno. congruence.
Qed.

Lemma no_match_file_ends_in_key_error_witness :
  no_match_file [None; Some ["matches/15.20/RANKED_SOLO/notes.txt"%string]] /\
  main (sample_services ["matches/15.20/RANKED_SOLO/notes.txt"%string]
          (Reply text_kda_record)) []
  = (Uncaught (ScriptError KeyError), []).
Proof.
  assert (Hno : no_match_file
                  [None; Some ["matches/15.20/RANKED_SOLO/notes.txt"%string]]).
  { intros contents key [Hc | [Hc | []]]; [discriminate |].
    inversion Hc. subst contents. intros [<- | []]. reflexivity. }
  split; [exact Hno |].
  destruct (no_match_file_ends_in_key_error
              (sample_services ["matches/15.20/RANKED_SOLO/notes.txt"%string]
                 (Reply text_kda_record)) []
              [None; Some ["matches/15.20/RANKED_SOLO/notes.txt"%string]])
    as [_ H].
  destruct (H eq_refl) as [Hiff Hw].
  apply injective_projections; [exact (proj1 Hiff Hno) | exact (Hw Hno)].
Defined.



(** ** Samples of the Role Stats reducer *)






